(** * Python-Pylenium-Web: the test-lifecycle reporting pipeline

    A shallow embedding of [utils/api_helper.py] (the tracking client),
    [utils/screenshot.py] (screenshot on failure), [utils/logger.py] (the
    logger provider) and of [conftest.py] (the status selection, the report
    hook, the browser fixture and the configuration fixtures), with the
    properties of the specification proved about them.

    Conventions of the embedding.
    - Python code that mutates [self], logs, calls the network or raises is
      written in a reader/state/exception monad [M W S A]: [W] holds what the
      outside world answers (the backend, the clock, the file system), [S]
      the mutable objects.  A raised exception keeps the mutations made
      before it, as in Python.
    - Only exceptions below [Exception] are modelled: they are what
      [except Exception] catches.
    - Strings are byte strings read as ASCII; [upper]/[lower] change the
      letters a-z/A-Z only.
    - Floats are IEEE-754 binary64 values ([spec_float] with precision 53
      and maximal exponent 1024), with the arithmetic of [SpecFloat].
    - Log lines are kept without their decorative pictograms, and a line
      that interpolates values is a constructor holding these values. *)

From Stdlib Require Import ZArith QArith Qround Qpower Ascii String Floats.SpecFloat Lia.
From stdpp Require Import base gmap strings list.

Local Open Scope Z_scope.

(** ** Exceptions and the monad *)

Inductive exn :=
| TypeError | ValueError | OverflowError | KeyError | ImportError | OSError
| Timeout | ConnectionError
| OtherError (msg : string).

Inductive result (A : Type) :=
| Ok (a : A)
| Raise (e : exn).
Arguments Ok {A} a.
Arguments Raise {A} e.

Definition M (W S A : Type) : Type := W -> S -> result A * S.

Section Monad.
Context {W S : Type}.

Definition ret {A} (a : A) : M W S A := fun _ s => (Ok a, s).

Definition bind {A B} (m : M W S A) (f : A -> M W S B) : M W S B :=
  fun w s =>
    match m w s with
    | (Ok a, s') => f a w s'
    | (Raise e, s') => (Raise e, s')
    end.

Definition raise {A} (e : exn) : M W S A := fun _ s => (Raise e, s).

(** [try: m except Exception as e: h e] *)
Definition try_except {A} (m : M W S A) (h : exn -> M W S A) : M W S A :=
  fun w s =>
    match m w s with
    | (Ok a, s') => (Ok a, s')
    | (Raise e, s') => h e w s'
    end.

Definition ask : M W S W := fun w s => (Ok w, s).
Definition get : M W S S := fun _ s => (Ok s, s).
Definition put (s : S) : M W S unit := fun _ _ => (Ok tt, s).
Definition modify (f : S -> S) : M W S unit := fun _ s => (Ok tt, f s).

(** A program that returns normally in every world and state. *)
Definition total {A} (m : M W S A) : Prop :=
  forall w s, exists a, fst (m w s) = Ok a.

(** An operation of the outside world that either works or raises. *)
Definition lift_outcome (o : option exn) : M W S unit :=
  match o with
  | None => ret tt
  | Some e => raise e
  end.
End Monad.

Declare Scope py_scope.
Delimit Scope py_scope with py.
Notation "x <- c1 ;; c2" := (bind c1 (fun x => c2))
  (at level 100, c1 at next level, right associativity) : py_scope.
Notation "c1 ;; c2" := (bind c1 (fun _ => c2))
  (at level 100, right associativity) : py_scope.

(** The outcome and the final state of a run. *)
Definition outcome_of {A S} (r : result A * S) : result A := fst r.
Definition state_of {A S} (r : result A * S) : S := snd r.

Definition returns_normally {A S} (r : result A * S) : Prop :=
  exists a, fst r = Ok a.

(** ** Strings *)

Definition upper_ascii (c : ascii) : ascii :=
  let n := nat_of_ascii c in
  if (97 <=? n)%nat && (n <=? 122)%nat then ascii_of_nat (n - 32) else c.

Definition lower_ascii (c : ascii) : ascii :=
  let n := nat_of_ascii c in
  if (65 <=? n)%nat && (n <=? 90)%nat then ascii_of_nat (n + 32) else c.

Fixpoint string_map (f : ascii -> ascii) (s : string) : string :=
  match s with
  | EmptyString => EmptyString
  | String c s' => String (f c) (string_map f s')
  end.

(** [s.upper()] and [s.lower()] *)
Definition upper : string -> string := string_map upper_ascii.
Definition lower : string -> string := string_map lower_ascii.

(** [sub in s] on two strings *)
Fixpoint contains (sub s : string) : bool :=
  String.prefix sub s ||
  match s with
  | EmptyString => false
  | String _ s' => contains sub s'
  end.

(** ** Floats *)

Definition float := spec_float.
Definition prec : Z := 53.
Definition emax : Z := 1024.

Definition float_of_Z (z : Z) : float := binary_normalize prec emax z 0 false.
Definition fmul : float -> float -> float := SFmul prec emax.
Definition fsub : float -> float -> float := SFsub prec emax.
Definition fdiv : float -> float -> float := SFdiv prec emax.

(** The double a decimal literal [n / 10^k] denotes: the correctly rounded
    quotient, as Python's parser gives. *)
Definition float_of_decimal (n : Z) (k : Z) : float :=
  fdiv (float_of_Z n) (float_of_Z (10 ^ k)).

(** [bool(x)] of a float: zero is false, everything else (NaN too) true. *)
Definition float_truthy (x : float) : bool :=
  match x with
  | S754_zero _ => false
  | _ => true
  end.

(** [int(x)] of a float: truncation towards zero; [OverflowError] on an
    infinity, [ValueError] on NaN. *)
Definition py_int_of_float (x : float) : result Z :=
  match x with
  | S754_zero _ => Ok 0
  | S754_infinity _ => Raise OverflowError
  | S754_nan => Raise ValueError
  | S754_finite s m e =>
      let a := match e with
               | Zneg k => Z.quot (Zpos m) (2 ^ Zpos k)
               | _ => Zpos m * 2 ^ e
               end in
      Ok (if s then - a else a)
  end.

(** The rational number a finite float stands for. *)
Definition float_value (x : float) : option Q :=
  match x with
  | S754_zero _ => Some 0%Q
  | S754_finite s m e =>
      let a := (inject_Z (Zpos m) * Qpower 2 e)%Q in
      Some (if s then (- a)%Q else a)
  | _ => None
  end.


(** ** Values decoded from JSON

    What [response.json()] returns.  [JNull] is Python's [None]; a [JDict]
    lists the items of a dict, whose keys are pairwise distinct. *)

#[local] Set Warnings "-register-all".
Inductive json :=
| JNull
| JBool (b : bool)
| JInt (z : Z)
| JFloat (x : float)
| JStr (s : string)
| JList (l : list json)
| JDict (d : list (string * json)).

(** [bool(v)] *)
Definition truthy (v : json) : bool :=
  match v with
  | JNull => false
  | JBool b => b
  | JInt z => negb (z =? 0)
  | JFloat x => float_truthy x
  | JStr s => negb (String.eqb s "")
  | JList l => match l with [] => false | _ => true end
  | JDict d => match d with [] => false | _ => true end
  end.

(** [k == v] for a string [k] *)
Definition str_eq_json (k : string) (v : json) : bool :=
  match v with
  | JStr s => String.eqb k s
  | _ => false
  end.

Fixpoint dict_get (k : string) (d : list (string * json)) : option json :=
  match d with
  | [] => None
  | (k', v) :: d' => if String.eqb k k' then Some v else dict_get k d'
  end.

(** [k in v] for a string [k]: key of a dict, element of a list, substring
    of a string; [TypeError] on what is not a container. *)
Definition py_in (k : string) (v : json) : result bool :=
  match v with
  | JDict d => Ok (match dict_get k d with Some _ => true | None => false end)
  | JList l => Ok (existsb (str_eq_json k) l)
  | JStr s => Ok (contains k s)
  | _ => Raise TypeError
  end.

(** [v[k]] for a string [k]: defined on dicts only. *)
Definition py_getitem (v : json) (k : string) : result json :=
  match v with
  | JDict d => match dict_get k d with Some x => Ok x | None => Raise KeyError end
  | _ => Raise TypeError
  end.

(** ** [int(s)] of a string

    Surrounding whitespace, an optional sign, then decimal digits that single
    underscores may separate, no more of them than the limit of the
    interpreter allows (4300, the default of [sys.get_int_max_str_digits()]).
    In an ASCII string the whitespace [int] skips is that of C's [isspace],
    the tab to the carriage return and the blank; [str.strip] and
    [str.isspace] also take the four separators 28 to 31.  Digits are the
    ASCII digits; the digits of other scripts, which Python reads too, are
    outside the model. *)

(** [str.isspace] of an ASCII character *)
Definition is_space (c : ascii) : bool :=
  let n := nat_of_ascii c in
  ((9 <=? n) && (n <=? 13) || (28 <=? n) && (n <=? 32))%nat.

(** The whitespace [int] skips around the number *)
Definition is_int_space (c : ascii) : bool :=
  let n := nat_of_ascii c in
  ((9 <=? n) && (n <=? 13) || (n =? 32))%nat.

Definition is_digit (c : ascii) : bool :=
  let n := nat_of_ascii c in ((48 <=? n) && (n <=? 57))%nat.

Definition digit_value (c : ascii) : Z := Z.of_nat (nat_of_ascii c) - 48.

Fixpoint lstrip_of (space : ascii -> bool) (l : list ascii) : list ascii :=
  match l with
  | c :: l' => if space c then lstrip_of space l' else l
  | [] => []
  end.

Definition strip_of (space : ascii -> bool) (l : list ascii) : list ascii :=
  rev (lstrip_of space (rev (lstrip_of space l))).

(** [s.strip()] *)
Definition strip : list ascii -> list ascii := strip_of is_space.

Fixpoint parse_digits (acc : Z) (after_underscore : bool) (l : list ascii)
  : option Z :=
  match l with
  | [] => if after_underscore then None else Some acc
  | c :: l' =>
      if is_digit c then parse_digits (10 * acc + digit_value c) false l'
      else if Ascii.eqb c "_" then
        (if after_underscore then None else parse_digits acc true l')
      else None
  end.

(** The limit on the number of digits [int] converts. *)
Definition max_str_digits : Z := 4300.

Definition count_digits (l : list ascii) : Z :=
  Z.of_nat (length (List.filter is_digit l)).

Definition parse_unsigned (l : list ascii) : option Z :=
  match l with
  | c :: _ =>
      if is_digit c && (count_digits l <=? max_str_digits)
      then parse_digits 0 false l else None
  | [] => None
  end.

Definition int_of_string (s : string) : option Z :=
  match strip_of is_int_space (list_ascii_of_string s) with
  | c :: l =>
      if Ascii.eqb c "-" then option_map Z.opp (parse_unsigned l)
      else if Ascii.eqb c "+" then parse_unsigned l
      else parse_unsigned (c :: l)
  | [] => None
  end.

Definition py_int_of_string (s : string) : result Z :=
  match int_of_string s with
  | Some z => Ok z
  | None => Raise ValueError
  end.

(** A Python number that is an [int] or a [float] *)
Inductive number :=
| NInt (z : Z)
| NFloat (x : float).

(** [int(n * 1000)] *)
Definition number_ms (n : number) : result Z :=
  match n with
  | NInt z => Ok (z * 1000)
  | NFloat x => py_int_of_float (fmul x (float_of_Z 1000))
  end.

(** ** The tracking client: data *)

Module ApiHelper.

(** An item of [self.test_results] *)
Record test_result := {
  tr_name : string;
  tr_status : string;
  tr_duration : float;
  tr_error_message : option string
}.

Record APIHelper := {
  is_jenkins : bool;
  api_base_url : string;
  api_token : string;
  job_name : string;
  build_number : string;
  build_url : string;
  git_branch : string;
  git_commit : string;
  org_id : string;
  created_by : string;
  pipeline_run_id : json;
  test_results : list test_result;
  suite_start_time : option float;
  api_call_count : gmap string nat
}.

Definition set_pipeline_run_id (v : json) (a : APIHelper) : APIHelper :=
  {| is_jenkins := is_jenkins a; api_base_url := api_base_url a;
     api_token := api_token a; job_name := job_name a;
     build_number := build_number a; build_url := build_url a;
     git_branch := git_branch a; git_commit := git_commit a;
     org_id := org_id a; created_by := created_by a;
     pipeline_run_id := v;
     test_results := test_results a;
     suite_start_time := suite_start_time a;
     api_call_count := api_call_count a |}.

Definition set_test_results (l : list test_result) (a : APIHelper) : APIHelper :=
  {| is_jenkins := is_jenkins a; api_base_url := api_base_url a;
     api_token := api_token a; job_name := job_name a;
     build_number := build_number a; build_url := build_url a;
     git_branch := git_branch a; git_commit := git_commit a;
     org_id := org_id a; created_by := created_by a;
     pipeline_run_id := pipeline_run_id a;
     test_results := l;
     suite_start_time := suite_start_time a;
     api_call_count := api_call_count a |}.

Definition set_suite_start_time (t : option float) (a : APIHelper) : APIHelper :=
  {| is_jenkins := is_jenkins a; api_base_url := api_base_url a;
     api_token := api_token a; job_name := job_name a;
     build_number := build_number a; build_url := build_url a;
     git_branch := git_branch a; git_commit := git_commit a;
     org_id := org_id a; created_by := created_by a;
     pipeline_run_id := pipeline_run_id a;
     test_results := test_results a;
     suite_start_time := t;
     api_call_count := api_call_count a |}.

Definition set_api_call_count (m : gmap string nat) (a : APIHelper) : APIHelper :=
  {| is_jenkins := is_jenkins a; api_base_url := api_base_url a;
     api_token := api_token a; job_name := job_name a;
     build_number := build_number a; build_url := build_url a;
     git_branch := git_branch a; git_commit := git_commit a;
     org_id := org_id a; created_by := created_by a;
     pipeline_run_id := pipeline_run_id a;
     test_results := test_results a;
     suite_start_time := suite_start_time a;
     api_call_count := m |}.

(** [os.getenv(name, default)] over the process environment *)
Definition getenv (env : gmap string string) (name default : string) : string :=
  match env !! name with
  | Some v => v
  | None => default
  end.

Definition is_set (env : gmap string string) (name : string) : bool :=
  match env !! name with
  | Some _ => true
  | None => false
  end.

(** [APIHelper.__init__] *)
Definition init (env : gmap string string) : APIHelper :=
  {| is_jenkins := is_set env "JENKINS_HOME" || is_set env "BUILD_NUMBER";
     api_base_url :=
       getenv env "API_BASE_URL" "https://unsobering-maribeth-hokey.ngrok-free.dev";
     api_token := getenv env "API_TOKEN" "your-api-token-here";
     job_name := getenv env "JOB_NAME" "Unknown Job";
     build_number := getenv env "BUILD_NUMBER" "0";
     build_url := getenv env "BUILD_URL" "";
     git_branch := getenv env "GIT_BRANCH" "main";
     git_commit := getenv env "GIT_COMMIT" "unknown";
     org_id := getenv env "ORG_ID" "374060a8-925c-49aa-8495-8a823949f3e0";
     created_by := getenv env "CREATED_BY" "c9279b2d-701c-48eb-9122-fbeae465771c";
     pipeline_run_id := JNull;
     test_results := [];
     suite_start_time := None;
     api_call_count := {[ "api-1" := 0%nat; "api-3" := 0%nat; "api-4" := 0%nat ]} |}.

(** *** Requests *)

Inductive http_method := POST | PATCH.

(** The three endpoints: [/api/pipeline-runs/], [/api/test-cases/] and
    [/api/pipeline-runs/{run_id}/]. *)
Inductive endpoint :=
| PipelineRuns
| TestCases
| PipelineRun (run_id : json).

(** The three request bodies, field by field. *)
Record run_create := {
  rc_name : string;
  rc_repo_name : string;
  rc_environment : string;
  rc_org : string;
  rc_created_by : string;
  rc_build_number : Z;
  rc_build_url : string;
  rc_git_branch : string;
  rc_git_commit : string;
  rc_status : string;
  rc_started_at : string
}.

Record test_case := {
  tc_run : json;
  tc_name : string;
  tc_status : string;
  tc_error_message : option string;
  tc_duration : Z;
  tc_started_at : string;
  tc_completed_at : string
}.

Record run_update := {
  ru_status : string;
  ru_completed_at : string;
  ru_total_tests : nat;
  ru_passed_tests : nat;
  ru_failed_tests : nat;
  ru_duration : Z
}.

Inductive payload :=
| RunCreate (p : run_create)
| TestCase (p : test_case)
| RunUpdate (p : run_update).

Record http_request := {
  req_method : http_method;
  req_base_url : string;
  req_endpoint : endpoint;
  req_headers : list (string * string);
  req_json : payload;
  req_timeout : Z
}.

(** A response: its status code and what [response.json()] gives, [None]
    when the body is not JSON and [json()] raises. *)
Record http_response := {
  status_code : Z;
  response_json : option json
}.

Inductive http_outcome :=
| HttpRaises (e : exn)
| HttpResponse (r : http_response).

(** *** Log records *)

Inductive level := DEBUG | INFO | WARNING | ERROR.

Inductive mark := MarkPassed | MarkFailed | MarkOther.

Inductive message :=
| Text (s : string)
| Rule
| Request (m : http_method) (base : string) (e : endpoint)
| RunId (id : json)
| Build (number : string)
| Branch (name : string)
| Response (r : json)
| ApiError (api : string) (e : exn)
| Traceback (e : exn)
| TestLine (m : mark) (name status : string) (duration : float)
| TestCaseCreated (duration_ms : Z)
| Totals (total passed failed skipped : nat)
| Duration (seconds : number) (ms : Z)
| Status (s : string)
| Summary (total passed failed skipped : nat)
| ApiCalls (api : string) (n : nat)
| TotalApiCalls (n : nat)
| HttpStatus (m : http_method) (e : endpoint) (code : Z)
| ResponseText
| RequestTimeout (m : http_method) (e : endpoint)
| ConnectionFailed (e : endpoint)
| CheckApi (base : string)
| RequestFailed (m : http_method) (e : exn).

Definition log_record : Type := level * message.

(** *** The world and the session state *)

(** What the outside answers: the backend, given the requests sent before
    (oldest first) and the request; the successive readings of [time.time()]
    and of [datetime.utcnow().isoformat()]. *)
Record World := {
  backend : list http_request -> http_request -> http_outcome;
  time_time : nat -> float;
  utcnow : nat -> string
}.

Record Session := {
  self : APIHelper;
  sent : list http_request;
  log : list log_record;
  clock_reads : nat
}.

Definition start (a : APIHelper) : Session :=
  {| self := a; sent := []; log := []; clock_reads := 0%nat |}.

(** *** Primitive actions *)

Definition py := M World Session.

Definition set_self (a : APIHelper) (s : Session) : Session :=
  {| self := a; sent := sent s; log := log s; clock_reads := clock_reads s |}.

Definition get_self : py APIHelper :=
  (s <- get ;; ret (self s))%py.

Definition update_self (f : APIHelper -> APIHelper) : py unit :=
  modify (fun s => set_self (f (self s)) s).

(** [logger.<level>(message)] *)
Definition logger (l : level) (m : message) : py unit :=
  modify (fun s =>
    {| self := self s; sent := sent s; log := log s ++ [(l, m)];
       clock_reads := clock_reads s |}).

Definition tick : py nat :=
  (s <- get ;;
   put {| self := self s; sent := sent s; log := log s;
          clock_reads := S (clock_reads s) |} ;;
   ret (clock_reads s))%py.

(** [time.time()] *)
Definition time_now : py float :=
  (n <- tick ;; w <- ask ;; ret (time_time w n))%py.

(** [datetime.utcnow().isoformat() + "Z"] *)
Definition utcnow_iso : py string :=
  (n <- tick ;; w <- ask ;; ret (utcnow w n +:+ "Z"))%py.

(** Lifting of a pure computation that may raise. *)
Definition lift {A} (r : result A) : py A :=
  match r with
  | Ok a => ret a
  | Raise e => raise e
  end.

(** [requests.post] / [requests.patch]: the request goes out, and the
    backend answers or the call raises. *)
Definition requests_send (req : http_request) : py http_response :=
  (w <- ask ;;
   s <- get ;;
   put {| self := self s; sent := sent s ++ [req]; log := log s;
          clock_reads := clock_reads s |} ;;
   match backend w (sent s) req with
   | HttpRaises e => raise e
   | HttpResponse r => ret r
   end)%py.

(** [self.api_call_count[key] += 1] *)
Definition count_call (key : string) : py unit :=
  (a <- get_self ;;
   match api_call_count a !! key with
   | Some n => update_self (set_api_call_count (<[key := S n]> (api_call_count a)))
   | None => raise KeyError
   end)%py.

(** [self.api_call_count[key]] *)
Definition read_count (key : string) : py nat :=
  (a <- get_self ;;
   match api_call_count a !! key with
   | Some n => ret n
   | None => raise KeyError
   end)%py.

Definition request_headers (a : APIHelper) : list (string * string) :=
  [ ("Content-Type", "application/json");
    ("Authorization", "Bearer " +:+ api_token a);
    ("ngrok-skip-browser-warning", "true") ].

(** *** [_post_request] and [_patch_request] *)

(** Returns the decoded body, or [JNull] (Python's [None]). *)
Definition _post_request (ep : endpoint) (body : payload) : py json :=
  try_except
    (a <- get_self ;;
     response <- requests_send
       {| req_method := POST; req_base_url := api_base_url a;
          req_endpoint := ep; req_headers := request_headers a;
          req_json := body; req_timeout := 30 |} ;;
     if (status_code response =? 200) || (status_code response =? 201) then
       match response_json response with
       | Some j => ret j
       | None => raise ValueError
       end
     else
       logger WARNING (HttpStatus POST ep (status_code response)) ;;
       logger DEBUG ResponseText ;;
       ret JNull)%py
    (fun e =>
       match e with
       | Timeout =>
           logger ERROR (RequestTimeout POST ep) ;;
           ret JNull
       | ConnectionError =>
           a <- get_self ;;
           logger ERROR (ConnectionFailed ep) ;;
           logger ERROR (CheckApi (api_base_url a)) ;;
           ret JNull
       | _ =>
           logger ERROR (RequestFailed POST e) ;;
           ret JNull
       end)%py.

Definition _patch_request (ep : endpoint) (body : payload) : py bool :=
  try_except
    (a <- get_self ;;
     response <- requests_send
       {| req_method := PATCH; req_base_url := api_base_url a;
          req_endpoint := ep; req_headers := request_headers a;
          req_json := body; req_timeout := 30 |} ;;
     if (status_code response =? 200) || (status_code response =? 204) then
       ret true
     else
       logger WARNING (HttpStatus PATCH ep (status_code response)) ;;
       logger DEBUG ResponseText ;;
       ret false)%py
    (fun e =>
       match e with
       | Timeout =>
           logger ERROR (RequestTimeout PATCH ep) ;;
           ret false
       | ConnectionError =>
           logger ERROR (ConnectionFailed ep) ;;
           ret false
       | _ =>
           logger ERROR (RequestFailed PATCH e) ;;
           ret false
       end)%py.

(** *** [before_all_tests] *)

Definition before_all_tests : py unit :=
  (a <- get_self ;;
   if negb (is_jenkins a) then
     logger INFO (Text "Local run detected - Skipping API calls") ;;
     logger INFO (Text "    To enable API calls, set BUILD_NUMBER environment variable") ;;
     ret tt
   else
     t <- time_now ;;
     update_self (set_suite_start_time (Some t)) ;;
     try_except
       (logger INFO (Text "") ;;
        logger INFO Rule ;;
        logger INFO (Text "API-1: Creating Pipeline Run") ;;
        logger INFO Rule ;;
        a <- get_self ;;
        number <- lift (py_int_of_string (build_number a)) ;;
        started_at <- utcnow_iso ;;
        let body := RunCreate
          {| rc_name := job_name a +:+ " - Build #" +:+ build_number a;
             rc_repo_name := "Python-Pylenium-Web";
             rc_environment := "qa";
             rc_org := org_id a;
             rc_created_by := created_by a;
             rc_build_number := number;
             rc_build_url := build_url a;
             rc_git_branch := git_branch a;
             rc_git_commit := git_commit a;
             rc_status := "running";
             rc_started_at := started_at |} in
        logger INFO (Request POST (api_base_url a) PipelineRuns) ;;
        response <- _post_request PipelineRuns body ;;
        has_run <- (if truthy response then lift (py_in "pipeline_run" response)
                    else ret false) ;;
        (if has_run : bool then
           pipeline_run <- lift (py_getitem response "pipeline_run") ;;
           has_id <- lift (py_in "run_id" pipeline_run) ;;
           if has_id : bool then
             run_id <- lift (py_getitem pipeline_run "run_id") ;;
             update_self (set_pipeline_run_id run_id) ;;
             count_call "api-1" ;;
             logger INFO (Text "") ;;
             logger INFO (Text "API-1 SUCCESS: Pipeline Run Created") ;;
             logger INFO (RunId run_id) ;;
             logger INFO (Build (build_number a)) ;;
             logger INFO (Branch (git_branch a))
           else
             logger ERROR (Text "API-1 ERROR: 'run_id' not found in pipeline_run") ;;
             logger ERROR (Response response)
         else
           logger ERROR (Text "API-1 ERROR: Invalid response structure") ;;
           logger ERROR (Response response)) ;;
        logger INFO Rule ;;
        logger INFO (Text ""))
       (fun e =>
          logger ERROR (ApiError "API-1" e) ;;
          logger ERROR (Traceback e)))%py.

(** *** [after_each_test] *)

Definition status_mark (status : string) : mark :=
  if String.eqb status "passed" then MarkPassed
  else if String.eqb status "failed" then MarkFailed
  else MarkOther.

(** [duration * 1000] followed by [int]: the product is the binary64
    product with the double 1000.0. *)
Definition duration_ms (duration : float) : result Z :=
  py_int_of_float (fmul duration (float_of_Z 1000)).

Definition after_each_test (test_name status : string) (duration : float)
    (error_message : option string) : py unit :=
  (a <- get_self ;;
   update_self (set_test_results
     (test_results a ++
      [{| tr_name := test_name; tr_status := upper status;
          tr_duration := duration; tr_error_message := error_message |}])) ;;
   logger INFO (TestLine (status_mark status) test_name (upper status) duration) ;;
   a <- get_self ;;
   if negb (is_jenkins a) || negb (truthy (pipeline_run_id a)) then
     ret tt
   else
     try_except
       (ms <- lift (duration_ms duration) ;;
        a <- get_self ;;
        started_at <- utcnow_iso ;;
        completed_at <- utcnow_iso ;;
        let body := TestCase
          {| tc_run := pipeline_run_id a;
             tc_name := test_name;
             tc_status := lower status;
             tc_error_message := error_message;
             tc_duration := ms;
             tc_started_at := started_at;
             tc_completed_at := completed_at |} in
        response <- _post_request TestCases body ;;
        if truthy response then
          count_call "api-3" ;;
          logger INFO (TestCaseCreated ms)
        else
          logger WARNING (Text "    API-3: Failed to create test case"))
       (fun e =>
          logger ERROR (ApiError "API-3" e) ;;
          logger DEBUG (Traceback e)))%py.

(** *** [after_all_tests] and the summaries *)

(** [sum(1 for t in results if t['status'] == status)] *)
Fixpoint count_status (status : string) (results : list test_result) : nat :=
  match results with
  | [] => 0%nat
  | t :: results' =>
      ((if String.eqb (tr_status t) status then 1 else 0)
       + count_status status results')%nat
  end.

(** ["failed" if failed_count > 0 else "passed"] *)
Definition overall_status (failed_count : nat) : string :=
  if (0 <? failed_count)%nat then "failed" else "passed".

Definition _print_summary : py unit :=
  (a <- get_self ;;
   match test_results a with
   | [] => ret tt
   | _ =>
       let passed := count_status "PASSED" (test_results a) in
       let failed := count_status "FAILED" (test_results a) in
       let skipped := count_status "SKIPPED" (test_results a) in
       let total := length (test_results a) in
       logger INFO (Text "") ;;
       logger INFO Rule ;;
       logger INFO (Text "Test Execution Summary") ;;
       logger INFO Rule ;;
       logger INFO (Summary total passed failed skipped) ;;
       logger INFO Rule
   end)%py.

Definition _print_api_summary : py unit :=
  (logger INFO (Text "") ;;
   logger INFO Rule ;;
   logger INFO (Text "API Integration Summary") ;;
   logger INFO Rule ;;
   n1 <- read_count "api-1" ;;
   logger INFO (ApiCalls "api-1" n1) ;;
   n3 <- read_count "api-3" ;;
   logger INFO (ApiCalls "api-3" n3) ;;
   n4 <- read_count "api-4" ;;
   logger INFO (ApiCalls "api-4" n4) ;;
   a <- get_self ;;
   logger INFO (TotalApiCalls (sum_list (map_to_list (api_call_count a)).*2)) ;;
   logger INFO Rule ;;
   logger INFO (Text ""))%py.

(** [(time.time() - self.suite_start_time) if self.suite_start_time else 0] *)
Definition elapsed : py number :=
  (a <- get_self ;;
   match suite_start_time a with
   | Some t0 =>
       if float_truthy t0 then
         t <- time_now ;; ret (NFloat (fsub t t0))
       else ret (NInt 0)
   | None => ret (NInt 0)
   end)%py.

Definition after_all_tests : py unit :=
  (a <- get_self ;;
   if negb (is_jenkins a) || negb (truthy (pipeline_run_id a)) then
     _print_summary ;;
     ret tt
   else
     try_except
       (logger INFO (Text "") ;;
        logger INFO Rule ;;
        logger INFO (Text "API-4: Updating Pipeline Run") ;;
        logger INFO Rule ;;
        total_duration <- elapsed ;;
        a <- get_self ;;
        let passed_count := count_status "PASSED" (test_results a) in
        let failed_count := count_status "FAILED" (test_results a) in
        let skipped_count := count_status "SKIPPED" (test_results a) in
        let total_count := length (test_results a) in
        let status := overall_status failed_count in
        completed_at <- utcnow_iso ;;
        ms <- lift (number_ms total_duration) ;;
        let body := RunUpdate
          {| ru_status := status;
             ru_completed_at := completed_at;
             ru_total_tests := total_count;
             ru_passed_tests := passed_count;
             ru_failed_tests := failed_count;
             ru_duration := ms |} in
        logger INFO (Request PATCH "" (PipelineRun (pipeline_run_id a))) ;;
        success <- _patch_request (PipelineRun (pipeline_run_id a)) body ;;
        (if success : bool then
           count_call "api-4" ;;
           logger INFO (Text "") ;;
           logger INFO (Text "API-4 SUCCESS: Pipeline Run Updated") ;;
           logger INFO (Totals total_count passed_count failed_count skipped_count) ;;
           ms' <- lift (number_ms total_duration) ;;
           logger INFO (Duration total_duration ms') ;;
           logger INFO (Status (upper status))
         else
           logger ERROR (Text "API-4 ERROR: Failed to update pipeline run")) ;;
        logger INFO Rule ;;
        logger INFO (Text "") ;;
        _print_api_summary)
       (fun e =>
          logger ERROR (ApiError "API-4" e) ;;
          logger ERROR (Traceback e)))%py.

(** *** A whole session, as [conftest.py] drives it *)

(** The arguments of one [after_each_test] call. *)
Record test_call := {
  call_name : string;
  call_status : string;
  call_duration : float;
  call_error_message : option string
}.

Definition record_test (c : test_call) : py unit :=
  after_each_test (call_name c) (call_status c) (call_duration c)
    (call_error_message c).

Fixpoint record_tests (calls : list test_call) : py unit :=
  match calls with
  | [] => ret tt
  | c :: calls' => (record_test c ;; record_tests calls')%py
  end.

(** [pytest_sessionstart], the tests, [pytest_sessionfinish] *)
Definition session (calls : list test_call) : py unit :=
  (before_all_tests ;; record_tests calls ;; after_all_tests)%py.

(** The record [after_each_test] stores for a call. *)
Definition stored (c : test_call) : test_result :=
  {| tr_name := call_name c; tr_status := upper (call_status c);
     tr_duration := call_duration c;
     tr_error_message := call_error_message c |}.

End ApiHelper.

(** ** The status [conftest.py] hands to the tracking client *)

Module Conftest.

(** The fields of a pytest report the hook reads; [longrepr] is [None] when
    [rep.longrepr] is falsy, else its [str]. *)
Record report := {
  when : string;
  outcome : string;
  duration : float;
  longrepr : option string
}.

Definition passed (rep : report) : bool := String.eqb (outcome rep) "passed".
Definition failed (rep : report) : bool := String.eqb (outcome rep) "failed".
Definition skipped (rep : report) : bool := String.eqb (outcome rep) "skipped".

(** The [status] and [error_message] chosen in [pytest_runtest_makereport] *)
Definition report_status (rep : report) : string * option string :=
  if passed rep then ("passed", None)
  else if failed rep then
    ("failed", Some (match longrepr rep with Some s => s | None => "Test failed" end))
  else if skipped rep then
    ("skipped", Some (match longrepr rep with Some s => s | None => "Test skipped" end))
  else ("unknown", None).

(** The [after_each_test] call made for the report of a test's call phase. *)
Definition call_of_report (item_name : string) (rep : report)
  : ApiHelper.test_call :=
  {| ApiHelper.call_name := item_name;
     ApiHelper.call_status := fst (report_status rep);
     ApiHelper.call_duration := duration rep;
     ApiHelper.call_error_message := snd (report_status rep) |}.

End Conftest.

(** ** Screenshot on failure *)

Module Screenshot.

(** A value bound to a fixture name: [None] or a browser-session handle. *)
Inductive fixture :=
| FixtureNone
| Driver (handle : nat).

Definition fixture_truthy (f : fixture) : bool :=
  match f with
  | FixtureNone => false
  | Driver _ => true
  end.

Record item := {
  item_name : string;
  funcargs : gmap string fixture
}.

(** What the outside does for each call the function makes: [None] when the
    call works, the exception when it raises. *)
Record World := {
  now_stamp : string;
  makedirs : string -> option exn;
  screenshot : nat -> string -> option exn;
  import_pytest_html : option exn;
  extras_image : string -> option exn;
  read_file : string -> option exn;
  allure_attach : string -> string -> option exn
}.

(** The objects the function changes: the [extra] attribute of its
    [report] argument ([None] when the report has none), the directories made,
    the screenshots taken and the attachments handed to allure. *)
Record State := {
  report_extra : option (list string);
  directories : list string;
  screenshots : list (nat * string);
  attachments : list (string * string)
}.

Definition py := M World State.

(** [os.path.join("reports/screenshots", name)] *)
Definition screenshot_path (name : string) : string :=
  "reports/screenshots/" +:+ name.

Definition do_makedirs (path : string) : py unit :=
  (w <- ask ;;
   lift_outcome (makedirs w path) ;;
   modify (fun s =>
     {| report_extra := report_extra s; directories := directories s ++ [path];
        screenshots := screenshots s; attachments := attachments s |}))%py.

Definition do_screenshot (handle : nat) (path : string) : py unit :=
  (w <- ask ;;
   lift_outcome (screenshot w handle path) ;;
   modify (fun s =>
     {| report_extra := report_extra s; directories := directories s;
        screenshots := screenshots s ++ [(handle, path)];
        attachments := attachments s |}))%py.

(** [extra = getattr(report, "extra", []); extra.append(image);
    report.extra = extra] once the image is built *)
Definition append_extra (path : string) : py unit :=
  modify (fun s =>
    {| report_extra := Some (default [] (report_extra s) ++ [path]);
       directories := directories s; screenshots := screenshots s;
       attachments := attachments s |}).

Definition do_attach (path name : string) : py unit :=
  (w <- ask ;;
   lift_outcome (read_file w path) ;;
   lift_outcome (allure_attach w path name) ;;
   modify (fun s =>
     {| report_extra := report_extra s; directories := directories s;
        screenshots := screenshots s;
        attachments := attachments s ++ [(path, name)] |}))%py.

(** [save_screenshot_on_failure(item, report)]; the report is the one of
    the state. *)
Definition save_screenshot_on_failure (it : item) : py unit :=
  match funcargs it !! "py" with
  | Some (Driver handle) =>
      (do_makedirs "reports/screenshots" ;;
       w <- ask ;;
       let name := item_name it +:+ "_" +:+ now_stamp w +:+ ".png" in
       let path := screenshot_path name in
       do_screenshot handle path ;;
       try_except
         (lift_outcome (import_pytest_html w) ;;
          lift_outcome (extras_image w path) ;;
          append_extra path ;;
          do_attach path name)
         (fun _ => ret tt))%py
  | _ => ret tt
  end.

End Screenshot.

(** ** The logger provider *)

Module Logger.

Inductive handler_kind :=
| FileHandler (path : string)
| StreamHandler.

Record handler := {
  h_kind : handler_kind;
  h_level : option ApiHelper.level;
  h_formatter : option string
}.

Global Instance handler_kind_eq_dec : EqDecision handler_kind.
Proof. solve_decision. Defined.
Global Instance level_eq_dec : EqDecision ApiHelper.level.
Proof. solve_decision. Defined.
Global Instance handler_eq_dec : EqDecision handler.
Proof. solve_decision. Defined.

(** A [logging.Logger]: its level ([None] is NOTSET) and its handlers. *)
Record logger := {
  lg_level : option ApiHelper.level;
  lg_handlers : list handler
}.

(** The loggers of the process, by name. *)
Abbreviation registry := (gmap string logger).

Record World := {
  today : string;
  makedirs : string -> option exn;
  open_file : string -> option exn
}.

Definition py := M World registry.

(** The root logger answers to the empty name and to its own name. *)
Definition logger_key (name : string) : string :=
  if String.eqb name "" then "root" else name.

Definition new_logger (key : string) : logger :=
  {| lg_level := if String.eqb key "root" then Some ApiHelper.WARNING else None;
     lg_handlers := [] |}.

(** [logging.getLogger(name)]: the logger of that name, made on first use.
    The result is the logger's key in the registry. *)
Definition getLogger (name : string) : py string :=
  (reg <- get ;;
   let key := logger_key name in
   match reg !! key with
   | Some _ => ret key
   | None => put (<[key := new_logger key]> reg) ;; ret key
   end)%py.

Definition the_logger (reg : registry) (key : string) : logger :=
  default (new_logger key) (reg !! key).

Definition setLevel (key : string) (l : ApiHelper.level) : py unit :=
  modify (fun reg =>
    <[key := {| lg_level := Some l;
                lg_handlers := lg_handlers (the_logger reg key) |}]> reg).

(** [logger.addHandler(h)]: appended unless already there. *)
Definition addHandler (key : string) (h : handler) : py unit :=
  modify (fun reg =>
    let lg := the_logger reg key in
    if bool_decide (h ∈ lg_handlers lg) then reg
    else <[key := {| lg_level := lg_level lg;
                     lg_handlers := lg_handlers lg ++ [h] |}]> reg).

Definition fmt : string :=
  "%(asctime)s - %(name)s - %(levelname)s - %(message)s".

Definition get_logger (name : string) : py string :=
  (key <- getLogger name ;;
   reg <- get ;;
   match lg_handlers (the_logger reg key) with
   | _ :: _ => ret key
   | [] =>
       setLevel key ApiHelper.INFO ;;
       w <- ask ;;
       lift_outcome (makedirs w "logs") ;;
       let path := "logs/" +:+ name +:+ "_" +:+ today w +:+ ".log" in
       lift_outcome (open_file w path) ;;
       let fh := {| h_kind := FileHandler path; h_level := Some ApiHelper.INFO;
                    h_formatter := Some fmt |} in
       let ch := {| h_kind := StreamHandler; h_level := Some ApiHelper.INFO;
                    h_formatter := Some fmt |} in
       addHandler key fh ;;
       addHandler key ch ;;
       ret key
   end)%py.

(** [n] successive calls with the same name; the results, oldest first. *)
Fixpoint get_logger_times (n : nat) (name : string) : py (list string) :=
  match n with
  | O => ret []
  | S n' =>
      (key <- get_logger name ;;
       keys <- get_logger_times n' name ;;
       ret (key :: keys))%py
  end.

(** The registry a first call leaves when it finds the logger without
    handlers and the log file opens. *)
Definition configured (w : World) (reg : registry) (name : string) : registry :=
  let key := logger_key name in
  let path := "logs/" +:+ name +:+ "_" +:+ today w +:+ ".log" in
  <[key := {| lg_level := Some ApiHelper.INFO;
              lg_handlers :=
                [ {| h_kind := FileHandler path; h_level := Some ApiHelper.INFO;
                     h_formatter := Some fmt |};
                  {| h_kind := StreamHandler; h_level := Some ApiHelper.INFO;
                     h_formatter := Some fmt |} ] |}]> reg.

End Logger.

(** ** Vocabulary of the specification *)

Import ApiHelper.

(** The status codes each request wrapper takes for a success. *)
Definition success_code (m : http_method) (code : Z) : bool :=
  match m with
  | POST => (code =? 200) || (code =? 201)
  | PATCH => (code =? 200) || (code =? 204)
  end.

(** A failed HTTP call: the call raises (timeout, refused connection, any
    other exception), or the status code is outside the success set. *)
Definition http_failure (m : http_method) (o : http_outcome) : Prop :=
  match o with
  | HttpRaises _ => True
  | HttpResponse r => success_code m (status_code r) = false
  end.

(** Whatever request goes out next, it fails. *)
Definition next_call_fails (w : World) (s : Session) : Prop :=
  forall req, http_failure (req_method req) (backend w (sent s) req).

(** The identifier nested in a response body, [body["pipeline_run"]["run_id"]],
    when the body is an object holding an object holding that field. *)
Definition nested_run_id (body : option json) : option json :=
  match body with
  | Some (JDict d) =>
      match dict_get "pipeline_run" d with
      | Some (JDict d') => dict_get "run_id" d'
      | _ => None
      end
  | _ => None
  end.

(** Whatever request goes out next, the answer is a success whose body
    lacks the nested identifier. *)
Definition next_response_lacks_run_id (w : World) (s : Session) : Prop :=
  forall req, exists r,
    backend w (sent s) req = HttpResponse r /\
    success_code POST (status_code r) = true /\
    nested_run_id (response_json r) = None.

Definition is_error (r : log_record) : bool :=
  match fst r with
  | ERROR => true
  | _ => false
  end.

(** The counters of a session: run-create, test-case and run-update calls. *)
Definition counters (s : Session) : option nat * option nat * option nat :=
  (api_call_count (self s) !! "api-1",
   api_call_count (self s) !! "api-3",
   api_call_count (self s) !! "api-4").

(** Every stored status is one of the three the summaries count. *)
Definition known_status (t : test_result) : bool :=
  String.eqb (tr_status t) "PASSED" || String.eqb (tr_status t) "FAILED"
  || String.eqb (tr_status t) "SKIPPED".





(** The time elapsed since the recorded start of the suite is finite in
    milliseconds, whenever the clock is read. *)
Definition elapsed_finite (w : World) (s : Session) : Prop :=
  forall t0 n, suite_start_time (self s) = Some t0 ->
    exists ms, number_ms (NFloat (fsub (time_time w n) t0)) = Ok ms.

(** The local-only guard of [after_each_test] and [after_all_tests]:
    [not self.is_jenkins or not self.pipeline_run_id]. *)
Definition local_only (s : Session) : bool :=
  negb (is_jenkins (self s)) || negb (truthy (pipeline_run_id (self s))).


(** ** Inputs used in examples *)

Definition answer (code : Z) (body : option json) : http_outcome :=
  HttpResponse {| status_code := code; response_json := body |}.

Definition created_body : json :=
  JDict [("pipeline_run", JDict [("run_id", JStr "run-1")])].

(** A backend that creates the run, echoes an identifier for each test
    case, and accepts the update. *)
Definition accepting_backend (hist : list http_request) (req : http_request)
  : http_outcome :=
  match req_method req, req_endpoint req with
  | POST, PipelineRuns => answer 201 (Some created_body)
  | POST, _ => answer 201 (Some (JDict [("id", JInt 7)]))
  | PATCH, _ => answer 200 None
  end.


(** A clock that stands still. *)
Definition frozen_clock (n : nat) : float := float_of_Z 1700000000.

Definition world_of (b : list http_request -> http_request -> http_outcome)
  : World :=
  {| backend := b; time_time := frozen_clock;
     utcnow := fun _ => "2024-01-01T00:00:00" |}.

Definition accepting_world : World := world_of accepting_backend.
Definition unreachable_world : World :=
  world_of (fun _ _ => HttpRaises ConnectionError).
Definition no_run_id_world : World :=
  world_of (fun _ _ => answer 200 (Some (JDict [("pipeline_run", JDict [])]))).

Definition ci_env : gmap string string := {[ "BUILD_NUMBER" := "42" ]}.
Definition local_env : gmap string string := ∅.

Definition a_call (name status : string) (seconds_thousandths : Z) : test_call :=
  {| call_name := name; call_status := status;
     call_duration := float_of_decimal seconds_thousandths 3;
     call_error_message := None |}.

Definition three_calls : list test_call :=
  [ a_call "test_login_success" "passed" 1234;
    a_call "test_login_invalid" "failed" 290;
    a_call "test_logout" "skipped" 0 ].

(** A report whose outcome is none of passed, failed, skipped. *)
Definition rerun_report : Conftest.report :=
  {| Conftest.when := "call"; Conftest.outcome := "rerun";
     Conftest.duration := float_of_decimal 500 3; Conftest.longrepr := None |}.

Definition unknown_call : test_call := Conftest.call_of_report "test_flaky" rerun_report.

(** A failed test with a browser session, a report without extras, a world
    where the browser is gone, and one where pytest-html is not installed. *)
Definition failing_item : Screenshot.item :=
  {| Screenshot.item_name := "test_login_invalid";
     Screenshot.funcargs := {[ "py" := Screenshot.Driver 1 ]} |}.

Definition empty_report : Screenshot.State :=
  {| Screenshot.report_extra := None; Screenshot.directories := [];
     Screenshot.screenshots := []; Screenshot.attachments := [] |}.

Definition dead_browser_world : Screenshot.World :=
  {| Screenshot.now_stamp := "20240101_000000";
     Screenshot.makedirs := fun _ => None;
     Screenshot.screenshot := fun _ _ => Some (OtherError "WebDriverException");
     Screenshot.import_pytest_html := None;
     Screenshot.extras_image := fun _ => None;
     Screenshot.read_file := fun _ => None;
     Screenshot.allure_attach := fun _ _ => None |}.

Definition no_html_world : Screenshot.World :=
  {| Screenshot.now_stamp := "20240101_000000";
     Screenshot.makedirs := fun _ => None;
     Screenshot.screenshot := fun _ _ => None;
     Screenshot.import_pytest_html := Some ImportError;
     Screenshot.extras_image := fun _ => None;
     Screenshot.read_file := fun _ => None;
     Screenshot.allure_attach := fun _ _ => None |}.

(** A file system that works, on the first of January. *)
Definition working_fs : Logger.World :=
  {| Logger.today := "20240101";
     Logger.makedirs := fun _ => None;
     Logger.open_file := fun _ => None |}.

(** A file system that refuses everything, a day later. *)
Definition broken_fs : Logger.World :=
  {| Logger.today := "20240102";
     Logger.makedirs := fun _ => Some OSError;
     Logger.open_file := fun _ => Some OSError |}.

(** ** The report hook and the browser fixture of [conftest.py] *)

Module Hook.

(** The hook works on the tracking client and on the screenshot handler;
    [item_report] is the [report] attribute it sets on the test item
    ([None] while the item has none), [errors] what [logging.error] got,
    [quits] the browser sessions that were quit. *)
Record World := {
  api_world : ApiHelper.World;
  shot_world : Screenshot.World;
  quit : nat -> option exn
}.

Record State := {
  api : ApiHelper.Session;
  shot : Screenshot.State;
  item_report : option Conftest.report;
  errors : list string;
  quits : list nat
}.

Definition py := M World State.

(** A call into [api_helper]. *)
Definition lift_api {A} (m : ApiHelper.py A) : py A :=
  fun w s =>
    let (r, a) := m (api_world w) (api s) in
    (r, {| api := a; shot := shot s; item_report := item_report s;
           errors := errors s; quits := quits s |}).

(** A call into [utils.screenshot]. *)
Definition lift_shot {A} (m : Screenshot.py A) : py A :=
  fun w s =>
    let (r, a) := m (shot_world w) (shot s) in
    (r, {| api := api s; shot := a; item_report := item_report s;
           errors := errors s; quits := quits s |}).

(** [setattr(item, "report", rep)] *)
Definition set_report (rep : Conftest.report) : py unit :=
  modify (fun s =>
    {| api := api s; shot := shot s; item_report := Some rep;
       errors := errors s; quits := quits s |}).

(** [pytest_runtest_makereport], from the report [rep] the wrapped hooks
    produced on. *)
Definition pytest_runtest_makereport (it : Screenshot.item)
    (rep : Conftest.report) : py Conftest.report :=
  (set_report rep ;;
   (if String.eqb (Conftest.when rep) "call" then
      let test_name := Screenshot.item_name it in
      let duration := Conftest.duration rep in
      let status := fst (Conftest.report_status rep) in
      let error_message := snd (Conftest.report_status rep) in
      lift_api (ApiHelper.after_each_test test_name status duration
                  error_message) ;;
      if Conftest.failed rep then
        lift_shot (Screenshot.save_screenshot_on_failure it)
      else ret tt
    else ret tt) ;;
   ret rep)%py.

Definition log_error (msg : string) : py unit :=
  modify (fun s =>
    {| api := api s; shot := shot s; item_report := item_report s;
       errors := errors s ++ [msg]; quits := quits s |}).

Definition record_screenshot (handle : nat) (path : string) : Screenshot.py unit :=
  modify (fun s =>
    {| Screenshot.report_extra := Screenshot.report_extra s;
       Screenshot.directories := Screenshot.directories s;
       Screenshot.screenshots := Screenshot.screenshots s ++ [(handle, path)];
       Screenshot.attachments := Screenshot.attachments s |}).

Definition record_attachment (path name : string) : Screenshot.py unit :=
  modify (fun s =>
    {| Screenshot.report_extra := Screenshot.report_extra s;
       Screenshot.directories := Screenshot.directories s;
       Screenshot.screenshots := Screenshot.screenshots s;
       Screenshot.attachments := Screenshot.attachments s ++ [(path, name)] |}).

(** The [py] fixture after its [yield], for the browser session [handle];
    [path] is [str(test_case.file_path.joinpath("failed.png"))], and
    [request.node.report] is the attribute the hook has set. *)
Definition py_teardown (handle : nat) (screenshots_on : bool) (path : string)
  : py unit :=
  (try_except
     (s <- get ;;
      match item_report s with
      | None => raise (OtherError "AttributeError")
      | Some rep =>
          if Conftest.failed rep then
            if screenshots_on then
              w <- ask ;;
              lift_shot
                (lift_outcome (Screenshot.screenshot (shot_world w) handle path) ;;
                 record_screenshot handle path ;;
                 lift_outcome
                   (Screenshot.allure_attach (shot_world w) path "failed.png") ;;
                 record_attachment path "failed.png")
            else ret tt
          else ret tt
      end)
     (fun _ => log_error "Failed to capture screenshot.") ;;
   w <- ask ;;
   lift_outcome (quit w handle) ;;
   modify (fun s =>
     {| api := api s; shot := shot s; item_report := item_report s;
        errors := errors s; quits := quits s ++ [handle] |}))%py.

End Hook.

(** ** The configuration fixtures of [conftest.py] *)

Module Config.

Definition rbind {A B} (r : result A) (f : A -> result B) : result B :=
  match r with
  | Ok a => f a
  | Raise e => Raise e
  end.

(** [v.get(k, default)]: defined on dicts only. *)
Definition py_get (v : json) (k : string) (default : json) : result json :=
  match v with
  | JDict d => Ok (match dict_get k d with Some x => x | None => default end)
  | _ => Raise (OtherError "AttributeError")
  end.

(** The [base_url] fixture; [loaded] is what [_load_env_json()] returns or
    raises (the file is missing, or is not JSON). *)
Definition base_url (loaded : result json) (env : string) : result json :=
  rbind loaded (fun cfg =>
  rbind (py_in "environments" cfg) (fun has_environments =>
  rbind (if has_environments : bool then
           rbind (py_getitem cfg "environments") (fun environments =>
           py_in env environments)
         else Ok false) (fun has_env =>
  if has_env : bool then
    rbind (py_getitem cfg "environments") (fun environments =>
    rbind (py_getitem environments env) (fun entry =>
    py_getitem entry "url"))
  else py_get cfg "url" (JStr "http://localhost")))).

(** The fields of the Pylenium configuration that the command line
    overrides. *)
Record driver_config := {
  browser : string;
  remote_url : string;
  options : list string;
  capabilities : json;
  local_path : string;
  page_load_wait_time : Z;
  extension_paths : list string
}.

Record logging_config := {
  screenshots_on : bool;
  pylog_level : string
}.

Record config := {
  driver : driver_config;
  logging : logging_config
}.

(** The values of the command-line options. *)
Record cli := {
  opt_remote_url : string;
  opt_options : string;
  opt_browser : string;
  opt_local_path : string;
  opt_caps : string;
  opt_page_load_wait_time : string;
  opt_screenshots_on : string;
  opt_extensions : string;
  opt_pylog_level : string
}.

(** [s.split(sep)] for a one-character separator *)
Fixpoint split_on (sep : ascii) (s : list ascii) : list (list ascii) :=
  match s with
  | [] => [[]]
  | c :: s' =>
      if Ascii.eqb c sep then [] :: split_on sep s'
      else match split_on sep s' with
           | field :: fields => (c :: field) :: fields
           | [] => [[c]]
           end
  end.

(** [[o.strip() for o in s.split(",")]] *)
Definition split_strip (s : string) : list string :=
  map (fun field => string_of_list_ascii (strip field))
      (split_on "," (list_ascii_of_string s)).

(** [s.isdigit()] on ASCII strings *)
Definition isdigit (s : string) : bool :=
  match list_ascii_of_string s with
  | [] => false
  | l => forallb is_digit l
  end.

Definition nonempty (s : string) : bool := negb (String.eqb s "").

Definition py := M (string -> result json) config.

Definition set_driver (f : driver_config -> driver_config) : py unit :=
  modify (fun c => {| driver := f (driver c); logging := logging c |}).

Definition set_logging (f : logging_config -> logging_config) : py unit :=
  modify (fun c => {| driver := driver c; logging := f (logging c) |}).

Definition when_ (b : bool) (m : py unit) : py unit :=
  if b then m else ret tt.

(** [_override_pylenium_config_values]: the loaded configuration is the
    state, [json.loads] the world. *)
Definition _override_pylenium_config_values (r : cli) : py unit :=
  (when_ (nonempty (opt_remote_url r))
     (set_driver (fun d =>
        {| browser := browser d; remote_url := opt_remote_url r;
           options := options d; capabilities := capabilities d;
           local_path := local_path d;
           page_load_wait_time := page_load_wait_time d;
           extension_paths := extension_paths d |})) ;;
   when_ (nonempty (opt_options r))
     (set_driver (fun d =>
        {| browser := browser d; remote_url := remote_url d;
           options := split_strip (opt_options r);
           capabilities := capabilities d; local_path := local_path d;
           page_load_wait_time := page_load_wait_time d;
           extension_paths := extension_paths d |})) ;;
   when_ (nonempty (opt_browser r))
     (set_driver (fun d =>
        {| browser := opt_browser r; remote_url := remote_url d;
           options := options d; capabilities := capabilities d;
           local_path := local_path d;
           page_load_wait_time := page_load_wait_time d;
           extension_paths := extension_paths d |})) ;;
   when_ (nonempty (opt_local_path r))
     (set_driver (fun d =>
        {| browser := browser d; remote_url := remote_url d;
           options := options d; capabilities := capabilities d;
           local_path := opt_local_path r;
           page_load_wait_time := page_load_wait_time d;
           extension_paths := extension_paths d |})) ;;
   when_ (nonempty (opt_caps r))
     (json_loads <- ask ;;
      caps <- (fun _ c => (json_loads (opt_caps r), c)) ;;
      set_driver (fun d =>
        {| browser := browser d; remote_url := remote_url d;
           options := options d; capabilities := caps;
           local_path := local_path d;
           page_load_wait_time := page_load_wait_time d;
           extension_paths := extension_paths d |})) ;;
   when_ (isdigit (opt_page_load_wait_time r))
     (n <- (fun _ c => (py_int_of_string (opt_page_load_wait_time r), c)) ;;
      set_driver (fun d =>
        {| browser := browser d; remote_url := remote_url d;
           options := options d; capabilities := capabilities d;
           local_path := local_path d; page_load_wait_time := n;
           extension_paths := extension_paths d |})) ;;
   when_ (nonempty (opt_screenshots_on r))
     (set_logging (fun l =>
        {| screenshots_on := String.eqb (lower (opt_screenshots_on r)) "true";
           pylog_level := pylog_level l |})) ;;
   when_ (nonempty (opt_extensions r))
     (set_driver (fun d =>
        {| browser := browser d; remote_url := remote_url d;
           options := options d; capabilities := capabilities d;
           local_path := local_path d;
           page_load_wait_time := page_load_wait_time d;
           extension_paths := split_strip (opt_extensions r) |})) ;;
   when_ (nonempty (opt_pylog_level r))
     (set_logging (fun l =>
        {| screenshots_on := screenshots_on l;
           pylog_level := upper (opt_pylog_level r) |})))%py.

(** The defaults of [pytest_addoption]. *)
Definition default_cli : cli :=
  {| opt_remote_url := ""; opt_options := ""; opt_browser := "";
     opt_local_path := ""; opt_caps := ""; opt_page_load_wait_time := "";
     opt_screenshots_on := ""; opt_extensions := "";
     opt_pylog_level := "INFO" |}.

End Config.

(** ** Vocabulary of the further properties *)

(** The request goes to the configured backend with the bearer token and
    the timeout of 30. *)
Definition well_addressed (a : APIHelper) (req : http_request) : Prop :=
  req_base_url req = api_base_url a /\
  req_headers req = request_headers a /\
  req_timeout req = 30.

(** The three kinds of request: the creation of the run, a test case of the
    run [id], the update of the run [id]. *)
Definition is_create (a : APIHelper) (req : http_request) : Prop :=
  req_method req = POST /\ req_endpoint req = PipelineRuns /\
  exists p, req_json req = RunCreate p /\ rc_status p = "running" /\
            int_of_string (build_number a) = Some (rc_build_number p).

Definition is_test_case (id : json) (req : http_request) : Prop :=
  req_method req = POST /\ req_endpoint req = TestCases /\
  exists p, req_json req = TestCase p /\ tc_run p = id.

Definition is_update (id : json) (req : http_request) : Prop :=
  req_method req = PATCH /\ req_endpoint req = PipelineRun id /\
  exists p, req_json req = RunUpdate p.

(** What one operation does from [s] to [s']: it only appends to the log;
    it sends nothing and counts nothing, or it sends one request of its
    kind and leaves the counters or adds one to its own counter, the latter
    only when the backend answered that request with a success status. *)
Definition op_effect (w : World) (key : string)
    (shape : http_request -> Prop) (s s' : Session) : Prop :=
  (exists l, log s' = log s ++ l) /\
  ((sent s' = sent s /\
    api_call_count (self s') = api_call_count (self s)) \/
   exists req,
     sent s' = sent s ++ [req] /\ shape req /\ well_addressed (self s) req /\
     (api_call_count (self s') = api_call_count (self s) \/
      exists n r,
        api_call_count (self s) !! key = Some n /\
        api_call_count (self s')
        = <[key := S n]> (api_call_count (self s)) /\
        backend w (sent s) req = HttpResponse r /\
        success_code (req_method req) (status_code r) = true)).

(** The counters are the three of [__init__]. *)
Definition three_counters (s : Session) : Prop :=
  dom (api_call_count (self s)) = ({["api-1"; "api-3"; "api-4"]} : gset string).

(** Every call fails, whatever was sent before. *)
Definition backend_unreachable (w : World) : Prop :=
  forall hist req, http_failure (req_method req) (backend w hist req).

(** A report with one of the three outcomes of pytest. *)
Definition standard_outcome (rep : Conftest.report) : bool :=
  Conftest.passed rep || Conftest.failed rep || Conftest.skipped rep.

(** What [__init__] reads from the environment. *)
Definition config_of (a : APIHelper)
  : bool * string * string * string * string * string * string * string
    * string * string :=
  (is_jenkins a, api_base_url a, api_token a, job_name a, build_number a,
   build_url a, git_branch a, git_commit a, org_id a, created_by a).

(** The value of a counter, 0 when the key is missing. *)
Definition count_of (key : string) (s : Session) : nat :=
  default 0%nat (api_call_count (self s) !! key).

(** A string of ASCII characters: the strings on which [upper], [lower],
    [int] and [isdigit] are those of Python. *)
Definition is_ascii (s : string) : bool :=
  forallb (fun c => (nat_of_ascii c <? 128)%nat) (list_ascii_of_string s).

(** The configuration once every override before the capabilities has been
    applied. *)
Definition before_caps (r : Config.cli) (c : Config.config) : Config.config :=
  let d := Config.driver c in
  {| Config.driver :=
       {| Config.browser :=
            if Config.nonempty (Config.opt_browser r) then Config.opt_browser r
            else Config.browser d;
          Config.remote_url :=
            if Config.nonempty (Config.opt_remote_url r)
            then Config.opt_remote_url r
            else Config.remote_url d;
          Config.options :=
            if Config.nonempty (Config.opt_options r)
            then Config.split_strip (Config.opt_options r)
            else Config.options d;
          Config.capabilities := Config.capabilities d;
          Config.local_path :=
            if Config.nonempty (Config.opt_local_path r)
            then Config.opt_local_path r
            else Config.local_path d;
          Config.page_load_wait_time := Config.page_load_wait_time d;
          Config.extension_paths := Config.extension_paths d |};
     Config.logging := Config.logging c |}.

(** The configuration once the capabilities [caps] are written too. *)
Definition with_caps (r : Config.cli) (caps : json) (c : Config.config)
  : Config.config :=
  let d := Config.driver (before_caps r c) in
  {| Config.driver :=
       {| Config.browser := Config.browser d;
          Config.remote_url := Config.remote_url d;
          Config.options := Config.options d;
          Config.capabilities := caps;
          Config.local_path := Config.local_path d;
          Config.page_load_wait_time := Config.page_load_wait_time d;
          Config.extension_paths := Config.extension_paths d |};
     Config.logging := Config.logging c |}.

(** The page load wait time the overrides arrive at, or the error of its
    conversion. *)
Definition wait_outcome (r : Config.cli) (c : Config.config) : result Z :=
  if Config.isdigit (Config.opt_page_load_wait_time r)
  then py_int_of_string (Config.opt_page_load_wait_time r)
  else Ok (Config.page_load_wait_time (Config.driver c)).

(** The configuration once every override has been applied, with the
    capabilities [caps] and the page load wait time [wait]. *)
Definition overridden (r : Config.cli) (caps : json) (wait : Z)
    (c : Config.config) : Config.config :=
  let d := Config.driver (with_caps r caps c) in
  {| Config.driver :=
       {| Config.browser := Config.browser d;
          Config.remote_url := Config.remote_url d;
          Config.options := Config.options d;
          Config.capabilities := caps;
          Config.local_path := Config.local_path d;
          Config.page_load_wait_time := wait;
          Config.extension_paths :=
            if Config.nonempty (Config.opt_extensions r)
            then Config.split_strip (Config.opt_extensions r)
            else Config.extension_paths d |};
     Config.logging :=
       {| Config.screenshots_on :=
            if Config.nonempty (Config.opt_screenshots_on r)
            then String.eqb (lower (Config.opt_screenshots_on r)) "true"
            else Config.screenshots_on (Config.logging c);
          Config.pylog_level :=
            if Config.nonempty (Config.opt_pylog_level r)
            then upper (Config.opt_pylog_level r)
            else Config.pylog_level (Config.logging c) |} |}.

(** A page load wait time of 4301 digits. *)
Definition long_wait_cli : Config.cli :=
  {| Config.opt_remote_url := "http://grid:4444"; Config.opt_options := "";
     Config.opt_browser := ""; Config.opt_local_path := "";
     Config.opt_caps := "";
     Config.opt_page_load_wait_time :=
       string_of_list_ascii (repeat "1"%char 4301);
     Config.opt_screenshots_on := "false"; Config.opt_extensions := "";
     Config.opt_pylog_level := "INFO" |}.

(** A skip reported in the setup phase, a failure of the call phase, and
    worlds for the hook: one where everything works, one where the browser
    is gone. *)
Definition setup_skip_report : Conftest.report :=
  {| Conftest.when := "setup"; Conftest.outcome := "skipped";
     Conftest.duration := float_of_Z 0;
     Conftest.longrepr := Some "Skipping this test based on requirement" |}.

Definition failed_call_report : Conftest.report :=
  {| Conftest.when := "call"; Conftest.outcome := "failed";
     Conftest.duration := float_of_decimal 2500 3;
     Conftest.longrepr := Some "AssertionError" |}.

Definition working_browser_world : Screenshot.World :=
  {| Screenshot.now_stamp := "20240101_000000";
     Screenshot.makedirs := fun _ => None;
     Screenshot.screenshot := fun _ _ => None;
     Screenshot.import_pytest_html := None;
     Screenshot.extras_image := fun _ => None;
     Screenshot.read_file := fun _ => None;
     Screenshot.allure_attach := fun _ _ => None |}.

Definition quiet_hook_world : Hook.World :=
  {| Hook.api_world := accepting_world;
     Hook.shot_world := working_browser_world;
     Hook.quit := fun _ => None |}.

Definition dead_hook_world : Hook.World :=
  {| Hook.api_world := accepting_world;
     Hook.shot_world := dead_browser_world;
     Hook.quit := fun _ => Some (OtherError "WebDriverException") |}.

Definition new_hook_state : Hook.State :=
  {| Hook.api := start (init local_env); Hook.shot := empty_report;
     Hook.item_report := None; Hook.errors := []; Hook.quits := [] |}.

(** A configuration file with two environments, a loaded configuration, and
    a command line that asks for screenshots with "yes" and for a wait of
    30, spelled with a sign. *)
Definition pylenium_json : json :=
  JDict [("url", JStr "https://example.com");
         ("environments",
          JDict [("dev", JDict [("url", JStr "https://dev.example.com")]);
                 ("qa", JDict [("url", JStr "https://qa.example.com")])])].

Definition a_config : Config.config :=
  {| Config.driver :=
       {| Config.browser := "chrome"; Config.remote_url := "";
          Config.options := []; Config.capabilities := JDict [];
          Config.local_path := ""; Config.page_load_wait_time := 30;
          Config.extension_paths := [] |};
     Config.logging :=
       {| Config.screenshots_on := true; Config.pylog_level := "DEBUG" |} |}.

Definition yes_cli : Config.cli :=
  {| Config.opt_remote_url := ""; Config.opt_options := "";
     Config.opt_browser := "firefox"; Config.opt_local_path := "";
     Config.opt_caps := ""; Config.opt_page_load_wait_time := "+60";
     Config.opt_screenshots_on := "yes"; Config.opt_extensions := "";
     Config.opt_pylog_level := "INFO" |}.

(** * Properties *)

(** ** Programs that cannot raise *)

Section Total.
Context {W S : Type}.

Lemma total_ret {A} (a : A) : total (ret a : M W S A).
Proof. intros w s. by exists a. Qed.

Lemma total_bind {A B} (m : M W S A) (f : A -> M W S B) :
  total m -> (forall a, total (f a)) -> total (bind m f).
Proof.
  intros Hm Hf w s. unfold bind.
  destruct (Hm w s) as [a Ha]. destruct (m w s) as [r s']; simpl in Ha; subst r.
  apply Hf.
Qed.

Lemma total_try_except {A} (m : M W S A) (h : exn -> M W S A) :
  (forall e, total (h e)) -> total (try_except m h).
Proof.
  intros Hh w s. unfold try_except.
  destruct (m w s) as [[a|e] s']; [by exists a | apply Hh].
Qed.

Lemma total_ask : total (@ask W S).
Proof. intros w s. by exists w. Qed.

Lemma total_get : total (@get W S).
Proof. intros w s. by exists s. Qed.

Lemma total_put (s0 : S) : total (@put W S s0).
Proof. intros w s. by exists tt. Qed.

Lemma total_modify (f : S -> S) : total (@modify W S f).
Proof. intros w s. by exists tt. Qed.

Lemma total_unit (m : M W S unit) w s : total m -> fst (m w s) = Ok tt.
Proof. intros H. by destruct (H w s) as [[] ->]. Qed.
End Total.

Create HintDb total.
#[export] Hint Resolve total_ret total_ask total_get total_put total_modify : total.

Ltac total_step :=
  first
    [ apply total_try_except; intros
    | apply total_bind; [| intros]
    | apply total_ret | apply total_get | apply total_ask
    | apply total_put | apply total_modify ].

Ltac total_auto :=
  repeat first
    [ total_step
    | solve [auto with total]
    | match goal with
      | |- total (match ?x with _ => _ end) => destruct x
      | |- total (if ?b then _ else _) => destruct b
      end ].

Lemma total_logger l m : total (logger l m).
Proof. unfold logger. total_auto. Qed.

Lemma total_post_request ep body : total (_post_request ep body).
Proof. unfold _post_request. total_auto. Qed.

Lemma total_patch_request ep body : total (_patch_request ep body).
Proof. unfold _patch_request. total_auto. Qed.

Lemma total_before_all_tests : total before_all_tests.
Proof. unfold before_all_tests. total_auto. Qed.

Lemma total_after_each_test name status d err :
  total (after_each_test name status d err).
Proof. unfold after_each_test. total_auto. Qed.

Lemma total_print_summary : total _print_summary.
Proof. unfold _print_summary. total_auto. Qed.

Lemma total_after_all_tests : total after_all_tests.
Proof. unfold after_all_tests. total_auto. Qed.

Lemma before_all_tests_ok w s : fst (before_all_tests w s) = Ok tt.
Proof. apply total_unit, total_before_all_tests. Qed.

Lemma after_each_test_ok name status d err w s :
  fst (after_each_test name status d err w s) = Ok tt.
Proof. apply total_unit, total_after_each_test. Qed.

Lemma after_all_tests_ok w s : fst (after_all_tests w s) = Ok tt.
Proof. apply total_unit, total_after_all_tests. Qed.

Lemma print_summary_ok w s : fst (_print_summary w s) = Ok tt.
Proof. apply total_unit, total_print_summary. Qed.

(** ** Symbolic execution of the tracking client *)

Ltac py_unfold :=
  cbv beta iota zeta delta
    [bind ret raise try_except ask get put modify lift lift_outcome
     get_self update_self set_self logger tick time_now utcnow_iso
     requests_send count_call read_count
     _post_request _patch_request before_all_tests after_each_test
     after_all_tests _print_summary _print_api_summary elapsed
     record_test state_of outcome_of local_only].

Ltac py_simpl :=
  cbn [fst snd self sent log clock_reads
       is_jenkins api_base_url api_token job_name build_number build_url
       git_branch git_commit org_id created_by pipeline_run_id test_results
       suite_start_time api_call_count
       set_pipeline_run_id set_test_results set_suite_start_time
       set_api_call_count negb orb andb] in *.

Ltac py_cases := repeat (case_match; simplify_eq; py_simpl).

Ltac py_run := py_unfold; py_simpl; py_cases; py_simpl.

Ltac log_suffix :=
  rewrite <- ?app_assoc; eexists; split; [reflexivity|].

(** Uses a failing next call in the branches where the backend answered. *)
Ltac use_failure Hfail :=
  match goal with
  | Hb : backend _ _ ?req = _ |- _ =>
      let Hf := fresh "Hf" in
      pose proof (Hfail req) as Hf; rewrite Hb in Hf;
      cbn [http_failure success_code req_method] in Hf; try congruence
  end.

(** *** [after_each_test] *)

Lemma after_each_test_frame name status d err w s :
  let s' := snd (after_each_test name status d err w s) in
  pipeline_run_id (self s') = pipeline_run_id (self s) /\
  is_jenkins (self s') = is_jenkins (self s) /\
  suite_start_time (self s') = suite_start_time (self s) /\
  test_results (self s')
  = test_results (self s) ++
    [stored {| call_name := name; call_status := status; call_duration := d;
               call_error_message := err |}].
Proof. cbv zeta. py_run; done. Qed.

Lemma after_each_test_keeps_run_id name status d err w s :
  pipeline_run_id (self (snd (after_each_test name status d err w s)))
  = pipeline_run_id (self s).
Proof. apply after_each_test_frame. Qed.

Lemma after_each_test_keeps_is_jenkins name status d err w s :
  is_jenkins (self (snd (after_each_test name status d err w s)))
  = is_jenkins (self s).
Proof. apply after_each_test_frame. Qed.

Lemma after_each_test_keeps_start name status d err w s :
  suite_start_time (self (snd (after_each_test name status d err w s)))
  = suite_start_time (self s).
Proof. apply after_each_test_frame. Qed.

Lemma after_each_test_appends name status d err w s :
  test_results (self (snd (after_each_test name status d err w s)))
  = test_results (self s) ++
    [stored {| call_name := name; call_status := status; call_duration := d;
               call_error_message := err |}].
Proof. apply after_each_test_frame. Qed.

Lemma after_each_test_local name status d err w s :
  local_only s = true ->
  sent (snd (after_each_test name status d err w s)) = sent s /\
  api_call_count (self (snd (after_each_test name status d err w s)))
  = api_call_count (self s).
Proof. unfold local_only. intros H. py_unfold. py_simpl. by rewrite H. Qed.

Lemma after_each_test_failure name status d err w s :
  next_call_fails w s ->
  api_call_count (self (snd (after_each_test name status d err w s)))
  = api_call_count (self s).
Proof. intros Hfail. py_run; try done; try (use_failure Hfail). Qed.

(** The request [after_each_test] may send is the test case of the call,
    with the duration in milliseconds [duration_ms] gives. *)
Lemma after_each_test_sends name status d err w s :
  let s' := snd (after_each_test name status d err w s) in
  sent s' = sent s \/
  exists req p ms,
    sent s' = sent s ++ [req] /\
    req_method req = POST /\ req_endpoint req = TestCases /\
    req_json req = TestCase p /\
    tc_run p = pipeline_run_id (self s) /\ tc_name p = name /\
    tc_status p = lower status /\ tc_error_message p = err /\
    duration_ms d = Ok ms /\ tc_duration p = ms.
Proof.
  cbv zeta. py_run; try (left; reflexivity).
  all: right; do 3 eexists; split; [reflexivity|]; by repeat split.
Qed.

(** *** [_print_summary] *)

Lemma print_summary_frame w s :
  sent (snd (_print_summary w s)) = sent s /\
  self (snd (_print_summary w s)) = self s.
Proof. py_run; done. Qed.

Lemma print_summary_log w s :
  test_results (self s) <> [] ->
  let results := test_results (self s) in
  In (INFO, Summary (length results) (count_status "PASSED" results)
              (count_status "FAILED" results) (count_status "SKIPPED" results))
     (log (snd (_print_summary w s))).
Proof. intros H. py_run. rewrite !in_app_iff. simpl. tauto. Qed.

(** *** [after_all_tests] *)

Lemma after_all_tests_local w s :
  local_only s = true -> after_all_tests w s = _print_summary w s.
Proof.
  unfold local_only. intros H. py_unfold. py_simpl. rewrite H.
  py_cases; reflexivity.
Qed.

Lemma set_api_call_count_id a : a = set_api_call_count (api_call_count a) a.
Proof. by destruct a. Qed.

(** [after_all_tests] changes nothing in the client but the call counters;
    the request it may send is the run update computed from the recorded
    results; the summary lines it logs carry their tally. *)
Lemma after_all_tests_spec w s :
  let results := test_results (self s) in
  let s' := snd (after_all_tests w s) in
  self s' = set_api_call_count (api_call_count (self s')) (self s) /\
  (next_call_fails w s -> self s' = self s) /\
  (sent s' = sent s \/
   exists req p,
     sent s' = sent s ++ [req] /\
     req_method req = PATCH /\
     req_endpoint req = PipelineRun (pipeline_run_id (self s)) /\
     req_json req = RunUpdate p /\
     ru_status p = overall_status (count_status "FAILED" results) /\
     ru_total_tests p = length results /\
     ru_passed_tests p = count_status "PASSED" results /\
     ru_failed_tests p = count_status "FAILED" results) /\
  (exists l, log s' = log s ++ l /\
     forall lv n0 n1 n2 n3,
       In (lv, Summary n0 n1 n2 n3) l \/ In (lv, Totals n0 n1 n2 n3) l ->
       n0 = length results /\ n1 = count_status "PASSED" results /\
       n2 = count_status "FAILED" results /\
       n3 = count_status "SKIPPED" results).
Proof.
  cbv zeta. py_run.
  all: split; [first [reflexivity | apply set_api_call_count_id]|].
  all: split; [intros Hfail; first [done | use_failure Hfail]|].
  all: split;
    [ first [ left; reflexivity
            | right; do 2 eexists; split; [reflexivity|]; by repeat split ] |].
  all: try (exists []; split; [by rewrite app_nil_r|]; by intros ????? [[]|[]]).
  all: log_suffix; intros lv n0 n1 n2 n3 [Hin|Hin]; cbn [In app] in Hin;
    repeat (destruct Hin as [Hin|Hin]; [simplify_eq|]); try done.
Qed.

Lemma after_all_tests_keeps_run_id w s :
  pipeline_run_id (self (snd (after_all_tests w s))) = pipeline_run_id (self s).
Proof. destruct (after_all_tests_spec w s) as [-> _]. reflexivity. Qed.

Lemma after_all_tests_keeps_results w s :
  test_results (self (snd (after_all_tests w s))) = test_results (self s).
Proof. destruct (after_all_tests_spec w s) as [-> _]. reflexivity. Qed.

Lemma after_all_tests_failure w s :
  next_call_fails w s -> self (snd (after_all_tests w s)) = self s.
Proof. apply after_all_tests_spec. Qed.

(** Under CI with a run identifier, [after_all_tests] sends one request
    once the elapsed time is a finite number of milliseconds. *)
Lemma after_all_tests_remote w s :
  is_jenkins (self s) = true ->
  truthy (pipeline_run_id (self s)) = true ->
  elapsed_finite w s ->
  exists req, sent (snd (after_all_tests w s)) = sent s ++ [req].
Proof.
  intros Hci Hid Hfin. unfold elapsed_finite in Hfin.
  py_unfold. rewrite Hci, Hid. py_simpl.
  destruct (suite_start_time (self s)) as [t0|] eqn:Ht0; py_simpl.
  - destruct (float_truthy t0); py_simpl.
    + destruct (Hfin t0 (clock_reads s) eq_refl) as [ms Hms].
      rewrite Hms. py_simpl. py_cases; by eexists.
    + cbn [number_ms]. py_simpl. py_cases; by eexists.
  - cbn [number_ms]. py_simpl. py_cases; by eexists.
Qed.



(** *** [after_each_test] on an accepting backend *)


(** *** [before_all_tests] *)

(** [before_all_tests] changes nothing in the client but the start time, the
    run identifier and the call counters. *)
Lemma before_all_tests_frame w s :
  let s' := snd (before_all_tests w s) in
  test_results (self s') = test_results (self s) /\
  is_jenkins (self s') = is_jenkins (self s) /\
  build_number (self s') = build_number (self s) /\
  (is_jenkins (self s) = true ->
   suite_start_time (self s') = Some (time_time w (clock_reads s))).
Proof.
  cbv zeta. py_run; repeat split; try done;
    by destruct (is_jenkins (self s)).
Qed.

Lemma before_all_tests_local w s :
  is_jenkins (self s) = false ->
  sent (snd (before_all_tests w s)) = sent s /\
  self (snd (before_all_tests w s)) = self s.
Proof. intros H. py_unfold. rewrite H. done. Qed.

Lemma before_all_tests_failure w s :
  next_call_fails w s ->
  pipeline_run_id (self (snd (before_all_tests w s))) = pipeline_run_id (self s) /\
  api_call_count (self (snd (before_all_tests w s))) = api_call_count (self s).
Proof. intros Hfail. py_run; try done; try (use_failure Hfail). Qed.

Lemma py_getitem_Ok j k v :
  py_getitem j k = Ok v -> exists d, j = JDict d /\ dict_get k d = Some v.
Proof.
  destruct j; simpl; try discriminate.
  destruct (dict_get k d) eqn:E; [|discriminate].
  intros [= ->]. by exists d.
Qed.

Lemma nested_run_id_Some j pr v :
  py_getitem j "pipeline_run" = Ok pr -> py_getitem pr "run_id" = Ok v ->
  nested_run_id (Some j) = Some v.
Proof.
  intros (d & -> & Hd)%py_getitem_Ok (d' & -> & Hd')%py_getitem_Ok.
  simpl. by rewrite Hd.
Qed.


(** Uses the answer of the backend in the branches where one arrived. *)
Ltac use_response Hresp :=
  match goal with
  | Hb : backend _ _ ?req = _ |- _ =>
      let r := fresh "r" in
      let Hr := fresh "Hr" in
      let Hcode := fresh "Hcode" in
      let Hnone := fresh "Hnone" in
      destruct (Hresp req) as (r & Hr & Hcode & Hnone);
      rewrite Hb in Hr; simplify_eq;
      cbn [success_code] in Hcode; try congruence
  end.

Ltac nested_contradiction :=
  match goal with
  | H1 : py_getitem ?j "pipeline_run" = Ok ?pr,
    H2 : py_getitem ?pr "run_id" = Ok ?v,
    Hn : nested_run_id (response_json ?r) = None,
    Hj : response_json ?r = Some ?j |- _ =>
      rewrite Hj, (nested_run_id_Some _ _ _ H1 H2) in Hn; discriminate
  end.

Lemma before_all_tests_lacking_run_id w s :
  is_jenkins (self s) = true ->
  next_response_lacks_run_id w s ->
  pipeline_run_id (self (snd (before_all_tests w s))) = pipeline_run_id (self s) /\
  exists l, log (snd (before_all_tests w s)) = log s ++ l /\
            existsb is_error l = true.
Proof.
  intros Hci Hresp. py_unfold. rewrite Hci. py_run; try congruence;
    try use_response Hresp; try nested_contradiction.
  all: split; [reflexivity|]; log_suffix; reflexivity.
Qed.

Lemma before_all_tests_assigns w s :
  pipeline_run_id (self (snd (before_all_tests w s))) = pipeline_run_id (self s) \/
  (is_jenkins (self s) = true /\
   exists req r v,
     sent (snd (before_all_tests w s)) = sent s ++ [req] /\
     req_method req = POST /\ req_endpoint req = PipelineRuns /\
     backend w (sent s) req = HttpResponse r /\
     success_code POST (status_code r) = true /\
     nested_run_id (response_json r) = Some v /\
     pipeline_run_id (self (snd (before_all_tests w s))) = v).
Proof.
  py_run; try (left; reflexivity).
  all: right; split; [by destruct (is_jenkins (self s))|].
  all: do 3 eexists; split; [reflexivity|].
  all: repeat split; try eassumption; try reflexivity.
  all: match goal with
       | Hj : response_json ?r = Some ?j |- nested_run_id (response_json ?r) = _ =>
           rewrite Hj; eapply nested_run_id_Some; eassumption
       end.
Qed.


(** *** Sequences of tests and whole sessions *)

Lemma record_tests_cons c calls w s :
  record_tests (c :: calls) w s = record_tests calls w (snd (record_test c w s)).
Proof.
  cbn [record_tests]. unfold bind at 1.
  pose proof (after_each_test_ok (call_name c) (call_status c)
    (call_duration c) (call_error_message c) w s) as Hok.
  fold (record_test c) in Hok.
  destruct (record_test c w s) as [[[]|e] s1]; simpl in *;
    [reflexivity | discriminate].
Qed.

(** What every [after_each_test] keeps, [record_tests] keeps. *)
Lemma record_tests_ind (I : Session -> Prop) calls w s :
  (forall c s0, I s0 -> I (snd (record_test c w s0))) ->
  I s -> I (snd (record_tests calls w s)).
Proof.
  intros Hstep. revert s.
  induction calls as [|c calls IH]; intros s Hs; [exact Hs|].
  rewrite record_tests_cons. apply IH, Hstep, Hs.
Qed.

Lemma record_tests_ok calls w s : fst (record_tests calls w s) = Ok tt.
Proof.
  revert s. induction calls as [|c calls IH]; intros s; [reflexivity|].
  rewrite record_tests_cons. apply IH.
Qed.

Lemma record_tests_results calls w s :
  test_results (self (snd (record_tests calls w s)))
  = test_results (self s) ++ map stored calls.
Proof.
  revert s. induction calls as [|c calls IH]; intros s.
  - simpl. by rewrite app_nil_r.
  - rewrite record_tests_cons, IH. unfold record_test.
    rewrite after_each_test_appends. destruct c; simpl.
    by rewrite <- app_assoc.
Qed.

Lemma record_tests_frame calls w s :
  let s' := snd (record_tests calls w s) in
  pipeline_run_id (self s') = pipeline_run_id (self s) /\
  is_jenkins (self s') = is_jenkins (self s) /\
  suite_start_time (self s') = suite_start_time (self s).
Proof.
  cbv zeta.
  apply (record_tests_ind (fun s' =>
    pipeline_run_id (self s') = pipeline_run_id (self s) /\
    is_jenkins (self s') = is_jenkins (self s) /\
    suite_start_time (self s') = suite_start_time (self s))); [|done].
  intros c s0 (<- & <- & <-). unfold record_test.
  by rewrite after_each_test_keeps_run_id, after_each_test_keeps_is_jenkins,
    after_each_test_keeps_start.
Qed.

Lemma record_tests_keeps_run_id calls w s :
  pipeline_run_id (self (snd (record_tests calls w s))) = pipeline_run_id (self s).
Proof. apply record_tests_frame. Qed.

Lemma record_tests_local calls w s :
  local_only s = true ->
  sent (snd (record_tests calls w s)) = sent s /\
  local_only (snd (record_tests calls w s)) = true.
Proof.
  intros Hloc.
  apply (record_tests_ind (fun s' => sent s' = sent s /\ local_only s' = true));
    [|done].
  intros c s0 [Hs Hl]. unfold record_test. split.
  - rewrite <- Hs. by apply after_each_test_local.
  - unfold local_only in *.
    by rewrite after_each_test_keeps_is_jenkins, after_each_test_keeps_run_id.
Qed.

Lemma session_eq calls w s :
  session calls w s
  = (Ok tt, snd (after_all_tests w
                   (snd (record_tests calls w (snd (before_all_tests w s)))))).
Proof.
  unfold session. unfold bind at 1.
  pose proof (before_all_tests_ok w s) as H1.
  destruct (before_all_tests w s) as [[[]|e] s1]; simpl in *; [|discriminate].
  unfold bind at 1.
  pose proof (record_tests_ok calls w s1) as H2.
  destruct (record_tests calls w s1) as [[[]|e] s2]; simpl in *; [|discriminate].
  pose proof (after_all_tests_ok w s2) as H3.
  destruct (after_all_tests w s2) as [[[]|e] s3]; simpl in *;
    [reflexivity | discriminate].
Qed.


(** *** Counting by status *)

Lemma count_status_positive st l :
  (0 < count_status st l)%nat <-> exists t, In t l /\ tr_status t = st.
Proof.
  induction l as [|t l IH]; simpl.
  - split; [lia | by intros (? & [] & _)].
  - destruct (String.eqb_spec (tr_status t) st) as [Heq|Hne].
    + split; [|lia]. intros _. exists t. auto.
    + rewrite Nat.add_0_l, IH. split.
      * intros (t' & Hin & Hst). exists t'. auto.
      * intros (t' & [->|Hin] & Hst); [done|]. exists t'. auto.
Qed.

Lemma overall_status_failed n :
  overall_status n = "failed" <-> (0 < n)%nat.
Proof.
  unfold overall_status. destruct (Nat.ltb_spec 0 n); split; try done; lia.
Qed.

Lemma overall_status_passed n :
  overall_status n = "passed" <-> n = 0%nat.
Proof.
  unfold overall_status. destruct (Nat.ltb_spec 0 n); split; try done; lia.
Qed.

Lemma count_partition_le l :
  (count_status "PASSED" l + count_status "FAILED" l + count_status "SKIPPED" l
   <= length l)%nat.
Proof.
  induction l as [|t l IH]; simpl; [lia|].
  destruct (String.eqb_spec (tr_status t) "PASSED") as [->|];
    [simpl; lia|].
  destruct (String.eqb_spec (tr_status t) "FAILED") as [->|];
    [simpl; lia|].
  destruct (String.eqb (tr_status t) "SKIPPED"); lia.
Qed.

Lemma count_partition_eq l :
  (count_status "PASSED" l + count_status "FAILED" l + count_status "SKIPPED" l
   = length l)%nat <-> forallb known_status l = true.
Proof.
  induction l as [|t l IH]; simpl; [done|].
  pose proof (count_partition_le l) as Hle.
  unfold known_status at 1.
  destruct (String.eqb_spec (tr_status t) "PASSED") as [->|];
    [simpl; rewrite <- IH; lia|].
  destruct (String.eqb_spec (tr_status t) "FAILED") as [->|];
    [simpl; rewrite <- IH; lia|].
  destruct (String.eqb (tr_status t) "SKIPPED"); simpl;
    [rewrite <- IH; lia | split; [lia | done]].
Qed.



(** ** The tracking client: the properties of the specification *)

(** What [after_all_tests] makes of the counts.  Without CI or without a
    run identifier it sends nothing and logs the local summary of a list
    that is not empty; with both, once the elapsed time converts to
    milliseconds, it sends the run update with the counts, and logs the
    totals when the backend answers it with a success status (and the
    counter of the run updates is there to be incremented). *)
Lemma after_all_tests_reports w s :
  let results := test_results (self s) in
  let passed := count_status "PASSED" results in
  let failed := count_status "FAILED" results in
  let skipped := count_status "SKIPPED" results in
  let s' := snd (after_all_tests w s) in
  (local_only s = true -> results <> [] ->
   sent s' = sent s /\
   exists l, log s' = log s ++ l /\
     In (INFO, Summary (length results) passed failed skipped) l) /\
  (local_only s = false -> elapsed_finite w s ->
   exists req p l,
     sent s' = sent s ++ [req] /\
     req_method req = PATCH /\
     req_endpoint req = PipelineRun (pipeline_run_id (self s)) /\
     req_json req = RunUpdate p /\
     ru_total_tests p = length results /\
     ru_passed_tests p = passed /\ ru_failed_tests p = failed /\
     log s' = log s ++ l /\
     (forall r,
        backend w (sent s) req = HttpResponse r ->
        success_code PATCH (status_code r) = true ->
        is_Some (api_call_count (self s) !! "api-4") ->
        In (INFO, Totals (length results) passed failed skipped) l)).
Proof.
  cbv zeta. split.
  - intros Hlocal Hres. rewrite after_all_tests_local by done.
    py_run; try done. split; [reflexivity|]. log_suffix.
    rewrite ?in_app_iff. simpl. tauto.
  - unfold local_only. intros Hremote Hfin.
    apply orb_false_elim in Hremote as [Hci Hid].
    apply negb_false_iff in Hci, Hid. unfold elapsed_finite in Hfin.
    py_unfold. rewrite Hci, Hid. py_simpl.
    assert (Hdone : forall (P : Prop) r0 e,
              HttpRaises e = HttpResponse r0 -> P) by (intros; discriminate).
    destruct (suite_start_time (self s)) as [t0|] eqn:Ht0; py_simpl;
      [destruct (float_truthy t0); py_simpl;
       [destruct (Hfin t0 (clock_reads s) eq_refl) as [ms Hms];
        rewrite Hms
       |cbn [number_ms]]
      |cbn [number_ms]];
      py_simpl; unfold success_code; py_cases;
      do 3 eexists; (split; [reflexivity|]);
      do 6 (split; [reflexivity|]);
      rewrite <- ?app_assoc; (split; [reflexivity|]);
      intros r0 Hr Hcode [? ?]; simplify_eq;
      try (cbn [req_method] in *; congruence);
      rewrite ?in_app_iff; simpl; tauto.
Qed.

(** C1 (amended). At session end the counts the client computes are the
    tally of the recorded list.  The results recorded are those of the
    [after_each_test] calls, in order (N of them in a session of N tests).
    Without CI or without a run identifier [after_all_tests] logs the
    summary of a list that is not empty, with the length of the list and
    the numbers of its PASSED, FAILED and SKIPPED records; with both, once
    the elapsed time converts, it sends the run update with the length and
    the numbers of PASSED and FAILED records, and logs all four when the
    backend answers with a success (the counter of the run updates being
    there, as [__init__] leaves it).  No other run update is sent and no
    other summary line logged.  The three counts sum to at most the length,
    and to the length exactly when every stored status is PASSED, FAILED or
    SKIPPED. *)
Theorem session_counts_match_recorded_results w s calls :
  let s2 := snd (record_tests calls w s) in
  let results := test_results (self s2) in
  let passed := count_status "PASSED" results in
  let failed := count_status "FAILED" results in
  let skipped := count_status "SKIPPED" results in
  let s3 := snd (after_all_tests w s2) in
  results = test_results (self s) ++ map stored calls /\
  (forall env, test_results (self (snd (session calls w (start (init env)))))
               = map stored calls) /\
  (sent s3 = sent s2 \/
   exists req p,
     sent s3 = sent s2 ++ [req] /\ req_json req = RunUpdate p /\
     ru_total_tests p = length results /\
     ru_passed_tests p = passed /\ ru_failed_tests p = failed) /\
  (exists l, log s3 = log s2 ++ l /\
     forall lv n0 n1 n2 n3,
       In (lv, Summary n0 n1 n2 n3) l \/ In (lv, Totals n0 n1 n2 n3) l ->
       n0 = length results /\ n1 = passed /\ n2 = failed /\ n3 = skipped) /\
  (local_only s2 = true -> results <> [] ->
   sent s3 = sent s2 /\
   exists l, log s3 = log s2 ++ l /\
     In (INFO, Summary (length results) passed failed skipped) l) /\
  (local_only s2 = false -> elapsed_finite w s2 ->
   exists req p l,
     sent s3 = sent s2 ++ [req] /\
     req_method req = PATCH /\
     req_endpoint req = PipelineRun (pipeline_run_id (self s2)) /\
     req_json req = RunUpdate p /\
     ru_total_tests p = length results /\
     ru_passed_tests p = passed /\ ru_failed_tests p = failed /\
     log s3 = log s2 ++ l /\
     (forall r,
        backend w (sent s2) req = HttpResponse r ->
        success_code PATCH (status_code r) = true ->
        is_Some (api_call_count (self s2) !! "api-4") ->
        In (INFO, Totals (length results) passed failed skipped) l)) /\
  (passed + failed + skipped <= length results)%nat /\
  ((passed + failed + skipped)%nat = length results
   <-> forallb known_status results = true).
Proof.
  cbv zeta. split; [apply record_tests_results|].
  split.
  { intros env. rewrite session_eq. cbn [snd].
    rewrite after_all_tests_keeps_results, record_tests_results.
    by destruct (before_all_tests_frame w (start (init env))) as [-> _]. }
  destruct (after_all_tests_spec w (snd (record_tests calls w s)))
    as (_ & _ & Hsent & Hlog).
  split.
  { destruct Hsent as [H|(req & p & H & _ & _ & Hp & _ & Ht & Hpa & Hf)];
      [by left|].
    right. by exists req, p. }
  split; [exact Hlog|].
  destruct (after_all_tests_reports w (snd (record_tests calls w s)))
    as [Hlocal Hremote].
  split; [exact Hlocal|]. split; [exact Hremote|].
  split; [apply count_partition_le | apply count_partition_eq].
Qed.

Lemma session_counts_match_recorded_results_witness :
  let s2 := snd (record_tests three_calls accepting_world
                   (start (init local_env))) in
  let t2 := snd (record_tests three_calls accepting_world
                   (snd (before_all_tests accepting_world
                           (start (init ci_env))))) in
  (local_only s2 = true /\ test_results (self s2) <> [] /\
   forallb known_status (test_results (self s2)) = true /\
   In (INFO, Summary 3 1 1 1)
      (log (snd (after_all_tests accepting_world s2)))) /\
  (local_only t2 = false /\ elapsed_finite accepting_world t2 /\
   exists req p,
     sent (snd (after_all_tests accepting_world t2)) = sent t2 ++ [req] /\
     req_json req = RunUpdate p /\
     ru_total_tests p = 3%nat /\ ru_passed_tests p = 1%nat /\
     ru_failed_tests p = 1%nat).
Proof.
  cbv zeta. split.
  - pose proof (session_counts_match_recorded_results accepting_world
                  (start (init local_env)) three_calls) as Hthm.
    cbv zeta in Hthm.
    destruct Hthm as (Hres & _ & _ & _ & Hlocal & _ & _ & Hiff).
    assert (H1 : local_only (snd (record_tests three_calls accepting_world
                                    (start (init local_env)))) = true)
      by (vm_compute; reflexivity).
    assert (H2 : test_results
                   (self (snd (record_tests three_calls accepting_world
                                 (start (init local_env))))) <> [])
      by (rewrite Hres; discriminate).
    split; [exact H1|]. split; [exact H2|].
    split; [rewrite Hres; reflexivity|].
    destruct (Hlocal H1 H2) as (_ & l & -> & Hin).
    apply in_or_app. right. rewrite Hres in Hin. exact Hin.
  - pose proof (session_counts_match_recorded_results accepting_world
                  (snd (before_all_tests accepting_world (start (init ci_env))))
                  three_calls) as Hthm.
    cbv zeta in Hthm.
    destruct Hthm as (Hres & _ & _ & _ & _ & Hremote & _).
    set (t2 := snd (record_tests three_calls accepting_world
                      (snd (before_all_tests accepting_world
                              (start (init ci_env)))))) in *.
    assert (H1 : local_only t2 = false) by (vm_compute; reflexivity).
    assert (H2 : elapsed_finite accepting_world t2).
    { intros t0 n Ht0. exists 0.
      assert (suite_start_time (self t2) = Some (float_of_Z 1700000000)) as Hs
        by (vm_compute; reflexivity).
      rewrite Hs in Ht0. injection Ht0 as <-. vm_compute. reflexivity. }
    split; [exact H1|]. split; [exact H2|].
    destruct (Hremote H1 H2)
      as (req & p & l & Hs & _ & _ & Hp & Ht & Hpa & Hf & _).
    exists req, p. rewrite Hres in Ht, Hpa, Hf.
    split; [exact Hs|]. split; [exact Hp|].
    split; [exact Ht|]. split; [exact Hpa|exact Hf].
Defined.

(** C1 as stated fails: one test whose report is neither passed, failed nor
    skipped is recorded with the status UNKNOWN, which no count includes:
    the local summary of the session reads total 1, passed 0, failed 0,
    skipped 0. *)
Lemma unknown_status_is_in_no_count :
  let s := snd (session [unknown_call] accepting_world (start (init local_env))) in
  call_status unknown_call = "unknown" /\
  map tr_status (test_results (self s)) = ["UNKNOWN"] /\
  In (INFO, Summary 1 0 0 0) (log s) /\
  (0 + 0 + 0)%nat <> 1%nat.
Proof.
  cbv zeta. split; [reflexivity|]. split; [vm_compute; reflexivity|].
  split; [|lia].
  vm_compute. repeat (first [left; reflexivity | right]).
Qed.

(** C2. The status [after_all_tests] puts in the run update is "failed"
    exactly when a recorded result has the status FAILED, and "passed"
    exactly when none has (an empty or all-skipped run is "passed"); under CI
    with a run identifier and a finite elapsed time the update is sent. *)
Theorem overall_status_failed_iff_some_failed w s :
  let results := test_results (self s) in
  let s' := snd (after_all_tests w s) in
  (sent s' = sent s \/
   exists req p,
     sent s' = sent s ++ [req] /\ req_json req = RunUpdate p /\
     (ru_status p = "failed"
      <-> exists t, In t results /\ tr_status t = "FAILED") /\
     (ru_status p = "passed"
      <-> forall t, In t results -> tr_status t <> "FAILED")) /\
  (is_jenkins (self s) = true ->
   truthy (pipeline_run_id (self s)) = true ->
   elapsed_finite w s ->
   sent s' <> sent s).
Proof.
  cbv zeta. split.
  - destruct (after_all_tests_spec w s) as (_ & _ & Hsent & _).
    destruct Hsent as [H|(req & p & H & _ & _ & Hp & Hst & _)]; [by left|].
    right. exists req, p. split; [done|]. split; [done|]. rewrite Hst.
    split.
    + by rewrite overall_status_failed, count_status_positive.
    + rewrite overall_status_passed. split.
      * intros H0 t Hin Hf.
        assert (0 < count_status "FAILED" (test_results (self s)))%nat; [|lia].
        apply count_status_positive. by exists t.
      * intros Hnone.
        destruct (count_status "FAILED" (test_results (self s))) eqn:E; [done|].
        assert (0 < count_status "FAILED" (test_results (self s)))%nat
          as (t & Hin & Hf)%count_status_positive by lia.
        by destruct (Hnone t Hin).
  - intros Hci Hid Hfin.
    destruct (after_all_tests_remote w s Hci Hid Hfin) as [req ->].
    intros Heq. apply (f_equal length) in Heq.
    rewrite length_app in Heq. simpl in Heq. lia.
Qed.

Lemma overall_status_failed_iff_some_failed_witness :
  let s := snd (record_tests three_calls accepting_world
                  (snd (before_all_tests accepting_world (start (init ci_env))))) in
  is_jenkins (self s) = true /\
  truthy (pipeline_run_id (self s)) = true /\
  elapsed_finite accepting_world s /\
  sent (snd (after_all_tests accepting_world s)) <> sent s.
Proof.
  cbv zeta.
  set (s := snd (record_tests three_calls accepting_world
                   (snd (before_all_tests accepting_world (start (init ci_env)))))).
  assert (H1 : is_jenkins (self s) = true) by (vm_compute; reflexivity).
  assert (H2 : truthy (pipeline_run_id (self s)) = true) by (vm_compute; reflexivity).
  assert (H3 : elapsed_finite accepting_world s).
  { intros t0 n Ht0. exists 0.
    assert (suite_start_time (self s) = Some (float_of_Z 1700000000)) as Hs
      by (vm_compute; reflexivity).
    rewrite Hs in Ht0. injection Ht0 as <-. vm_compute. reflexivity. }
  split; [exact H1|]. split; [exact H2|]. split; [exact H3|].
  exact (proj2 (overall_status_failed_iff_some_failed accepting_world s) H1 H2 H3).
Defined.

(** C3. No HTTP failure reaches the caller: the three operations return
    normally in every world, and when the call an operation sends fails
    (the call raises, or the status is not a success status) the run
    identifier and the call counters stay as they were; [after_each_test]
    still records the test, [after_all_tests] changes nothing in the
    client. *)
Theorem http_failures_are_swallowed w s :
  (fst (before_all_tests w s) = Ok tt /\
   (forall name status d err,
      fst (after_each_test name status d err w s) = Ok tt) /\
   fst (after_all_tests w s) = Ok tt) /\
  (next_call_fails w s ->
   (pipeline_run_id (self (snd (before_all_tests w s))) = pipeline_run_id (self s) /\
    api_call_count (self (snd (before_all_tests w s))) = api_call_count (self s)) /\
   (forall name status d err,
      let s' := snd (after_each_test name status d err w s) in
      pipeline_run_id (self s') = pipeline_run_id (self s) /\
      api_call_count (self s') = api_call_count (self s) /\
      test_results (self s')
      = test_results (self s) ++
        [stored {| call_name := name; call_status := status;
                   call_duration := d; call_error_message := err |}]) /\
   self (snd (after_all_tests w s)) = self s).
Proof.
  split.
  - split; [apply before_all_tests_ok|].
    split; [intros; apply after_each_test_ok | apply after_all_tests_ok].
  - intros Hfail. split; [by apply before_all_tests_failure|].
    split; [|by apply after_all_tests_failure].
    intros name status d err. cbv zeta.
    split; [apply after_each_test_keeps_run_id|].
    split; [by apply after_each_test_failure | apply after_each_test_appends].
Qed.

Lemma http_failures_are_swallowed_witness :
  next_call_fails unreachable_world (start (init ci_env)) /\
  self (snd (after_all_tests unreachable_world (start (init ci_env))))
  = init ci_env.
Proof.
  assert (H : next_call_fails unreachable_world (start (init ci_env)))
    by (intros req; exact I).
  split; [exact H|].
  apply (proj2 (http_failures_are_swallowed unreachable_world (start (init ci_env))) H).
Defined.

(** C4. Without CI signals the session makes no HTTP call:
    [before_all_tests] sends nothing and leaves the run identifier as it was
    ([None] in a new client), every [after_each_test] and [after_all_tests]
    sends nothing either, every test is still recorded locally, and
    [after_all_tests] logs the local summary of the recorded results. *)
Theorem local_run_makes_no_http_call w s calls :
  is_jenkins (self s) = false ->
  let s1 := snd (before_all_tests w s) in
  let s2 := snd (record_tests calls w s1) in
  let s3 := snd (after_all_tests w s2) in
  let results := test_results (self s) ++ map stored calls in
  session calls w s = (Ok tt, s3) /\
  (sent s1 = sent s /\ pipeline_run_id (self s1) = pipeline_run_id (self s)) /\
  (sent s2 = sent s /\ pipeline_run_id (self s2) = pipeline_run_id (self s) /\
   test_results (self s2) = results) /\
  (sent s3 = sent s /\ pipeline_run_id (self s3) = pipeline_run_id (self s) /\
   test_results (self s3) = results /\
   (results <> [] ->
    In (INFO, Summary (length results) (count_status "PASSED" results)
                (count_status "FAILED" results) (count_status "SKIPPED" results))
       (log s3))).
Proof.
  intros Hlocal. cbv zeta.
  destruct (before_all_tests_local w s Hlocal) as [Hsent1 Hself1].
  set (s1 := snd (before_all_tests w s)) in *.
  assert (Hloc1 : local_only s1 = true)
    by (unfold local_only; by rewrite Hself1, Hlocal).
  destruct (record_tests_local calls w s1 Hloc1) as [Hsent2 Hloc2].
  pose proof (record_tests_keeps_run_id calls w s1) as Hid2.
  pose proof (record_tests_results calls w s1) as Hres2.
  set (s2 := snd (record_tests calls w s1)) in *.
  pose proof (session_eq calls w s) as Hsession. fold s1 s2 in Hsession.
  rewrite (after_all_tests_local w s2 Hloc2) in *.
  destruct (print_summary_frame w s2) as [-> ->].
  rewrite Hsent2, Hid2, Hres2, Hsent1, Hself1.
  repeat split; try done.
  intros Hne. rewrite <- Hself1, <- Hres2. apply print_summary_log.
  by rewrite Hres2, Hself1.
Qed.

Lemma local_run_makes_no_http_call_witness :
  is_jenkins (self (start (init local_env))) = false /\
  session three_calls unreachable_world (start (init local_env))
  = (Ok tt,
     snd (after_all_tests unreachable_world
       (snd (record_tests three_calls unreachable_world
          (snd (before_all_tests unreachable_world (start (init local_env)))))))).
Proof.
  assert (H : is_jenkins (self (start (init local_env))) = false) by reflexivity.
  split; [exact H|].
  apply (local_run_makes_no_http_call unreachable_world
           (start (init local_env)) three_calls H).
Defined.

(** C5. Under CI with no run identifier yet, a success answer to the
    run-create call whose body lacks the nested [run_id] leaves the
    identifier unset: [before_all_tests] returns normally and logs an error,
    and the tests recorded afterwards and [after_all_tests] send nothing. *)
Theorem missing_run_id_leaves_run_unset w s :
  is_jenkins (self s) = true ->
  pipeline_run_id (self s) = JNull ->
  next_response_lacks_run_id w s ->
  let s1 := snd (before_all_tests w s) in
  fst (before_all_tests w s) = Ok tt /\
  pipeline_run_id (self s1) = JNull /\
  (exists l, log s1 = log s ++ l /\ existsb is_error l = true) /\
  (forall calls w',
     let s2 := snd (record_tests calls w' s1) in
     sent s2 = sent s1 /\ sent (snd (after_all_tests w' s2)) = sent s1).
Proof.
  intros Hci Hnone Hresp. cbv zeta.
  destruct (before_all_tests_lacking_run_id w s Hci Hresp) as [Hid Hlog].
  rewrite Hnone in Hid.
  split; [apply before_all_tests_ok|].
  split; [exact Hid|]. split; [exact Hlog|].
  intros calls w'.
  set (s1 := snd (before_all_tests w s)) in *.
  assert (Hloc1 : local_only s1 = true).
  { unfold local_only. rewrite Hid. apply orb_true_r. }
  destruct (record_tests_local calls w' s1 Hloc1) as [Hsent2 Hloc2].
  split; [exact Hsent2|].
  rewrite after_all_tests_local by done.
  by destruct (print_summary_frame w' (snd (record_tests calls w' s1))) as [-> _].
Qed.

Lemma missing_run_id_leaves_run_unset_witness :
  is_jenkins (self (start (init ci_env))) = true /\
  next_response_lacks_run_id no_run_id_world (start (init ci_env)) /\
  pipeline_run_id
    (self (snd (before_all_tests no_run_id_world (start (init ci_env))))) = JNull.
Proof.
  assert (H1 : is_jenkins (self (start (init ci_env))) = true) by reflexivity.
  assert (H2 : next_response_lacks_run_id no_run_id_world (start (init ci_env))).
  { intros req. eexists. split; [reflexivity|]. split; reflexivity. }
  split; [exact H1|]. split; [exact H2|].
  apply (missing_run_id_leaves_run_unset no_run_id_world (start (init ci_env))
           H1 eq_refl H2).
Defined.

(** C10. The run identifier is [None] at construction; only
    [before_all_tests] changes it, and only under CI on a success answer
    whose body holds the nested [run_id], which it takes; [after_each_test]
    and [after_all_tests] keep it, so a session assigns it at most once; and
    while it is [None] neither of them sends a request, whatever the CI
    flag. *)
Theorem run_id_assigned_only_by_before_all_tests :
  (forall env, pipeline_run_id (init env) = JNull) /\
  (forall w s,
     pipeline_run_id (self (snd (before_all_tests w s))) = pipeline_run_id (self s) \/
     (is_jenkins (self s) = true /\
      exists req r v,
        sent (snd (before_all_tests w s)) = sent s ++ [req] /\
        req_method req = POST /\ req_endpoint req = PipelineRuns /\
        backend w (sent s) req = HttpResponse r /\
        success_code POST (status_code r) = true /\
        nested_run_id (response_json r) = Some v /\
        pipeline_run_id (self (snd (before_all_tests w s))) = v)) /\
  (forall w s name status d err,
     pipeline_run_id (self (snd (after_each_test name status d err w s)))
     = pipeline_run_id (self s)) /\
  (forall w s,
     pipeline_run_id (self (snd (after_all_tests w s))) = pipeline_run_id (self s)) /\
  (forall w s calls,
     pipeline_run_id (self (snd (session calls w s)))
     = pipeline_run_id (self (snd (before_all_tests w s)))) /\
  (forall w s,
     pipeline_run_id (self s) = JNull ->
     (forall name status d err,
        sent (snd (after_each_test name status d err w s)) = sent s) /\
     sent (snd (after_all_tests w s)) = sent s).
Proof.
  split; [reflexivity|].
  split; [apply before_all_tests_assigns|].
  split; [intros; apply after_each_test_keeps_run_id|].
  split; [intros; apply after_all_tests_keeps_run_id|].
  split.
  - intros w s calls. rewrite session_eq. cbn [snd].
    by rewrite after_all_tests_keeps_run_id, record_tests_keeps_run_id.
  - intros w s Hnone.
    assert (Hloc : local_only s = true)
      by (unfold local_only; rewrite Hnone; apply orb_true_r).
    split; [intros; by apply after_each_test_local|].
    rewrite after_all_tests_local by done. apply print_summary_frame.
Qed.

Lemma run_id_assigned_only_by_before_all_tests_witness :
  pipeline_run_id (self (start (init ci_env))) = JNull /\
  sent (snd (after_all_tests accepting_world (start (init ci_env)))) = [].
Proof.
  split; [reflexivity|].
  apply (proj2 (proj2 (proj2 (proj2 (proj2 run_id_assigned_only_by_before_all_tests))))
           accepting_world (start (init ci_env)) eq_refl).
Defined.

(** *** A session every call of which is accepted *)

Lemma init_counters env :
  api_call_count (init env)
  = {[ "api-1" := 0%nat; "api-3" := 0%nat; "api-4" := 0%nat ]}.
Proof. reflexivity. Qed.








(** ** Conversion of a duration to milliseconds *)





(** The product is rounded to a double before [int] truncates it: the
    double nearest to 0.29 is below 0.29, so is its exact product with 1000
    below 290, yet 290 milliseconds are forwarded. *)
Remark product_is_rounded_before_truncation :
  duration_ms (float_of_decimal 29 2) = Ok 290 /\
  exists q, float_value (float_of_decimal 29 2) = Some q /\
            (q * 1000 < 290)%Q.
Proof.
  split; [vm_compute; reflexivity|].
  eexists. split; [vm_compute; reflexivity|]. vm_compute. reflexivity.
Qed.




(** ** Screenshot on failure *)

Module ScreenshotFacts.
Import Screenshot.

Ltac shot_unfold :=
  cbv beta iota zeta delta
    [save_screenshot_on_failure do_makedirs do_screenshot append_extra
     do_attach bind ret raise try_except ask get put modify lift_outcome].

Lemma absent_handle_is_noop w s it :
  match funcargs it !! "py" with
  | Some (Driver _) => False
  | _ => True
  end ->
  save_screenshot_on_failure it w s = (Ok tt, s).
Proof.
  unfold save_screenshot_on_failure.
  by destruct (funcargs it !! "py") as [[|handle]|].
Qed.

Lemma attach_failures_are_swallowed w s it handle :
  funcargs it !! "py" = Some (Driver handle) ->
  makedirs w "reports/screenshots" = None ->
  screenshot w handle
    (screenshot_path (item_name it +:+ "_" +:+ now_stamp w +:+ ".png")) = None ->
  fst (save_screenshot_on_failure it w s) = Ok tt.
Proof.
  intros Hpy Hdir Hshot. shot_unfold. rewrite Hpy, Hdir. cbn [fst snd].
  rewrite Hshot.
  destruct (import_pytest_html w); [reflexivity|]. cbn [fst snd].
  destruct (extras_image w _); [reflexivity|]. cbn [fst snd].
  destruct (read_file w _); [reflexivity|]. cbn [fst snd].
  destruct (allure_attach w _ _); reflexivity.
Qed.

Lemma makedirs_failure_propagates w s it handle e :
  funcargs it !! "py" = Some (Driver handle) ->
  makedirs w "reports/screenshots" = Some e ->
  save_screenshot_on_failure it w s = (Raise e, s).
Proof. intros Hpy Hdir. shot_unfold. by rewrite Hpy, Hdir. Qed.

Lemma screenshot_failure_propagates w s it handle e :
  funcargs it !! "py" = Some (Driver handle) ->
  makedirs w "reports/screenshots" = None ->
  screenshot w handle
    (screenshot_path (item_name it +:+ "_" +:+ now_stamp w +:+ ".png")) = Some e ->
  fst (save_screenshot_on_failure it w s) = Raise e.
Proof.
  intros Hpy Hdir Hshot. shot_unfold. rewrite Hpy, Hdir. cbn [fst snd].
  by rewrite Hshot.
Qed.

End ScreenshotFacts.

(** C8 (amended). [save_screenshot_on_failure] does nothing when no browser
    session is bound to [py]; once the directory is made and the screenshot
    taken, every failure of the attachment to the reports (the import, the
    image, the file, allure) is swallowed and the function returns
    normally; a failure of the directory creation or of the screenshot
    itself is raised to the caller. *)
Theorem screenshot_attachment_failures_are_ignored
    (w : Screenshot.World) (s : Screenshot.State) (it : Screenshot.item) :
  (match Screenshot.funcargs it !! "py" with
   | Some (Screenshot.Driver _) => False
   | _ => True
   end ->
   Screenshot.save_screenshot_on_failure it w s = (Ok tt, s)) /\
  (forall handle,
     Screenshot.funcargs it !! "py" = Some (Screenshot.Driver handle) ->
     let path :=
       Screenshot.screenshot_path
         (Screenshot.item_name it +:+ "_" +:+ Screenshot.now_stamp w +:+ ".png") in
     (Screenshot.makedirs w "reports/screenshots" = None ->
      Screenshot.screenshot w handle path = None ->
      fst (Screenshot.save_screenshot_on_failure it w s) = Ok tt) /\
     (forall e,
        Screenshot.makedirs w "reports/screenshots" = Some e ->
        Screenshot.save_screenshot_on_failure it w s = (Raise e, s)) /\
     (forall e,
        Screenshot.makedirs w "reports/screenshots" = None ->
        Screenshot.screenshot w handle path = Some e ->
        fst (Screenshot.save_screenshot_on_failure it w s) = Raise e)).
Proof.
  split; [apply ScreenshotFacts.absent_handle_is_noop|].
  intros handle Hpy. cbv zeta.
  split; [by apply ScreenshotFacts.attach_failures_are_swallowed|].
  split; intros e.
  - exact (ScreenshotFacts.makedirs_failure_propagates w s it handle e Hpy).
  - exact (ScreenshotFacts.screenshot_failure_propagates w s it handle e Hpy).
Qed.

Lemma screenshot_attachment_failures_are_ignored_witness :
  Screenshot.funcargs failing_item !! "py" = Some (Screenshot.Driver 1) /\
  fst (Screenshot.save_screenshot_on_failure failing_item no_html_world
         empty_report) = Ok tt.
Proof.
  assert (H : Screenshot.funcargs failing_item !! "py" = Some (Screenshot.Driver 1))
    by reflexivity.
  split; [exact H|].
  exact (proj1 (proj2 (screenshot_attachment_failures_are_ignored
                         no_html_world empty_report failing_item) 1%nat H)
           eq_refl eq_refl).
Defined.

(** C8 as stated fails: with a browser session bound to [py] whose
    screenshot raises, the exception leaves [save_screenshot_on_failure]. *)
Lemma screenshot_failure_is_raised :
  Screenshot.funcargs failing_item !! "py" = Some (Screenshot.Driver 1) /\
  fst (Screenshot.save_screenshot_on_failure failing_item dead_browser_world
         empty_report) = Raise (OtherError "WebDriverException").
Proof. split; reflexivity. Qed.

(** ** The logger provider *)

Module LoggerFacts.
Import Logger.

Ltac log_unfold :=
  cbv beta iota zeta delta
    [get_logger getLogger setLevel addHandler bind ret raise try_except ask
     get put modify lift_outcome].

(** A logger that has handlers is returned as it is. *)
Lemma get_logger_configured w reg name :
  lg_handlers (the_logger reg (logger_key name)) <> [] ->
  get_logger name w reg = (Ok (logger_key name), reg).
Proof.
  intros Hh. log_unfold. unfold the_logger in *.
  destruct (reg !! logger_key name) as [lg|] eqn:Hreg; simpl in Hh;
    cbn [fst snd].
  - rewrite Hreg. simpl. by destruct (lg_handlers lg).
  - by destruct Hh.
Qed.

Lemma get_logger_times_configured n w reg name :
  lg_handlers (the_logger reg (logger_key name)) <> [] ->
  get_logger_times n name w reg = (Ok (replicate n (logger_key name)), reg).
Proof.
  intros Hh. induction n as [|n IH]; [reflexivity|].
  cbn [get_logger_times]. unfold bind at 1.
  rewrite get_logger_configured by done. unfold bind at 1. by rewrite IH.
Qed.

Ltac reg_simpl :=
  repeat first
    [ rewrite lookup_insert_eq
    | progress cbn [from_option id lg_handlers lg_level app new_logger fst snd]
    | rewrite (bool_decide_eq_false_2 (_ ∈ []))
        by (by intros ?%elem_of_nil)
    | rewrite (bool_decide_eq_false_2 (_ ∈ [_]))
        by (intros ?%list_elem_of_singleton; discriminate)
    | rewrite insert_insert_eq ].

Lemma get_logger_first w reg name :
  lg_handlers (the_logger reg (logger_key name)) = [] ->
  makedirs w "logs" = None ->
  open_file w ("logs/" +:+ name +:+ "_" +:+ today w +:+ ".log") = None ->
  get_logger name w reg = (Ok (logger_key name), configured w reg name).
Proof.
  intros Hh Hdir Hopen. log_unfold. unfold the_logger, configured in *.
  destruct (reg !! logger_key name) as [lg|] eqn:Hreg; simpl in Hh;
    cbn [fst snd].
  - rewrite Hreg. reg_simpl. rewrite Hh, Hdir. reg_simpl.
    rewrite Hopen. reg_simpl. rewrite Hreg. reg_simpl. rewrite Hh.
    by reg_simpl.
  - reg_simpl. rewrite Hdir. reg_simpl. rewrite Hopen. by reg_simpl.
Qed.

(** Whatever a call that returns leaves, the logger has handlers or the
    call was given a logger that had some. *)
Lemma get_logger_returns w reg name k reg1 :
  get_logger name w reg = (Ok k, reg1) ->
  k = logger_key name /\ lg_handlers (the_logger reg1 (logger_key name)) <> [].
Proof.
  destruct (lg_handlers (the_logger reg (logger_key name))) as [|h hs] eqn:Hh.
  - destruct (makedirs w "logs") as [e|] eqn:Hdir.
    { log_unfold. unfold the_logger in *.
      destruct (reg !! logger_key name) as [lg|] eqn:Hreg; simpl in Hh;
        cbn [fst snd].
      - rewrite Hreg. reg_simpl. rewrite Hh, Hdir. discriminate.
      - reg_simpl. rewrite Hdir. discriminate. }
    destruct (open_file w ("logs/" +:+ name +:+ "_" +:+ today w +:+ ".log"))
      as [e|] eqn:Hopen.
    { log_unfold. unfold the_logger in *.
      destruct (reg !! logger_key name) as [lg|] eqn:Hreg; simpl in Hh;
        cbn [fst snd].
      - rewrite Hreg. reg_simpl. rewrite Hh, Hdir. reg_simpl.
        rewrite Hopen. discriminate.
      - reg_simpl. rewrite Hdir. reg_simpl. rewrite Hopen. discriminate. }
    rewrite get_logger_first by done. intros [= <- <-].
    split; [reflexivity|]. unfold the_logger, configured.
    by rewrite lookup_insert_eq.
  - rewrite get_logger_configured by (by rewrite Hh). intros [= <- <-].
    split; [reflexivity|]. by rewrite Hh.
Qed.

End LoggerFacts.

(** C9. [get_logger] is idempotent per name: after a call that returns,
    every further call with the same name, whatever the date and the file
    system have become, returns the same logger and leaves all loggers as
    they are; and when the first call finds the logger without handlers and
    the log file opens, the logger holds exactly the file handler and the
    stream handler of that call, after it and after any number of further
    calls. *)
Theorem get_logger_is_idempotent (w : Logger.World) (reg : Logger.registry)
    (name : string) :
  let key := Logger.logger_key name in
  let path := "logs/" +:+ name +:+ "_" +:+ Logger.today w +:+ ".log" in
  let fh := {| Logger.h_kind := Logger.FileHandler path;
               Logger.h_level := Some ApiHelper.INFO;
               Logger.h_formatter := Some Logger.fmt |} in
  let ch := {| Logger.h_kind := Logger.StreamHandler;
               Logger.h_level := Some ApiHelper.INFO;
               Logger.h_formatter := Some Logger.fmt |} in
  (forall k reg1,
     Logger.get_logger name w reg = (Ok k, reg1) ->
     k = key /\
     forall w' n,
       Logger.get_logger_times n name w' reg1 = (Ok (replicate n key), reg1)) /\
  (Logger.lg_handlers (Logger.the_logger reg key) = [] ->
   Logger.makedirs w "logs" = None ->
   Logger.open_file w path = None ->
   exists reg1,
     Logger.get_logger name w reg = (Ok key, reg1) /\
     Logger.lg_handlers (Logger.the_logger reg1 key) = [fh; ch] /\
     forall w' n,
       Logger.lg_handlers
         (Logger.the_logger (snd (Logger.get_logger_times n name w' reg1)) key)
       = [fh; ch]).
Proof.
  cbv zeta. split.
  - intros k reg1 Hcall.
    destruct (LoggerFacts.get_logger_returns w reg name k reg1 Hcall) as [-> Hh].
    split; [reflexivity|]. intros w' n.
    by apply LoggerFacts.get_logger_times_configured.
  - intros Hh Hdir Hopen. exists (Logger.configured w reg name).
    split; [by apply LoggerFacts.get_logger_first|].
    assert (Hconf : Logger.lg_handlers
      (Logger.the_logger (Logger.configured w reg name) (Logger.logger_key name))
      = [ {| Logger.h_kind := Logger.FileHandler
               ("logs/" +:+ name +:+ "_" +:+ Logger.today w +:+ ".log");
             Logger.h_level := Some ApiHelper.INFO;
             Logger.h_formatter := Some Logger.fmt |};
          {| Logger.h_kind := Logger.StreamHandler;
             Logger.h_level := Some ApiHelper.INFO;
             Logger.h_formatter := Some Logger.fmt |} ]).
    { unfold Logger.the_logger, Logger.configured.
      by rewrite lookup_insert_eq. }
    split; [exact Hconf|]. intros w' n.
    rewrite LoggerFacts.get_logger_times_configured by (by rewrite Hconf).
    exact Hconf.
Qed.

Lemma get_logger_is_idempotent_witness :
  Logger.lg_handlers (Logger.the_logger ∅ (Logger.logger_key "conftest")) = [] /\
  exists reg1,
    Logger.get_logger "conftest" working_fs ∅ = (Ok "conftest", reg1) /\
    length (Logger.lg_handlers
              (Logger.the_logger
                 (snd (Logger.get_logger_times 3 "conftest" broken_fs reg1))
                 "conftest")) = 2%nat.
Proof.
  assert (H : Logger.lg_handlers
                (Logger.the_logger ∅ (Logger.logger_key "conftest")) = [])
    by reflexivity.
  split; [exact H|].
  destruct (proj2 (get_logger_is_idempotent working_fs ∅ "conftest")
              H eq_refl eq_refl) as (reg1 & Hcall & _ & Hmore).
  exists reg1. split; [exact Hcall|].
  change (Logger.logger_key "conftest") with "conftest" in Hmore.
  by rewrite (Hmore broken_fs 3%nat).
Defined.

(** * Further properties *)

#[local] Set Warnings "-clear-no-such-hyp".

(** ** The request wrappers *)

Ltac log_grows :=
  first [ by exists []; rewrite app_nil_r
        | rewrite <- ?app_assoc; by eexists ].

(** X1. [_post_request] never raises and never touches the client: it sends
    exactly one POST to the endpoint, addressed to the configured backend
    with the bearer token and the timeout of 30, only appends to the log, and
    returns the decoded body when the answer is 200 or 201 and the body
    decodes, and [None] in every other case (another status, a body that is
    not JSON, a timeout, a refused connection, any other exception). *)
Theorem post_request_contract ep body w s :
  let req := {| req_method := POST; req_base_url := api_base_url (self s);
                req_endpoint := ep; req_headers := request_headers (self s);
                req_json := body; req_timeout := 30 |} in
  let s' := snd (_post_request ep body w s) in
  self s' = self s /\ sent s' = sent s ++ [req] /\
  (exists l, log s' = log s ++ l) /\
  fst (_post_request ep body w s)
  = Ok (match backend w (sent s) req with
        | HttpResponse r =>
            if success_code POST (status_code r)
            then default JNull (response_json r) else JNull
        | HttpRaises _ => JNull
        end).
Proof.
  cbv zeta. unfold success_code. py_unfold. py_simpl.
  destruct (backend w (sent s) _) as [e|r]; py_simpl.
  - destruct e; py_simpl; repeat split; try done; log_grows.
  - destruct ((status_code r =? 200) || (status_code r =? 201)); py_simpl.
    + destruct (response_json r); py_simpl; repeat split; try done; log_grows.
    + repeat split; try done; log_grows.
Qed.

(** X2. [_patch_request] never raises and never touches the client: it
    sends exactly one PATCH to the endpoint, only appends to the log, and
    returns [True] exactly when the backend answers 200 or 204; a body is
    never read. *)
Theorem patch_request_contract ep body w s :
  let req := {| req_method := PATCH; req_base_url := api_base_url (self s);
                req_endpoint := ep; req_headers := request_headers (self s);
                req_json := body; req_timeout := 30 |} in
  let s' := snd (_patch_request ep body w s) in
  self s' = self s /\ sent s' = sent s ++ [req] /\
  (exists l, log s' = log s ++ l) /\
  fst (_patch_request ep body w s)
  = Ok (match backend w (sent s) req with
        | HttpResponse r => success_code PATCH (status_code r)
        | HttpRaises _ => false
        end).
Proof.
  cbv zeta. unfold success_code. py_unfold. py_simpl.
  destruct (backend w (sent s) _) as [e|r]; py_simpl.
  - destruct e; py_simpl; repeat split; try done; log_grows.
  - destruct ((status_code r =? 200) || (status_code r =? 204)); py_simpl;
      repeat split; try done; log_grows.
Qed.

(** ** What one operation sends and counts *)

Ltac effect_branch :=
  split; [log_grows|];
  first
    [ left; split; reflexivity
    | right; eexists; split; [reflexivity|];
      split; [repeat split; try done; eauto|];
      split; [by repeat split|];
      first
        [ left; reflexivity
        | right; do 2 eexists; split; [eassumption|];
          split; [reflexivity|]; split; [eassumption|];
          cbn [success_code req_method]; assumption ] ].

Lemma after_each_test_effect name status d err w s :
  op_effect w "api-3" (is_test_case (pipeline_run_id (self s))) s
    (snd (after_each_test name status d err w s)).
Proof. unfold op_effect, is_test_case, well_addressed. py_run; effect_branch. Qed.

Lemma py_int_of_string_Ok x z :
  py_int_of_string x = Ok z -> int_of_string x = Some z.
Proof.
  unfold py_int_of_string. destruct (int_of_string x); [|discriminate].
  by intros [= ->].
Qed.

Ltac int_parsed :=
  repeat match goal with
    | H : py_int_of_string _ = Ok _ |- _ => apply py_int_of_string_Ok in H
    end.

Lemma before_all_tests_effect w s :
  op_effect w "api-1" (is_create (self s)) s (snd (before_all_tests w s)).
Proof.
  unfold op_effect, is_create, well_addressed. py_run; int_parsed; effect_branch.
Qed.

Lemma after_all_tests_effect w s :
  op_effect w "api-4" (is_update (pipeline_run_id (self s))) s
    (snd (after_all_tests w s)).
Proof. unfold op_effect, is_update, well_addressed. py_run; effect_branch. Qed.

(** X3. Each operation of the tracking client only appends to the log and
    sends at most one request, of its own kind (the run creation, a test
    case of the current run, the update of the current run), addressed to
    the configured backend with the bearer token and the timeout of 30; it
    adds at most one to its own counter, only when it has sent a request
    that the backend answered with a success status, and leaves the other
    counters alone. *)
Theorem operations_send_and_count_at_most_once w s :
  op_effect w "api-1" (is_create (self s)) s (snd (before_all_tests w s)) /\
  (forall name status d err,
     op_effect w "api-3" (is_test_case (pipeline_run_id (self s))) s
       (snd (after_each_test name status d err w s))) /\
  op_effect w "api-4" (is_update (pipeline_run_id (self s))) s
    (snd (after_all_tests w s)).
Proof.
  split; [apply before_all_tests_effect|].
  split; [intros; apply after_each_test_effect | apply after_all_tests_effect].
Qed.

(** ** What the operations keep *)

Lemma before_all_tests_keeps_config w s :
  config_of (self (snd (before_all_tests w s))) = config_of (self s).
Proof. unfold config_of. py_run; reflexivity. Qed.

Lemma after_each_test_keeps_config name status d err w s :
  config_of (self (snd (after_each_test name status d err w s)))
  = config_of (self s).
Proof. unfold config_of. py_run; reflexivity. Qed.

Lemma after_all_tests_keeps_config w s :
  config_of (self (snd (after_all_tests w s))) = config_of (self s).
Proof. destruct (after_all_tests_spec w s) as [-> _]. reflexivity. Qed.

Lemma record_tests_keeps_config calls w s :
  config_of (self (snd (record_tests calls w s))) = config_of (self s).
Proof.
  apply (record_tests_ind (fun s' => config_of (self s') = config_of (self s)));
    [|reflexivity].
  intros c s0 <-. apply after_each_test_keeps_config.
Qed.

Lemma well_addressed_config a a' req :
  config_of a' = config_of a -> well_addressed a' req -> well_addressed a req.
Proof.
  unfold config_of, well_addressed, request_headers.
  intros [= _ -> -> _ _ _ _ _ _ _]. done.
Qed.

Lemma is_create_config a a' req :
  config_of a' = config_of a -> is_create a' req -> is_create a req.
Proof.
  unfold config_of, is_create. intros [= _ _ _ _ -> _ _ _ _ _]. done.
Qed.

(** X4. No operation changes what [__init__] read from the environment
    (the CI flag, the backend address, the token, the job, build and git
    fields, the organisation and creator); [before_all_tests] keeps the
    recorded results, [after_each_test] keeps the run identifier and the
    start time and appends exactly its record, and [after_all_tests] changes
    nothing in the client but the counters. *)
Theorem operations_keep_configuration w s :
  (config_of (self (snd (before_all_tests w s))) = config_of (self s) /\
   test_results (self (snd (before_all_tests w s))) = test_results (self s)) /\
  (forall name status d err,
     let s' := snd (after_each_test name status d err w s) in
     config_of (self s') = config_of (self s) /\
     pipeline_run_id (self s') = pipeline_run_id (self s) /\
     suite_start_time (self s') = suite_start_time (self s) /\
     test_results (self s')
     = test_results (self s) ++
       [stored {| call_name := name; call_status := status;
                  call_duration := d; call_error_message := err |}]) /\
  self (snd (after_all_tests w s))
  = set_api_call_count (api_call_count (self (snd (after_all_tests w s))))
      (self s).
Proof.
  split; [split; [apply before_all_tests_keeps_config
                 | apply before_all_tests_frame]|].
  split; [|apply after_all_tests_spec].
  intros name status d err. cbv zeta.
  split; [apply after_each_test_keeps_config|].
  destruct (after_each_test_frame name status d err w s) as (H1 & _ & H2 & H3).
  done.
Qed.

(** ** Consequences for sequences of operations *)

Lemma op_effect_facts w key shape s s' :
  op_effect w key shape s s' ->
  (exists l, log s' = log s ++ l) /\
  (exists q,
     sent s' = sent s ++ q /\ (length q <= 1)%nat /\
     Forall (fun r => shape r /\ well_addressed (self s) r) q /\
     (count_of key s' <= count_of key s + length q)%nat) /\
  (count_of key s <= count_of key s')%nat /\
  (forall k, k <> key ->
     api_call_count (self s') !! k = api_call_count (self s) !! k) /\
  dom (api_call_count (self s')) = dom (api_call_count (self s)).
Proof.
  intros [Hlog Heff]. split; [exact Hlog|]. unfold count_of.
  destruct Heff as [[Hs Hc]|(req & Hs & Hshape & Haddr & Hc)].
  - rewrite Hc. split; [|done].
    exists []. rewrite app_nil_r. simpl. repeat split; [done|lia|constructor|lia].
  - destruct Hc as [Hc|(n & r & Hn & Hc & _)].
    + rewrite Hc. split; [|done].
      exists [req]. simpl. repeat split; [done|lia|by apply Forall_singleton|lia].
    + rewrite Hc, Hn, lookup_insert_eq. simpl. split; [|split; [lia|split]].
      * exists [req]. simpl.
        repeat split; [done|lia|by apply Forall_singleton|lia].
      * intros k Hk. by rewrite lookup_insert_ne.
      * apply dom_insert_lookup_L. eauto.
Qed.

Lemma record_tests_effect calls w s :
  let s' := snd (record_tests calls w s) in
  (exists l, log s' = log s ++ l) /\
  (exists q,
     sent s' = sent s ++ q /\ (length q <= length calls)%nat /\
     Forall (fun r => is_test_case (pipeline_run_id (self s)) r /\
                      well_addressed (self s) r) q /\
     (count_of "api-3" s' <= count_of "api-3" s + length q)%nat) /\
  (count_of "api-3" s <= count_of "api-3" s')%nat /\
  (forall k, k <> "api-3" ->
     api_call_count (self s') !! k = api_call_count (self s) !! k) /\
  dom (api_call_count (self s')) = dom (api_call_count (self s)).
Proof.
  revert s. induction calls as [|c calls IH]; intros s; cbv zeta.
  - simpl. split; [by exists []; rewrite app_nil_r|].
    split; [|done]. exists []. rewrite app_nil_r. simpl.
    repeat split; try done; try lia.
  - rewrite record_tests_cons. unfold record_test.
    pose proof (op_effect_facts _ _ _ _ _
      (after_each_test_effect (call_name c) (call_status c) (call_duration c)
         (call_error_message c) w s))
      as ([l1 Hl1] & (q1 & Hq1 & Hlen1 & Hall1 & Hcnt1) & Hmono1 & Hoth1 & Hdom1).
    pose proof (after_each_test_keeps_run_id (call_name c) (call_status c)
      (call_duration c) (call_error_message c) w s) as Hid.
    pose proof (after_each_test_keeps_config (call_name c) (call_status c)
      (call_duration c) (call_error_message c) w s) as Hcfg.
    set (s1 := snd (after_each_test (call_name c) (call_status c)
      (call_duration c) (call_error_message c) w s)) in *.
    destruct (IH s1)
      as ([l2 Hl2] & (q2 & Hq2 & Hlen2 & Hall2 & Hcnt2) & Hmono2 & Hoth2 & Hdom2).
    split; [exists (l1 ++ l2); by rewrite Hl2, Hl1, <- app_assoc|].
    split; [|split; [lia|split]].
    + exists (q1 ++ q2). rewrite Hq2, Hq1, <- app_assoc, length_app. simpl.
      split; [done|]. split; [lia|]. split; [|lia].
      apply Forall_app. split; [exact Hall1|].
      eapply Forall_impl; [exact Hall2|]. intros r [Hr Ha].
      rewrite Hid in Hr. split; [exact Hr|].
      by apply (well_addressed_config _ _ _ Hcfg).
    + intros k Hk. by rewrite Hoth2, Hoth1.
    + by rewrite Hdom2, Hdom1.
Qed.

(** ** Whole sessions *)

Lemma init_three_counters env : three_counters (start (init env)).
Proof.
  unfold three_counters. simpl.
  rewrite !dom_insert_L, dom_singleton_L. set_solver.
Qed.

Lemma three_counters_lookup s k :
  three_counters s -> k ∈ ({["api-1"; "api-3"; "api-4"]} : gset string) ->
  api_call_count (self s) !! k = Some (count_of k s).
Proof.
  unfold three_counters, count_of. intros <- [x Hx]%elem_of_dom.
  by rewrite Hx.
Qed.

(** The three stages of a session from a new client. *)
Lemma session_effect env w calls :
  let s0 := start (init env) in
  let s1 := snd (before_all_tests w s0) in
  let id := pipeline_run_id (self s1) in
  let s := snd (session calls w s0) in
  exists creates cases updates,
    sent s = creates ++ cases ++ updates /\
    ((length creates <= 1)%nat /\ (length cases <= length calls)%nat /\
     (length updates <= 1)%nat) /\
    (Forall (fun r => is_create (init env) r /\ well_addressed (init env) r) creates /\
     Forall (fun r => is_test_case id r /\ well_addressed (init env) r) cases /\
     Forall (fun r => is_update id r /\ well_addressed (init env) r) updates) /\
    (truthy id = false -> cases = [] /\ updates = []) /\
    three_counters s /\
    ((count_of "api-1" s <= length creates)%nat /\
     (count_of "api-3" s <= length cases)%nat /\
     (count_of "api-4" s <= length updates)%nat).
Proof.
  cbv zeta. rewrite session_eq. cbn [snd].
  set (s0 := start (init env)).
  pose proof (op_effect_facts _ _ _ _ _ (before_all_tests_effect w s0))
    as (_ & (q1 & Hq1 & Hlen1 & Hall1 & Hcnt1) & _ & Hoth1 & Hdom1).
  pose proof (before_all_tests_keeps_config w s0) as Hcfg1.
  set (s1 := snd (before_all_tests w s0)) in *.
  pose proof (record_tests_effect calls w s1)
    as (_ & (q2 & Hq2 & Hlen2 & Hall2 & Hcnt2) & _ & Hoth2 & Hdom2).
  cbv zeta in Hq2, Hlen2, Hall2, Hcnt2, Hoth2, Hdom2.
  pose proof (record_tests_keeps_config calls w s1) as Hcfg2.
  pose proof (record_tests_keeps_run_id calls w s1) as Hid2.
  set (s2 := snd (record_tests calls w s1)) in *.
  pose proof (op_effect_facts _ _ _ _ _ (after_all_tests_effect w s2))
    as (_ & (q3 & Hq3 & Hlen3 & Hall3 & Hcnt3) & _ & Hoth3 & Hdom3).
  set (s3 := snd (after_all_tests w s2)) in *.
  assert (Hzero : forall k, k ∈ ({["api-1"; "api-3"; "api-4"]} : gset string) ->
                            count_of k s0 = 0%nat).
  { intros k Hk. unfold count_of, s0. simpl.
    apply elem_of_union in Hk as [Hk|Hk];
      [apply elem_of_union in Hk as [Hk|Hk]|];
      apply elem_of_singleton in Hk; subst k; reflexivity. }
  exists q1, q2, q3. rewrite Hq3, Hq2, Hq1, <- !app_assoc.
  split; [reflexivity|]. split; [done|]. split; [|split; [|split]].
  - split; [exact Hall1|]. split.
    + eapply Forall_impl; [exact Hall2|]. intros r [Hr Ha]. split; [exact Hr|].
      by apply (well_addressed_config _ _ _ Hcfg1).
    + eapply Forall_impl; [exact Hall3|]. intros r [Hr Ha].
      rewrite Hid2 in Hr. split; [exact Hr|].
      apply (well_addressed_config _ _ _ Hcfg1).
      by apply (well_addressed_config _ _ _ Hcfg2).
  - intros Hfalse.
    assert (Hloc1 : local_only s1 = true)
      by (unfold local_only; rewrite Hfalse; apply orb_true_r).
    destruct (record_tests_local calls w s1 Hloc1) as [Hsent2 Hloc2].
    fold s2 in Hsent2, Hloc2.
    assert (q2 = []) as ->.
    { rewrite Hsent2 in Hq2. rewrite <- (app_nil_r (sent s1)) in Hq2 at 1.
      by apply app_inv_head in Hq2. }
    split; [reflexivity|].
    pose proof (after_all_tests_local w s2 Hloc2) as Hlocal.
    assert (Hsent3 : sent s3 = sent s2).
    { unfold s3. rewrite Hlocal. apply print_summary_frame. }
    rewrite Hsent3 in Hq3. rewrite <- (app_nil_r (sent s2)) in Hq3 at 1.
    by apply app_inv_head in Hq3.
  - unfold three_counters. rewrite Hdom3, Hdom2, Hdom1. apply init_three_counters.
  - unfold count_of in *.
    rewrite (Hoth3 "api-1"), (Hoth2 "api-1") by done.
    rewrite (Hoth3 "api-3") by done.
    rewrite (Hoth1 "api-3") in Hcnt2 by done.
    rewrite (Hoth2 "api-4"), (Hoth1 "api-4") in Hcnt3 by done.
    pose proof (Hzero "api-1") as Z1. pose proof (Hzero "api-3") as Z3.
    pose proof (Hzero "api-4") as Z4. unfold count_of in Z1, Z3, Z4.
    rewrite Z1 in Hcnt1 by set_solver. rewrite Z3 in Hcnt2 by set_solver.
    rewrite Z4 in Hcnt3 by set_solver. done.
Qed.

(** X5. The requests of a session from a new client are, in this order, at
    most one run creation, at most one test case per recorded test, and at
    most one run update; every test case and the update name the run
    identifier that [before_all_tests] stored, every request goes to the
    configured backend with the bearer token and the timeout of 30, and
    when no usable identifier was stored nothing follows the creation. *)
Theorem session_requests_shape env w calls :
  let s1 := snd (before_all_tests w (start (init env))) in
  let id := pipeline_run_id (self s1) in
  let s := snd (session calls w (start (init env))) in
  exists creates cases updates,
    sent s = creates ++ cases ++ updates /\
    ((length creates <= 1)%nat /\ (length cases <= length calls)%nat /\
     (length updates <= 1)%nat) /\
    (Forall (is_create (init env)) creates /\
     Forall (is_test_case id) cases /\
     Forall (is_update id) updates) /\
    Forall (well_addressed (init env)) (sent s) /\
    (truthy id = false -> cases = [] /\ updates = []).
Proof.
  cbv zeta.
  destruct (session_effect env w calls)
    as (creates & cases & updates & Hs & Hlen & (H1 & H2 & H3) & Hno & _).
  exists creates, cases, updates. split; [exact Hs|]. split; [exact Hlen|].
  split; [|split; [|exact Hno]].
  - repeat split; (eapply Forall_impl; [eassumption|]); by intros r [? ?].
  - rewrite Hs. rewrite !Forall_app.
    repeat split; (eapply Forall_impl; [eassumption|]); by intros r [? ?].
Qed.

Lemma session_requests_shape_witness :
  exists creates cases updates,
    sent (snd (session three_calls no_run_id_world (start (init ci_env))))
    = creates ++ cases ++ updates /\
    cases = [] /\ updates = [].
Proof.
  destruct (session_requests_shape ci_env no_run_id_world three_calls)
    as (creates & cases & updates & Hs & _ & _ & _ & Hno).
  exists creates, cases, updates. split; [exact Hs|].
  apply Hno. vm_compute. reflexivity.
Defined.

(** X6. In a session from a new client the three counters stay the three
    of [__init__] and count no more than was sent: the run-create counter is
    at most 1, the test-case counter at most the number of recorded tests,
    the run-update counter at most 1, their sum is at most the number of
    requests sent, and that is at most the number of tests plus 2. *)
Theorem session_counters_bounded env w calls :
  let s := snd (session calls w (start (init env))) in
  exists a b c,
    counters s = (Some a, Some b, Some c) /\
    (a <= 1)%nat /\ (b <= length calls)%nat /\ (c <= 1)%nat /\
    (a + b + c <= length (sent s))%nat /\
    (length (sent s) <= length calls + 2)%nat.
Proof.
  cbv zeta.
  destruct (session_effect env w calls)
    as (creates & cases & updates & Hs & (L1 & L2 & L3) & _ & _ & H3c
        & C1 & C3 & C4).
  set (s := snd (session calls w (start (init env)))) in *.
  exists (count_of "api-1" s), (count_of "api-3" s), (count_of "api-4" s).
  split.
  { unfold counters. by rewrite !(three_counters_lookup s) by (done || set_solver). }
  rewrite Hs, !length_app. lia.
Qed.

(** ** The call summary *)

Lemma three_counters_map s :
  three_counters s ->
  api_call_count (self s)
  = {[ "api-1" := count_of "api-1" s; "api-3" := count_of "api-3" s;
       "api-4" := count_of "api-4" s ]}.
Proof.
  intros H3. apply map_eq. intros k.
  destruct (decide (k = "api-1")) as [->|N1].
  { rewrite lookup_insert_eq. apply three_counters_lookup; [done|set_solver]. }
  rewrite lookup_insert_ne by done.
  destruct (decide (k = "api-3")) as [->|N3].
  { rewrite lookup_insert_eq. apply three_counters_lookup; [done|set_solver]. }
  rewrite lookup_insert_ne by done.
  destruct (decide (k = "api-4")) as [->|N4].
  { rewrite lookup_singleton_eq. apply three_counters_lookup; [done|set_solver]. }
  rewrite lookup_singleton_ne by done.
  apply not_elem_of_dom. rewrite H3. set_solver.
Qed.

Lemma three_counters_sum s :
  three_counters s ->
  sum_list (map_to_list (api_call_count (self s))).*2
  = (count_of "api-1" s + count_of "api-3" s + count_of "api-4" s)%nat.
Proof.
  intros H3. rewrite (three_counters_map s H3).
  generalize (count_of "api-1" s), (count_of "api-3" s), (count_of "api-4" s).
  intros a b c.
  rewrite map_to_list_insert
    by (rewrite lookup_insert_ne by done; by rewrite lookup_singleton_ne).
  rewrite map_to_list_insert by (by rewrite lookup_singleton_ne).
  rewrite map_to_list_singleton. simpl. lia.
Qed.

(** X7. The three operations keep the counters the three of [__init__];
    and on such counters [_print_api_summary] never raises, changes nothing
    but the log, and logs each counter and, as the total, their sum. *)
Theorem api_summary_logs_counters_and_sum w s :
  (three_counters s ->
   three_counters (snd (before_all_tests w s)) /\
   (forall name status d err,
      three_counters (snd (after_each_test name status d err w s))) /\
   three_counters (snd (after_all_tests w s))) /\
  (three_counters s ->
   let a := count_of "api-1" s in
   let b := count_of "api-3" s in
   let c := count_of "api-4" s in
   _print_api_summary w s
   = (Ok tt,
      {| self := self s; sent := sent s;
         log := log s ++
           [ (INFO, Text ""); (INFO, Rule);
             (INFO, Text "API Integration Summary"); (INFO, Rule);
             (INFO, ApiCalls "api-1" a); (INFO, ApiCalls "api-3" b);
             (INFO, ApiCalls "api-4" c);
             (INFO, TotalApiCalls (a + b + c)%nat);
             (INFO, Rule); (INFO, Text "") ];
         clock_reads := clock_reads s |})).
Proof.
  split.
  - intros H3. unfold three_counters in *.
    pose proof (op_effect_facts _ _ _ _ _ (before_all_tests_effect w s))
      as (_ & _ & _ & _ & ->).
    pose proof (op_effect_facts _ _ _ _ _ (after_all_tests_effect w s))
      as (_ & _ & _ & _ & ->).
    split; [done|]. split; [|done]. intros name status d err.
    by pose proof (op_effect_facts _ _ _ _ _
      (after_each_test_effect name status d err w s)) as (_ & _ & _ & _ & ->).
  - intros H3. cbv zeta.
    pose proof (three_counters_sum s H3) as Hsum.
    pose proof (three_counters_lookup s "api-1" H3) as H1.
    pose proof (three_counters_lookup s "api-3" H3) as H2.
    pose proof (three_counters_lookup s "api-4" H3) as H4.
    py_unfold. py_simpl.
    rewrite H1 by set_solver. py_simpl. rewrite H2 by set_solver. py_simpl.
    rewrite H4 by set_solver. py_simpl. rewrite Hsum.
    by rewrite <- !app_assoc.
Qed.

Lemma api_summary_logs_counters_and_sum_witness :
  three_counters (start (init ci_env)) /\
  fst (_print_api_summary accepting_world (start (init ci_env))) = Ok tt.
Proof.
  split; [apply init_three_counters|].
  by rewrite (proj2 (api_summary_logs_counters_and_sum accepting_world
                       (start (init ci_env))) (init_three_counters ci_env)).
Defined.

(** ** An unreachable backend *)

Lemma record_tests_local_counts calls w s :
  local_only s = true ->
  api_call_count (self (snd (record_tests calls w s))) = api_call_count (self s).
Proof.
  intros Hloc.
  apply (record_tests_ind (fun s' =>
    api_call_count (self s') = api_call_count (self s) /\ local_only s' = true));
    [|done].
  intros c s0 [Hc Hl]. unfold record_test. split.
  - rewrite <- Hc. by apply after_each_test_local.
  - unfold local_only in *.
    by rewrite after_each_test_keeps_is_jenkins, after_each_test_keeps_run_id.
Qed.

(** X8. When every call to the backend fails (it raises, or answers with a
    status that is not a success), a session from a new client still
    returns normally and records every test locally; the run identifier
    stays [None], all three counters stay 0, and the only request ever sent
    is the one run creation. *)
Theorem unreachable_backend_session env w calls :
  backend_unreachable w ->
  let s := snd (session calls w (start (init env))) in
  session calls w (start (init env)) = (Ok tt, s) /\
  test_results (self s) = map stored calls /\
  pipeline_run_id (self s) = JNull /\
  counters s = (Some 0%nat, Some 0%nat, Some 0%nat) /\
  (length (sent s) <= 1)%nat /\
  Forall (is_create (init env)) (sent s).
Proof.
  intros Hdown. cbv zeta.
  pose proof (session_eq calls w (start (init env))) as Heq.
  rewrite Heq. cbn [snd].
  set (s0 := start (init env)) in *.
  assert (Hfail0 : next_call_fails w s0) by (intros req; apply Hdown).
  destruct (before_all_tests_failure w s0 Hfail0) as [Hid1 Hcount1].
  pose proof (op_effect_facts _ _ _ _ _ (before_all_tests_effect w s0))
    as (_ & (q1 & Hq1 & Hlen1 & Hall1 & _) & _).
  destruct (before_all_tests_frame w s0) as (Hres1 & _).
  set (s1 := snd (before_all_tests w s0)) in *.
  assert (Hloc1 : local_only s1 = true)
    by (unfold local_only; rewrite Hid1; apply orb_true_r).
  destruct (record_tests_local calls w s1 Hloc1) as [Hsent2 Hloc2].
  pose proof (record_tests_local_counts calls w s1 Hloc1) as Hcount2.
  pose proof (record_tests_keeps_run_id calls w s1) as Hid2.
  pose proof (record_tests_results calls w s1) as Hres2.
  set (s2 := snd (record_tests calls w s1)) in *.
  rewrite (after_all_tests_local w s2 Hloc2).
  destruct (print_summary_frame w s2) as [Hsent3 Hself3].
  split; [reflexivity|]. unfold counters. rewrite Hsent3, Hself3.
  rewrite Hres2, Hres1, Hid2, Hid1, Hcount2, Hcount1, Hsent2, Hq1.
  repeat split; try done.
  eapply Forall_impl; [exact Hall1|]. by intros r [? ?].
Qed.

Lemma unreachable_backend_session_witness :
  backend_unreachable unreachable_world /\
  counters (snd (session three_calls unreachable_world (start (init ci_env))))
  = (Some 0%nat, Some 0%nat, Some 0%nat).
Proof.
  assert (H : backend_unreachable unreachable_world)
    by (intros hist req; exact I).
  split; [exact H|].
  apply (unreachable_backend_session ci_env unreachable_world three_calls H).
Defined.

(** ** The build number *)

(** The run creation [before_all_tests] sends under CI for a build number
    that reads as [n]. *)
Lemma before_all_tests_creates w s n :
  is_jenkins (self s) = true ->
  int_of_string (build_number (self s)) = Some n ->
  exists req p,
    sent (snd (before_all_tests w s)) = sent s ++ [req] /\
    req_method req = POST /\ req_endpoint req = PipelineRuns /\
    req_json req = RunCreate p /\
    rc_build_number p = n /\
    rc_name p = job_name (self s) +:+ " - Build #" +:+ build_number (self s) /\
    rc_status p = "running" /\
    rc_repo_name p = "Python-Pylenium-Web" /\ rc_environment p = "qa" /\
    rc_org p = org_id (self s) /\ rc_created_by p = created_by (self s) /\
    rc_build_url p = build_url (self s) /\
    rc_git_branch p = git_branch (self s) /\
    rc_git_commit p = git_commit (self s).
Proof.
  intros Hci Hn. py_unfold. rewrite Hci. py_simpl.
  unfold py_int_of_string. rewrite Hn. py_simpl.
  py_cases; do 2 eexists; (split; [reflexivity|]); by repeat split.
Qed.

(** X9. Under CI [before_all_tests] sends the run creation exactly when
    the build number, a string in ASCII, reads as an integer.  When it does, one request goes
    out, carrying that integer, the name "<job> - Build #<build number>",
    the status "running" and the fields of the client; when it does not,
    nothing is sent, the run identifier and the counters are left alone,
    and the [ValueError] is logged as an error, not raised. *)
Theorem create_is_sent_iff_build_number_parses w s :
  is_jenkins (self s) = true ->
  let s1 := snd (before_all_tests w s) in
  fst (before_all_tests w s) = Ok tt /\
  (forall n,
     int_of_string (build_number (self s)) = Some n ->
     exists req p,
       sent s1 = sent s ++ [req] /\
       req_method req = POST /\ req_endpoint req = PipelineRuns /\
       req_json req = RunCreate p /\
       rc_build_number p = n /\
       rc_name p = job_name (self s) +:+ " - Build #" +:+ build_number (self s) /\
       rc_status p = "running" /\
       rc_repo_name p = "Python-Pylenium-Web" /\ rc_environment p = "qa" /\
       rc_org p = org_id (self s) /\ rc_created_by p = created_by (self s) /\
       rc_build_url p = build_url (self s) /\
       rc_git_branch p = git_branch (self s) /\
       rc_git_commit p = git_commit (self s)) /\
  (is_ascii (build_number (self s)) = true ->
   int_of_string (build_number (self s)) = None ->
   sent s1 = sent s /\
   pipeline_run_id (self s1) = pipeline_run_id (self s) /\
   api_call_count (self s1) = api_call_count (self s) /\
   In (ERROR, ApiError "API-1" ValueError) (log s1)).
Proof.
  intros Hci. cbv zeta. split; [apply before_all_tests_ok|]. split.
  - intros n Hn. by apply before_all_tests_creates.
  - intros _ Hnone. py_unfold. rewrite Hci. py_simpl.
    unfold py_int_of_string. rewrite Hnone. py_simpl.
    repeat split; try done. rewrite !in_app_iff. simpl. tauto.
Qed.

Lemma create_is_sent_iff_build_number_parses_witness :
  is_jenkins (self (start (init ci_env))) = true /\
  int_of_string (build_number (self (start (init ci_env)))) = Some 42 /\
  exists req,
    sent (snd (before_all_tests accepting_world (start (init ci_env)))) = [req].
Proof.
  assert (H1 : is_jenkins (self (start (init ci_env))) = true) by reflexivity.
  assert (H2 : int_of_string (build_number (self (start (init ci_env)))) = Some 42)
    by reflexivity.
  split; [exact H1|]. split; [exact H2|].
  destruct (proj1 (proj2 (create_is_sent_iff_build_number_parses accepting_world
                            (start (init ci_env)) H1)) 42 H2)
    as (req & p & Hs & _).
  exists req. exact Hs.
Defined.

(** X10. A client built where [JENKINS_HOME] is set and [BUILD_NUMBER] is
    not runs under CI with the build number "0": its [before_all_tests]
    sends the run creation with build number 0 and the name
    "<job> - Build #0", the job being "Unknown Job" unless [JOB_NAME] says
    otherwise. *)
Theorem jenkins_home_alone_builds_number_zero env w home :
  env !! "JENKINS_HOME" = Some home ->
  env !! "BUILD_NUMBER" = None ->
  is_jenkins (init env) = true /\
  exists req p,
    sent (snd (before_all_tests w (start (init env)))) = [req] /\
    req_json req = RunCreate p /\
    rc_build_number p = 0 /\
    rc_name p = getenv env "JOB_NAME" "Unknown Job" +:+ " - Build #0".
Proof.
  intros Hhome Hbuild.
  assert (Hci : is_jenkins (self (start (init env))) = true).
  { simpl. unfold is_set. by rewrite Hhome. }
  assert (Hbn : build_number (self (start (init env))) = "0").
  { simpl. unfold getenv. by rewrite Hbuild. }
  split; [exact Hci|].
  destruct (before_all_tests_creates w (start (init env)) 0 Hci)
    as (req & p & Hs & _ & _ & Hp & Hn & Hname & _).
  { by rewrite Hbn. }
  exists req, p. rewrite Hbn in Hname. done.
Qed.

Lemma jenkins_home_alone_builds_number_zero_witness :
  ({[ "JENKINS_HOME" := "/var/jenkins_home" ]} : gmap string string)
    !! "BUILD_NUMBER" = None /\
  is_jenkins (init {[ "JENKINS_HOME" := "/var/jenkins_home" ]}) = true.
Proof.
  split; [reflexivity|].
  apply (jenkins_home_alone_builds_number_zero
           {[ "JENKINS_HOME" := "/var/jenkins_home" ]} accepting_world
           "/var/jenkins_home"); reflexivity.
Defined.

(** ** Durations that do not convert, and negative durations *)

(** X11. A duration whose product with 1000 is not a finite number (an
    infinity, NaN, an overflow of the product) makes [int] raise:
    [OverflowError] on an infinity, [ValueError] on NaN.  [after_each_test]
    then still returns normally and records the test; it sends nothing and
    counts nothing, and under CI with a run identifier it logs the exception
    as an API-3 error. *)
Theorem unconvertible_duration_is_recorded_not_sent name status d err w s e :
  duration_ms d = Raise e ->
  let s' := snd (after_each_test name status d err w s) in
  (e = OverflowError \/ e = ValueError) /\
  (forall sign, duration_ms (S754_infinity sign) = Raise OverflowError) /\
  duration_ms S754_nan = Raise ValueError /\
  fst (after_each_test name status d err w s) = Ok tt /\
  sent s' = sent s /\
  api_call_count (self s') = api_call_count (self s) /\
  test_results (self s')
  = test_results (self s) ++
    [stored {| call_name := name; call_status := status;
               call_duration := d; call_error_message := err |}] /\
  (local_only s = false -> In (ERROR, ApiError "API-3" e) (log s')).
Proof.
  intros He. cbv zeta.
  split.
  { unfold duration_ms, py_int_of_float in He.
    destruct (fmul d (float_of_Z 1000)); simplify_eq; auto. }
  split; [by intros []|]. split; [reflexivity|].
  split; [apply after_each_test_ok|].
  unfold local_only. py_unfold. py_simpl.
  destruct (negb (is_jenkins (self s)) || negb (truthy (pipeline_run_id (self s))));
    py_simpl; [by repeat split|].
  rewrite He. py_simpl. repeat split; try done.
  intros _. rewrite !in_app_iff. simpl. tauto.
Qed.

Lemma unconvertible_duration_is_recorded_not_sent_witness :
  duration_ms (S754_infinity false) = Raise OverflowError /\
  sent (snd (after_each_test "test_slow" "passed" (S754_infinity false) None
               accepting_world
               (snd (before_all_tests accepting_world (start (init ci_env))))))
  = sent (snd (before_all_tests accepting_world (start (init ci_env)))).
Proof.
  assert (H : duration_ms (S754_infinity false) = Raise OverflowError)
    by reflexivity.
  split; [exact H|].
  apply (unconvertible_duration_is_recorded_not_sent "test_slow" "passed"
           (S754_infinity false) None accepting_world
           (snd (before_all_tests accepting_world (start (init ci_env))))
           OverflowError H).
Defined.





(** ** The status of a test *)

Lemma upper_lower_ascii c : upper_ascii (lower_ascii c) = upper_ascii c.
Proof. destruct c as [[] [] [] [] [] [] [] []]; reflexivity. Qed.

Lemma lower_upper_ascii c : lower_ascii (upper_ascii c) = lower_ascii c.
Proof. destruct c as [[] [] [] [] [] [] [] []]; reflexivity. Qed.

Lemma upper_lower x : upper (lower x) = upper x.
Proof.
  unfold upper, lower. induction x as [|c x IH]; simpl; [done|].
  by rewrite upper_lower_ascii, IH.
Qed.

Lemma lower_upper x : lower (upper x) = lower x.
Proof.
  unfold upper, lower. induction x as [|c x IH]; simpl; [done|].
  by rewrite lower_upper_ascii, IH.
Qed.

Lemma upper_iff_lower x up low :
  upper low = up -> lower up = low -> (upper x = up <-> lower x = low).
Proof.
  intros Hup Hlow. split; intros H.
  - by rewrite <- Hlow, <- H, lower_upper.
  - by rewrite <- Hup, <- H, upper_lower.
Qed.

(** X13. [after_each_test] reads a status in ASCII without regard to letter case:
    the record it appends is stored as PASSED, FAILED or SKIPPED exactly
    when the status it forwards to the backend, the lower-cased one, is
    passed, failed or skipped; the record keeps the name, the duration and
    the error message as given. *)
Theorem status_is_read_without_case name status d err w s :
  is_ascii status = true ->
  let s' := snd (after_each_test name status d err w s) in
  exists record,
    test_results (self s') = test_results (self s) ++ [record] /\
    tr_name record = name /\ tr_duration record = d /\
    tr_error_message record = err /\
    (tr_status record = "PASSED" <-> lower status = "passed") /\
    (tr_status record = "FAILED" <-> lower status = "failed") /\
    (tr_status record = "SKIPPED" <-> lower status = "skipped") /\
    (forall req p,
       sent s' = sent s ++ [req] -> req_json req = TestCase p ->
       tc_status p = lower status /\ tc_name p = name /\
       tc_error_message p = err).
Proof.
  intros _. cbv zeta. eexists. split; [apply after_each_test_appends|]. simpl.
  do 3 (split; [reflexivity|]).
  do 3 (split; [by apply upper_iff_lower|]).
  intros req p Hsent Hp.
  destruct (after_each_test_sends name status d err w s)
    as [Hno|(req' & p' & ms & Hs' & _ & _ & Hp' & _ & Hn & Hst & He & _)].
  - rewrite Hno in Hsent. apply (f_equal length) in Hsent.
    rewrite length_app in Hsent. simpl in Hsent. lia.
  - rewrite Hs' in Hsent. apply app_inj_tail in Hsent as [_ ->].
    rewrite Hp' in Hp. by injection Hp as <-.
Qed.

Lemma status_is_read_without_case_witness :
  lower "Passed" = "passed" /\
  exists record,
    test_results
      (self (snd (after_each_test "t" "Passed" (float_of_Z 1) None
                    accepting_world (start (init local_env))))) = [record] /\
    tr_status record = "PASSED".
Proof.
  split; [reflexivity|].
  destruct (status_is_read_without_case "t" "Passed" (float_of_Z 1) None
              accepting_world (start (init local_env)) eq_refl)
    as (record & Hr & _ & _ & _ & Hp & _).
  exists record. split; [exact Hr|]. by apply Hp.
Defined.

(** ** The reports pytest hands to the hook *)

Lemma standard_outcome_known name rep :
  known_status (stored (Conftest.call_of_report name rep))
  = standard_outcome rep.
Proof.
  unfold known_status, standard_outcome, Conftest.call_of_report,
    Conftest.report_status, stored. simpl.
  destruct (Conftest.passed rep); [reflexivity|].
  destruct (Conftest.failed rep); [reflexivity|].
  by destruct (Conftest.skipped rep).
Qed.

(** X14. When the recorded tests are the reports of the hook, each report
    is stored under the status of its outcome (PASSED, FAILED, SKIPPED, and
    UNKNOWN for any other outcome), with an error message exactly for the
    failed and the skipped ones; at the end of the session the passed,
    failed and skipped counts sum to the number of recorded tests exactly
    when every report has one of the three outcomes. *)
Theorem hook_reports_are_counted_by_outcome env w
    (reports : list (string * Conftest.report)) :
  let calls := map (fun nr => Conftest.call_of_report (fst nr) (snd nr)) reports in
  let results := test_results (self (snd (session calls w (start (init env))))) in
  results = map stored calls /\
  Forall2 (fun nr t =>
      tr_name t = fst nr /\
      tr_status t
      = (if Conftest.passed (snd nr) then "PASSED"
         else if Conftest.failed (snd nr) then "FAILED"
         else if Conftest.skipped (snd nr) then "SKIPPED" else "UNKNOWN") /\
      (tr_error_message t = None
       <-> Conftest.passed (snd nr) = true \/ standard_outcome (snd nr) = false))
    reports results /\
  ((count_status "PASSED" results + count_status "FAILED" results
    + count_status "SKIPPED" results)%nat = length reports
   <-> forallb standard_outcome (map snd reports) = true).
Proof.
  cbv zeta.
  assert (Hres : test_results (self (snd (session
      (map (fun nr => Conftest.call_of_report (fst nr) (snd nr)) reports) w
      (start (init env)))))
    = map stored (map (fun nr => Conftest.call_of_report (fst nr) (snd nr)) reports)).
  { rewrite session_eq. cbn [snd].
    rewrite after_all_tests_keeps_results, record_tests_results.
    by destruct (before_all_tests_frame w (start (init env))) as [-> _]. }
  rewrite Hres. split; [reflexivity|]. split.
  - clear Hres. induction reports as [|[name rep] reports IH]; simpl;
      [constructor|].
    constructor; [|exact IH].
    unfold stored, Conftest.call_of_report, Conftest.report_status,
      standard_outcome. simpl.
    destruct (Conftest.passed rep), (Conftest.failed rep),
      (Conftest.skipped rep); simpl;
      (split; [reflexivity|]); (split; [reflexivity|]);
      (split; [intros ?; first [done | by left | by right] | by intros [?|?]]).
  - assert (Hall : forallb known_status
        (map stored (map (fun nr => Conftest.call_of_report (fst nr) (snd nr)) reports))
      = forallb standard_outcome (map snd reports)).
    { clear Hres. induction reports as [|[name rep] reports IH]; simpl; [done|].
      by rewrite IH, <- (standard_outcome_known name rep). }
    rewrite <- Hall, <- count_partition_eq, !length_map. done.
Qed.

Lemma hook_reports_are_counted_by_outcome_witness :
  let reports := [("test_a", rerun_report)] in
  forallb standard_outcome (map snd reports) = false /\
  (0 + 0 + 0)%nat <> length reports.
Proof.
  cbv zeta. split; [reflexivity|].
  pose proof (hook_reports_are_counted_by_outcome local_env accepting_world
                [("test_a", rerun_report)]) as H.
  cbv zeta in H. destruct H as (_ & _ & Hiff).
  intros Heq. simpl in Heq. discriminate.
Defined.

(** ** The report hook and the browser fixture *)

Module HookFacts.
Import Hook.

Ltac hook_unfold :=
  cbv beta iota zeta delta
    [pytest_runtest_makereport py_teardown set_report log_error lift_api
     lift_shot record_screenshot record_attachment
     bind ret raise try_except ask get put modify lift_outcome].

(** The screenshot handler returns normally, or a browser session is bound
    and the directory creation or the capture raised. *)
Lemma save_screenshot_outcome it (w : Screenshot.World) (s : Screenshot.State) :
  fst (Screenshot.save_screenshot_on_failure it w s) = Ok tt \/
  exists handle e,
    Screenshot.funcargs it !! "py" = Some (Screenshot.Driver handle) /\
    (Screenshot.makedirs w "reports/screenshots" = Some e \/
     Screenshot.screenshot w handle
       (Screenshot.screenshot_path
          (Screenshot.item_name it +:+ "_" +:+ Screenshot.now_stamp w +:+ ".png"))
     = Some e) /\
    fst (Screenshot.save_screenshot_on_failure it w s) = Raise e.
Proof.
  destruct (Screenshot.funcargs it !! "py") as [[|handle]|] eqn:Hpy.
  1,3: left; rewrite ScreenshotFacts.absent_handle_is_noop; [done|by rewrite Hpy].
  destruct (Screenshot.makedirs w "reports/screenshots") as [e|] eqn:Hdir.
  { right. exists handle, e. split; [done|]. split; [by left|].
    by rewrite (ScreenshotFacts.makedirs_failure_propagates w s it handle e). }
  destruct (Screenshot.screenshot w handle
              (Screenshot.screenshot_path
                 (Screenshot.item_name it +:+ "_" +:+ Screenshot.now_stamp w
                  +:+ ".png"))) as [e|] eqn:Hshot.
  - right. exists handle, e. split; [done|]. split; [by right|].
    by apply (ScreenshotFacts.screenshot_failure_propagates w s it handle).
  - left. by apply (ScreenshotFacts.attach_failures_are_swallowed w s it handle).
Qed.

(** The state a report of the call phase leaves. *)
Lemma call_phase it rep (w : World) (s : State) :
  Conftest.when rep = "call" ->
  let r := pytest_runtest_makereport it rep w s in
  let shot_run :=
    Screenshot.save_screenshot_on_failure it (shot_world w) (shot s) in
  api (snd r)
  = snd (after_each_test (Screenshot.item_name it)
           (fst (Conftest.report_status rep)) (Conftest.duration rep)
           (snd (Conftest.report_status rep)) (api_world w) (api s)) /\
  item_report (snd r) = Some rep /\
  shot (snd r) = (if Conftest.failed rep then snd shot_run else shot s) /\
  fst r = (if Conftest.failed rep
           then match fst shot_run with
                | Ok _ => Ok rep
                | Raise e => Raise e
                end
           else Ok rep).
Proof.
  intros Hwhen. cbv zeta. hook_unfold. rewrite Hwhen.
  change (String.eqb "call" "call") with true. cbv beta iota.
  pose proof (after_each_test_ok (Screenshot.item_name it)
    (fst (Conftest.report_status rep)) (Conftest.duration rep)
    (snd (Conftest.report_status rep)) (api_world w) (api s)) as Hok.
  destruct (after_each_test _ _ _ _ _ _) as [[[]|e] a]; simpl in Hok;
    [|discriminate].
  cbn [fst snd api shot item_report errors quits].
  destruct (Conftest.failed rep);
    cbn [fst snd api shot item_report errors quits]; [|done].
  by destruct (Screenshot.save_screenshot_on_failure it _ _) as [[[]|e'] sh].
Qed.

(** The screenshots the fixture takes after the test. *)
Lemma teardown_screenshots handle on path (w : World) (s : State) :
  Screenshot.screenshots (shot (snd (py_teardown handle on path w s)))
  = Screenshot.screenshots (shot s) ++
    (if match item_report s with
        | Some rep => Conftest.failed rep && on
        | None => false
        end &&
        bool_decide (Screenshot.screenshot (shot_world w) handle path = None)
     then [(handle, path)] else []).
Proof.
  hook_unfold.
  destruct (item_report s) as [rep|] eqn:Hrep; cbn [fst snd];
    [destruct (Conftest.failed rep), on; cbn [andb orb negb fst snd];
     [destruct (Screenshot.screenshot (shot_world w) handle path);
      cbn [andb orb negb fst snd];
      [|destruct (Screenshot.allure_attach (shot_world w) path "failed.png");
        cbn [andb orb negb fst snd]]|..]|];
    destruct (quit w handle);
    cbn [fst snd api shot item_report errors quits
         Screenshot.screenshots Screenshot.attachments bool_decide andb];
    rewrite ?app_nil_r; done.
Qed.

End HookFacts.

(** X15. The hook records the reports of the call phase only: for a report
    of another phase (the setup, where fixture errors and marker skips are
    reported, or the teardown) it returns the report and sets it on the
    item, and nothing is recorded, sent, logged or captured, whatever the
    outcome. *)
Theorem hook_ignores_other_phases it rep (w : Hook.World) (s : Hook.State) :
  Conftest.when rep <> "call" ->
  Hook.pytest_runtest_makereport it rep w s
  = (Ok rep,
     {| Hook.api := Hook.api s; Hook.shot := Hook.shot s;
        Hook.item_report := Some rep; Hook.errors := Hook.errors s;
        Hook.quits := Hook.quits s |}).
Proof.
  intros Hwhen. HookFacts.hook_unfold.
  destruct (String.eqb_spec (Conftest.when rep) "call"); [done|reflexivity].
Qed.

Lemma hook_ignores_other_phases_witness :
  Conftest.when setup_skip_report <> "call" /\
  Hook.api (snd (Hook.pytest_runtest_makereport failing_item setup_skip_report
                   quiet_hook_world new_hook_state))
  = Hook.api new_hook_state.
Proof.
  assert (H : Conftest.when setup_skip_report <> "call") by discriminate.
  split; [exact H|].
  by rewrite (hook_ignores_other_phases failing_item setup_skip_report
                quiet_hook_world new_hook_state H).
Defined.

(** X16. For a report of the call phase the hook first hands the test to
    [after_each_test], with the name of the item, the duration of the
    report and the status and message of its outcome, so the test is
    recorded whatever follows; it calls the screenshot handler only for a
    failed report; and it raises only when that report is failed, a browser
    session is bound, and the directory creation or the capture raises. *)
Theorem hook_records_then_captures it rep (w : Hook.World) (s : Hook.State) :
  Conftest.when rep = "call" ->
  let r := Hook.pytest_runtest_makereport it rep w s in
  Hook.api (snd r)
  = snd (after_each_test (Screenshot.item_name it)
           (fst (Conftest.report_status rep)) (Conftest.duration rep)
           (snd (Conftest.report_status rep)) (Hook.api_world w) (Hook.api s)) /\
  Hook.item_report (snd r) = Some rep /\
  (Conftest.failed rep = false ->
   fst r = Ok rep /\ Hook.shot (snd r) = Hook.shot s) /\
  (Conftest.failed rep = true ->
   Hook.shot (snd r)
   = snd (Screenshot.save_screenshot_on_failure it (Hook.shot_world w)
            (Hook.shot s))) /\
  (fst r = Ok rep \/
   exists handle e,
     Conftest.failed rep = true /\
     Screenshot.funcargs it !! "py" = Some (Screenshot.Driver handle) /\
     (Screenshot.makedirs (Hook.shot_world w) "reports/screenshots" = Some e \/
      Screenshot.screenshot (Hook.shot_world w) handle
        (Screenshot.screenshot_path
           (Screenshot.item_name it +:+ "_"
            +:+ Screenshot.now_stamp (Hook.shot_world w) +:+ ".png")) = Some e) /\
     fst r = Raise e).
Proof.
  intros Hwhen. cbv zeta.
  destruct (HookFacts.call_phase it rep w s Hwhen) as (Hapi & Hrep & Hshot & Hres).
  split; [exact Hapi|]. split; [exact Hrep|].
  destruct (Conftest.failed rep) eqn:Hfailed.
  - split; [done|]. split; [done|]. rewrite Hres.
    destruct (HookFacts.save_screenshot_outcome it (Hook.shot_world w)
                (Hook.shot s)) as [->|(handle & e & Hpy & Hwhy & ->)];
      [by left|].
    right. by exists handle, e.
  - split; [done|]. split; [done|]. by left.
Qed.

Lemma hook_records_then_captures_witness :
  Conftest.when failed_call_report = "call" /\
  Conftest.failed failed_call_report = true /\
  length (test_results (self (Hook.api (snd
    (Hook.pytest_runtest_makereport failing_item failed_call_report
       dead_hook_world new_hook_state))))) = 1%nat.
Proof.
  assert (H : Conftest.when failed_call_report = "call") by reflexivity.
  split; [exact H|]. split; [reflexivity|].
  destruct (hook_records_then_captures failing_item failed_call_report
              dead_hook_world new_hook_state H) as (-> & _).
  by rewrite after_each_test_appends.
Defined.

(** X17. After the test the browser fixture always goes on to quit the
    browser: a failure of the capture or of the attachment, and an item on
    which the hook has set no report, are logged as one error and
    swallowed, so that the fixture raises exactly when [py.quit()] raises.
    It takes the screenshot only for a failed report with screenshots
    switched on, and it leaves the tracking client and the report alone. *)
Theorem teardown_always_quits handle on path (w : Hook.World) (s : Hook.State) :
  let r := Hook.py_teardown handle on path w s in
  let wanted :=
    match Hook.item_report s with
    | Some rep => Conftest.failed rep && on
    | None => false
    end in
  let taken :=
    wanted &&
    bool_decide (Screenshot.screenshot (Hook.shot_world w) handle path = None) in
  let attached :=
    taken &&
    bool_decide
      (Screenshot.allure_attach (Hook.shot_world w) path "failed.png" = None) in
  fst r = match Hook.quit w handle with None => Ok tt | Some e => Raise e end /\
  Hook.quits (snd r)
  = Hook.quits s ++
    match Hook.quit w handle with None => [handle] | Some _ => [] end /\
  Hook.errors (snd r)
  = Hook.errors s ++
    (if bool_decide (Hook.item_report s = None) || (wanted && negb attached)
     then ["Failed to capture screenshot."] else []) /\
  Screenshot.screenshots (Hook.shot (snd r))
  = Screenshot.screenshots (Hook.shot s) ++
    (if taken then [(handle, path)] else []) /\
  Screenshot.attachments (Hook.shot (snd r))
  = Screenshot.attachments (Hook.shot s) ++
    (if attached then [(path, "failed.png")] else []) /\
  Hook.api (snd r) = Hook.api s /\
  Hook.item_report (snd r) = Hook.item_report s.
Proof.
  cbv zeta. HookFacts.hook_unfold.
  destruct (Hook.item_report s) as [rep|] eqn:Hrep; cbn [fst snd];
    [destruct (Conftest.failed rep), on; cbn [andb orb negb fst snd];
     [destruct (Screenshot.screenshot (Hook.shot_world w) handle path);
      cbn [andb orb negb fst snd];
      [|destruct (Screenshot.allure_attach (Hook.shot_world w) path "failed.png");
        cbn [andb orb negb fst snd]]|..]|];
    destruct (Hook.quit w handle);
    cbn [fst snd Hook.api Hook.shot Hook.item_report Hook.errors Hook.quits
         Screenshot.screenshots Screenshot.attachments bool_decide andb orb negb];
    rewrite ?bool_decide_eq_true_2, ?bool_decide_eq_false_2 by done;
    cbn [andb orb negb]; rewrite ?app_nil_r; done.
Qed.

(** X18. A failed test of a working browser is captured twice: by the hook,
    into the screenshot directory of the reports under the name of the test
    and the time, and, when screenshots are switched on, by the fixture,
    into [path]; the fixture reads the report the hook has set. *)
Theorem failed_test_is_captured_twice it rep handle path
    (w : Hook.World) (s : Hook.State) :
  Conftest.when rep = "call" ->
  Conftest.failed rep = true ->
  Screenshot.funcargs it !! "py" = Some (Screenshot.Driver handle) ->
  Screenshot.makedirs (Hook.shot_world w) "reports/screenshots" = None ->
  (forall p, Screenshot.screenshot (Hook.shot_world w) handle p = None) ->
  let s1 := snd (Hook.pytest_runtest_makereport it rep w s) in
  let s2 := snd (Hook.py_teardown handle true path w s1) in
  Screenshot.screenshots (Hook.shot s2)
  = Screenshot.screenshots (Hook.shot s) ++
    [(handle,
      Screenshot.screenshot_path
        (Screenshot.item_name it +:+ "_"
         +:+ Screenshot.now_stamp (Hook.shot_world w) +:+ ".png"));
     (handle, path)].
Proof.
  intros Hwhen Hfailed Hpy Hdir Hshot. cbv zeta.
  rewrite HookFacts.teardown_screenshots.
  destruct (HookFacts.call_phase it rep w s Hwhen) as (_ & -> & -> & _).
  rewrite Hfailed, Hshot, bool_decide_eq_true_2 by done.
  cbn [andb].
  match goal with
  | |- _ ++ [?b] = _ ++ [?a; _] =>
      change [a; b] with ([a] ++ [b]); rewrite app_assoc; f_equal
  end.
  ScreenshotFacts.shot_unfold. rewrite Hpy, Hdir. cbn [fst snd].
  rewrite Hshot.
  destruct (Screenshot.import_pytest_html (Hook.shot_world w)); [reflexivity|].
  cbn [fst snd].
  destruct (Screenshot.extras_image (Hook.shot_world w) _); [reflexivity|].
  cbn [fst snd].
  destruct (Screenshot.read_file (Hook.shot_world w) _); [reflexivity|].
  cbn [fst snd].
  destruct (Screenshot.allure_attach (Hook.shot_world w) _ _); reflexivity.
Qed.

Lemma failed_test_is_captured_twice_witness :
  length (Screenshot.screenshots (Hook.shot (snd
    (Hook.py_teardown 1 true "test_results/test_login_invalid/failed.png"
       quiet_hook_world
       (snd (Hook.pytest_runtest_makereport failing_item failed_call_report
               quiet_hook_world new_hook_state)))))) = 2%nat.
Proof.
  rewrite (failed_test_is_captured_twice failing_item failed_call_report 1%nat
             "test_results/test_login_invalid/failed.png" quiet_hook_world
             new_hook_state); reflexivity.
Defined.

(** ** The configuration fixtures *)

Module ConfigFacts.
Import Config.

Lemma digit_is_no_space c : is_digit c = true -> is_int_space c = false.
Proof. destruct c as [[] [] [] [] [] [] [] []]; by vm_compute. Qed.

Lemma digit_is_no_sign c :
  is_digit c = true -> Ascii.eqb c "-" = false /\ Ascii.eqb c "+" = false.
Proof. destruct c as [[] [] [] [] [] [] [] []]; by vm_compute. Qed.

Lemma digit_value_nonneg c : is_digit c = true -> 0 <= digit_value c.
Proof.
  unfold is_digit, digit_value. cbv zeta. intros H.
  apply andb_prop in H as [H _]. apply Nat.leb_le in H. lia.
Qed.

Lemma lstrip_digits l :
  forallb is_digit l = true -> lstrip_of is_int_space l = l.
Proof.
  destruct l as [|c l]; [done|]. cbn [forallb lstrip_of]. intros H.
  apply andb_prop in H as [H _]. by rewrite digit_is_no_space.
Qed.

Lemma strip_digits l :
  forallb is_digit l = true -> strip_of is_int_space l = l.
Proof.
  intros H. unfold strip_of. rewrite (lstrip_digits l H), lstrip_digits.
  - apply rev_involutive.
  - apply forallb_forall. intros c Hc. apply in_rev in Hc.
    by eapply forallb_forall in H.
Qed.

Lemma parse_digits_digits l :
  forall acc, forallb is_digit l = true -> 0 <= acc ->
  exists n, parse_digits acc false l = Some n /\ 0 <= n.
Proof.
  induction l as [|c l IH]; intros acc H Hacc; [by exists acc|].
  cbn [forallb] in H. apply andb_prop in H as [Hc Hl]. cbn [parse_digits].
  rewrite Hc. apply IH; [done|]. pose proof (digit_value_nonneg c Hc). lia.
Qed.

Lemma count_digits_digits l :
  forallb is_digit l = true -> count_digits l = Z.of_nat (length l).
Proof.
  unfold count_digits. intros H. f_equal. f_equal.
  induction l as [|c l IH]; [done|].
  cbn [forallb] in H. apply andb_prop in H as [Hc Hl].
  cbn [List.filter]. rewrite Hc. cbn [length]. by rewrite IH.
Qed.

Lemma length_list_ascii_of_string s :
  length (list_ascii_of_string s) = String.length s.
Proof. induction s as [|c s IH]; [done|]. cbn. by rewrite IH. Qed.

(** What [isdigit] accepts, [int] reads, as a number that is not negative,
    unless it has more digits than [int] converts. *)
Lemma isdigit_int_of_string s :
  isdigit s = true ->
  int_of_string s
  = (if Z.of_nat (String.length s) <=? max_str_digits
     then int_of_string s else None) /\
  (Z.of_nat (String.length s) <= max_str_digits ->
   exists n, int_of_string s = Some n /\ 0 <= n).
Proof.
  unfold isdigit, int_of_string.
  rewrite <- (length_list_ascii_of_string s).
  destruct (list_ascii_of_string s) as [|c l] eqn:Hs; [done|]. intros H.
  rewrite (strip_digits _ H).
  pose proof H as H'. cbn [forallb] in H'. apply andb_prop in H' as [Hc _].
  destruct (digit_is_no_sign c Hc) as [-> ->].
  unfold parse_unsigned. rewrite Hc, (count_digits_digits _ H). cbn [andb].
  split.
  - by destruct (Z.of_nat (length (c :: l)) <=? max_str_digits).
  - intros Hlen. apply Z.leb_le in Hlen. rewrite Hlen.
    by apply parse_digits_digits.
Qed.

Lemma override_run r loads c :
  _override_pylenium_config_values r loads c
  = match (if nonempty (opt_caps r) then loads (opt_caps r)
           else Ok (capabilities (driver c))) with
    | Ok caps =>
        match wait_outcome r c with
        | Ok wait => (Ok tt, overridden r caps wait c)
        | Raise e => (Raise e, with_caps r caps c)
        end
    | Raise e => (Raise e, before_caps r c)
    end.
Proof.
  unfold overridden, with_caps, before_caps, wait_outcome.
  destruct c as [[] []].
  cbv beta iota zeta delta
    [_override_pylenium_config_values when_ set_driver set_logging
     bind ret raise ask get put modify].
  destruct (nonempty (opt_remote_url r)), (nonempty (opt_options r)),
    (nonempty (opt_browser r)), (nonempty (opt_local_path r));
    cbn [driver logging browser remote_url options capabilities local_path
         page_load_wait_time extension_paths screenshots_on pylog_level];
    (destruct (nonempty (opt_caps r));
     [destruct (loads (opt_caps r)) as [caps|e]; [|reflexivity]|]);
    cbn [driver logging browser remote_url options capabilities local_path
         page_load_wait_time extension_paths screenshots_on pylog_level];
    (destruct (isdigit (opt_page_load_wait_time r));
     [destruct (py_int_of_string (opt_page_load_wait_time r));
      [|reflexivity]|]);
    destruct (nonempty (opt_screenshots_on r)), (nonempty (opt_extensions r)),
      (nonempty (opt_pylog_level r));
    reflexivity.
Qed.

(** The conversion of the page load wait time fails exactly on more digits
    than [int] converts. *)
Lemma wait_outcome_cases r c :
  let wait := opt_page_load_wait_time r in
  (isdigit wait = true /\ max_str_digits < Z.of_nat (String.length wait) /\
   wait_outcome r c = Raise ValueError) \/
  (~ (isdigit wait = true /\ max_str_digits < Z.of_nat (String.length wait)) /\
   exists n, wait_outcome r c = Ok n /\
     (isdigit wait = true -> int_of_string wait = Some n /\ 0 <= n) /\
     (isdigit wait = false -> n = page_load_wait_time (driver c))).
Proof.
  cbv zeta. unfold wait_outcome, py_int_of_string.
  destruct (isdigit (opt_page_load_wait_time r)) eqn:Hdigit.
  - destruct (isdigit_int_of_string _ Hdigit) as [Hcut Hread].
    destruct (Z.leb_spec (Z.of_nat (String.length (opt_page_load_wait_time r)))
                max_str_digits) as [Hle|Hgt].
    + right. split; [lia|]. destruct (Hread Hle) as (n & Hn & Hpos).
      rewrite Hn. exists n. split; [done|]. split; [done|]. discriminate.
    + left. rewrite Hcut. done.
  - right. split; [by intros [? _]|]. eexists. split; [done|].
    split; [discriminate|done].
Qed.

Ltac override_frame :=
  repeat split; try done;
  let Hurl := fresh "Hurl" in
  intros Hurl;
  cbn [with_caps before_caps Config.driver Config.remote_url];
  by rewrite Hurl.

End ConfigFacts.

(** X19. [base_url] takes the address of the entry of the environment when
    the configuration has one, whatever address the top level gives, and
    falls back on the address of the top level, or on
    ["http://localhost"] when there is none, when the configuration has no
    environments or none of that name. *)
Theorem base_url_resolution d env :
  (forall envs entry u,
     dict_get "environments" d = Some (JDict envs) ->
     dict_get env envs = Some (JDict entry) ->
     dict_get "url" entry = Some u ->
     Config.base_url (Ok (JDict d)) env = Ok u) /\
  (dict_get "environments" d = None \/
   (exists envs, dict_get "environments" d = Some (JDict envs) /\
                 dict_get env envs = None) ->
   Config.base_url (Ok (JDict d)) env
   = Ok (default (JStr "http://localhost") (dict_get "url" d))).
Proof.
  split.
  - intros envs entry u Henvs Hentry Hu. unfold Config.base_url.
    cbn [Config.rbind py_in py_getitem]. rewrite Henvs.
    cbn [Config.rbind py_in py_getitem]. rewrite Hentry.
    cbn [Config.rbind py_in py_getitem]. by rewrite Hu.
  - intros [Hnone|(envs & Henvs & Hnone)]; unfold Config.base_url;
      cbn [Config.rbind py_in py_getitem Config.py_get]; [rewrite Hnone|rewrite Henvs];
      cbn [Config.rbind py_in py_getitem Config.py_get]; rewrite ?Hnone;
      cbn [Config.rbind py_in py_getitem Config.py_get];
      by destruct (dict_get "url" d).
Qed.

Lemma base_url_resolution_witness :
  Config.base_url (Ok pylenium_json) "qa" = Ok (JStr "https://qa.example.com") /\
  Config.base_url (Ok pylenium_json) "prod" = Ok (JStr "https://example.com").
Proof.
  split.
  - by apply (proj1 (base_url_resolution _ "qa")
                [("dev", JDict [("url", JStr "https://dev.example.com")]);
                 ("qa", JDict [("url", JStr "https://qa.example.com")])]
                [("url", JStr "https://qa.example.com")]).
  - apply (proj2 (base_url_resolution
                    [("url", JStr "https://example.com");
                     ("environments",
                      JDict [("dev", JDict [("url", JStr "https://dev.example.com")]);
                             ("qa", JDict [("url", JStr "https://qa.example.com")])])]
                    "prod")).
    right. eexists. split; reflexivity.
Defined.

(** X20. [base_url] has no fallback once the environment is known: an entry
    without ["url"] raises [KeyError] although the top level may give an
    address, and an entry that is not an object raises [TypeError]; an error
    of the loading (no file, no JSON) is raised as it is. *)
Theorem base_url_failures env :
  (forall d envs entry,
     dict_get "environments" d = Some (JDict envs) ->
     dict_get env envs = Some entry ->
     (forall fields, entry = JDict fields -> dict_get "url" fields = None) ->
     Config.base_url (Ok (JDict d)) env
     = Raise (match entry with JDict _ => KeyError | _ => TypeError end)) /\
  (forall e, Config.base_url (Raise e) env = Raise e).
Proof.
  split; [|done].
  intros d envs entry Henvs Hentry Hurl. unfold Config.base_url.
  cbn [Config.rbind py_in py_getitem]. rewrite Henvs.
  cbn [Config.rbind py_in py_getitem]. rewrite Hentry.
  cbn [Config.rbind py_in py_getitem].
  destruct entry; try reflexivity.
  cbn [py_getitem]. by rewrite (Hurl _ eq_refl).
Qed.

Lemma base_url_failures_witness :
  Config.base_url
    (Ok (JDict [("url", JStr "https://example.com");
                ("environments", JDict [("qa", JDict [])])])) "qa"
  = Raise KeyError.
Proof.
  apply (proj1 (base_url_failures "qa")
           [("url", JStr "https://example.com");
            ("environments", JDict [("qa", JDict [])])]
           [("qa", JDict [])] (JDict [])); try reflexivity.
  by intros fields [= <-].
Defined.

(** X21. The overrides of the command line raise in two cases only:
    capabilities that [json.loads] refuses, and a page load wait time (in
    ASCII) made of digits alone but of more than 4300 of them, which
    [isdigit] lets through and [int] refuses with a [ValueError].  In both
    cases the overrides placed before the failing one (the remote url, for
    one) have already been written to the configuration, and none of the
    later ones. *)
Theorem override_raises_for_caps_or_long_wait r loads c :
  let wait := Config.opt_page_load_wait_time r in
  let res := Config._override_pylenium_config_values r loads c in
  let caps_ok :=
    Config.nonempty (Config.opt_caps r) = false \/
    exists caps, loads (Config.opt_caps r) = Ok caps in
  let too_long :=
    Config.isdigit wait = true /\
    max_str_digits < Z.of_nat (String.length wait) in
  is_ascii wait = true ->
  (fst res = Ok tt <-> caps_ok /\ ~ too_long) /\
  (forall e,
     fst res = Raise e ->
     ((Config.nonempty (Config.opt_caps r) = true /\
       loads (Config.opt_caps r) = Raise e /\
       Config.capabilities (Config.driver (snd res))
       = Config.capabilities (Config.driver c)) \/
      (caps_ok /\ too_long /\ e = ValueError)) /\
     Config.logging (snd res) = Config.logging c /\
     Config.page_load_wait_time (Config.driver (snd res))
     = Config.page_load_wait_time (Config.driver c) /\
     Config.extension_paths (Config.driver (snd res))
     = Config.extension_paths (Config.driver c) /\
     (Config.nonempty (Config.opt_remote_url r) = true ->
      Config.remote_url (Config.driver (snd res)) = Config.opt_remote_url r)).
Proof.
  cbv zeta. intros _. rewrite ConfigFacts.override_run.
  destruct (ConfigFacts.wait_outcome_cases r c)
    as [(Hdigit & Hlong & Hwait)|(Hshort & n & Hwait & _)]; rewrite Hwait;
    (destruct (Config.nonempty (Config.opt_caps r)) eqn:Hcaps;
     [destruct (loads (Config.opt_caps r)) as [caps|e'] eqn:Hloads|]);
    cbn [fst snd]; (split; [split|]).
  - done.
  - by intros [_ []].
  - intros e [= <-]. split; [right; split; [right; by eexists|done]|].
    ConfigFacts.override_frame.
  - done.
  - by intros [[|[? ?]] _].
  - intros e [= <-]. split; [by left|]. ConfigFacts.override_frame.
  - done.
  - by intros [_ []].
  - intros e [= <-]. split; [right; split; [by left|done]|].
    ConfigFacts.override_frame.
  - intros _. split; [right; by eexists|exact Hshort].
  - done.
  - done.
  - done.
  - by intros [[|[? ?]] _].
  - intros e [= <-]. split; [by left|]. ConfigFacts.override_frame.
  - intros _. split; [by left|exact Hshort].
  - done.
  - done.
Qed.

Lemma override_raises_for_caps_or_long_wait_witness :
  is_ascii (Config.opt_page_load_wait_time long_wait_cli) = true /\
  Config.isdigit (Config.opt_page_load_wait_time long_wait_cli) = true /\
  fst (Config._override_pylenium_config_values long_wait_cli
         (fun _ => Raise ValueError) a_config) = Raise ValueError /\
  Config.remote_url (Config.driver (snd
    (Config._override_pylenium_config_values long_wait_cli
       (fun _ => Raise ValueError) a_config))) = "http://grid:4444" /\
  Config.logging (snd
    (Config._override_pylenium_config_values long_wait_cli
       (fun _ => Raise ValueError) a_config)) = Config.logging a_config.
Proof.
  assert (Hascii : is_ascii (Config.opt_page_load_wait_time long_wait_cli) = true)
    by (vm_compute; reflexivity).
  assert (Hraise : fst (Config._override_pylenium_config_values long_wait_cli
                          (fun _ => Raise ValueError) a_config) = Raise ValueError)
    by (vm_compute; reflexivity).
  split; [exact Hascii|]. split; [vm_compute; reflexivity|].
  split; [exact Hraise|].
  destruct (proj2 (override_raises_for_caps_or_long_wait long_wait_cli
                     (fun _ => Raise ValueError) a_config Hascii)
              ValueError Hraise) as (_ & Hlog & _ & _ & Hurl).
  split; [apply Hurl; reflexivity|exact Hlog].
Defined.

(** X22. What the options, in ASCII, mean when the overrides return: any option for
    the screenshots that is not empty sets the flag, to true exactly when
    the option reads "true" in whatever case, so that "yes", "1" or "on"
    switch the screenshots off; the page load wait time is replaced only by
    an option made of digits alone, by the number it reads, which is not
    negative, and an option with a sign, a blank or a point is ignored; an
    empty option leaves its field as loaded. *)
Theorem override_option_meaning r loads c :
  is_ascii (Config.opt_screenshots_on r) = true ->
  is_ascii (Config.opt_page_load_wait_time r) = true ->
  let res := Config._override_pylenium_config_values r loads c in
  let opt := Config.opt_screenshots_on r in
  let wait := Config.opt_page_load_wait_time r in
  fst res = Ok tt ->
  Config.screenshots_on (Config.logging (snd res))
  = (if Config.nonempty opt then String.eqb (upper opt) "TRUE"
     else Config.screenshots_on (Config.logging c)) /\
  (Config.isdigit wait = true ->
   int_of_string wait
   = Some (Config.page_load_wait_time (Config.driver (snd res))) /\
   0 <= Config.page_load_wait_time (Config.driver (snd res))) /\
  (Config.isdigit wait = false ->
   Config.page_load_wait_time (Config.driver (snd res))
   = Config.page_load_wait_time (Config.driver c)) /\
  (r = Config.default_cli ->
   snd res
   = {| Config.driver := Config.driver c;
        Config.logging :=
          {| Config.screenshots_on := Config.screenshots_on (Config.logging c);
             Config.pylog_level := "INFO" |} |}).
Proof.
  intros _ _. cbv zeta. rewrite ConfigFacts.override_run.
  destruct (if Config.nonempty (Config.opt_caps r) then _ else _)
    as [caps|e] eqn:Hcaps; [|by cbn [fst]].
  destruct (ConfigFacts.wait_outcome_cases r c)
    as [(_ & _ & Hwait)|(_ & n & Hwait & Hdigits & Hkept)]; rewrite Hwait;
    [by cbn [fst]|].
  intros _. cbn [snd]. unfold overridden.
  cbn [Config.driver Config.logging Config.screenshots_on
       Config.page_load_wait_time].
  split; [|split; [|split]].
  - destruct (Config.nonempty (Config.opt_screenshots_on r)); [|done].
    apply eq_true_iff_eq. rewrite !String.eqb_eq.
    symmetry. by apply upper_iff_lower.
  - exact Hdigits.
  - exact Hkept.
  - intros ->. cbn in Hcaps. injection Hcaps as <-.
    cbn in Hwait. injection Hwait as <-.
    destruct c as [[] []]. reflexivity.
Qed.

Lemma override_option_meaning_witness :
  Config.screenshots_on (Config.logging (snd
    (Config._override_pylenium_config_values yes_cli (fun _ => Raise ValueError)
       a_config))) = false /\
  Config.page_load_wait_time (Config.driver (snd
    (Config._override_pylenium_config_values yes_cli (fun _ => Raise ValueError)
       a_config))) = 30.
Proof.
  assert (Hok : fst (Config._override_pylenium_config_values yes_cli
                       (fun _ => Raise ValueError) a_config) = Ok tt)
    by reflexivity.
  destruct (override_option_meaning yes_cli (fun _ => Raise ValueError)
              a_config eq_refl eq_refl Hok) as (Hshots & _ & Hwait & _).
  split.
  - rewrite Hshots. reflexivity.
  - rewrite (Hwait eq_refl). reflexivity.
Defined.

(** X23. The log level of the configuration file never takes effect on its
    own: the option has the default "INFO", and an option that is not empty
    replaces the level of the file by its upper case (for an option in
    ASCII). *)
Theorem file_log_level_is_overridden r loads c :
  is_ascii (Config.opt_pylog_level r) = true ->
  let res := Config._override_pylenium_config_values r loads c in
  fst res = Ok tt ->
  Config.opt_pylog_level r <> "" ->
  Config.pylog_level (Config.logging (snd res))
  = upper (Config.opt_pylog_level r) /\
  (Config.opt_pylog_level r = Config.opt_pylog_level Config.default_cli ->
   Config.pylog_level (Config.logging (snd res)) = "INFO").
Proof.
  intros _. cbv zeta. rewrite ConfigFacts.override_run.
  destruct (if Config.nonempty (Config.opt_caps r) then _ else _)
    as [caps|e]; [|by cbn [fst]].
  destruct (wait_outcome r c) as [n|e]; [|by cbn [fst]].
  intros _ Hlevel. cbn [snd]. unfold overridden.
  cbn [Config.logging Config.pylog_level]. unfold Config.nonempty.
  destruct (String.eqb_spec (Config.opt_pylog_level r) ""); [done|].
  cbn [negb]. split; [done|]. by intros ->.
Qed.

Lemma file_log_level_is_overridden_witness :
  Config.pylog_level (Config.logging a_config) = "DEBUG" /\
  Config.pylog_level (Config.logging (snd
    (Config._override_pylenium_config_values Config.default_cli
       (fun _ => Raise ValueError) a_config))) = "INFO".
Proof.
  split; [reflexivity|].
  apply (file_log_level_is_overridden Config.default_cli
           (fun _ => Raise ValueError) a_config);
    [reflexivity|reflexivity|discriminate|reflexivity].
Defined.

(** ** The logger provider and the screenshot handler, in full *)

Module LoggerMore.
Import Logger LoggerFacts.

(** The registry a first call leaves when the directory or the log file
    cannot be made: the level is set, no handler is attached. *)
Lemma get_logger_fails w reg name e :
  lg_handlers (the_logger reg (logger_key name)) = [] ->
  makedirs w "logs" = Some e \/
  (makedirs w "logs" = None /\
   open_file w ("logs/" +:+ name +:+ "_" +:+ today w +:+ ".log") = Some e) ->
  get_logger name w reg
  = (Raise e,
     <[logger_key name :=
         {| lg_level := Some ApiHelper.INFO; lg_handlers := [] |}]> reg).
Proof.
  intros Hh Hwhy. log_unfold. unfold the_logger in *.
  destruct (reg !! logger_key name) as [lg|] eqn:Hreg; simpl in Hh;
    cbn [fst snd].
  - rewrite Hreg. reg_simpl. rewrite Hh.
    destruct Hwhy as [Hdir|[Hdir Hopen]]; rewrite Hdir; reg_simpl;
      rewrite ?Hopen, ?Hreg; reg_simpl; by rewrite Hh.
  - reg_simpl.
    destruct Hwhy as [Hdir|[Hdir Hopen]]; rewrite Hdir; reg_simpl;
      [done|]. rewrite Hopen. by reg_simpl.
Qed.

(** Every call leaves the registry as it is or writes the one logger. *)
Lemma get_logger_writes_one w reg name :
  snd (get_logger name w reg) = reg \/
  exists lg,
    lg_handlers (the_logger reg (logger_key name)) = [] /\
    lg_level lg = Some ApiHelper.INFO /\
    snd (get_logger name w reg) = <[logger_key name := lg]> reg.
Proof.
  destruct (lg_handlers (the_logger reg (logger_key name))) as [|h hs] eqn:Hh.
  - right. destruct (makedirs w "logs") as [e|] eqn:Hdir.
    { rewrite (get_logger_fails w reg name e) by auto.
      eexists; split; [done|]; split; [|reflexivity]; reflexivity. }
    destruct (open_file w ("logs/" +:+ name +:+ "_" +:+ today w +:+ ".log"))
      as [e|] eqn:Hopen.
    { rewrite (get_logger_fails w reg name e) by auto.
      eexists; split; [done|]; split; [|reflexivity]; reflexivity. }
    rewrite get_logger_first by done.
    eexists; split; [done|]; split; [|reflexivity]; reflexivity.
  - left. rewrite get_logger_configured; [done|by rewrite Hh].
Qed.

End LoggerMore.

(** X24. [get_logger] touches no logger but the one it is asked for; it
    leaves a logger that has handlers at the level it has; and it sets the
    level of a logger without handlers to INFO, also when it then raises
    on the directory or on the log file. *)
Theorem get_logger_touches_one_logger (w : Logger.World)
    (reg : Logger.registry) (name : string) :
  let key := Logger.logger_key name in
  let reg1 := snd (Logger.get_logger name w reg) in
  (forall k, k <> key -> reg1 !! k = reg !! k) /\
  (Logger.lg_handlers (Logger.the_logger reg key) <> [] -> reg1 = reg) /\
  (Logger.lg_handlers (Logger.the_logger reg key) = [] ->
   Logger.lg_level (Logger.the_logger reg1 key) = Some ApiHelper.INFO).
Proof.
  cbv zeta. split; [|split].
  - intros k Hk.
    destruct (LoggerMore.get_logger_writes_one w reg name)
      as [->|(lg & _ & _ & ->)]; [done|].
    by rewrite lookup_insert_ne.
  - intros Hh. by rewrite LoggerFacts.get_logger_configured.
  - intros Hh.
    destruct (LoggerMore.get_logger_writes_one w reg name)
      as [Hsame|(lg & _ & Hlevel & ->)].
    + destruct (Logger.makedirs w "logs") as [e|] eqn:Hdir.
      { rewrite (LoggerMore.get_logger_fails w reg name e) by auto.
        unfold Logger.the_logger. cbn [snd]. by rewrite lookup_insert_eq. }
      destruct (Logger.open_file w
                  ("logs/" +:+ name +:+ "_" +:+ Logger.today w +:+ ".log"))
        as [e|] eqn:Hopen.
      { rewrite (LoggerMore.get_logger_fails w reg name e) by auto.
        unfold Logger.the_logger. cbn [snd]. by rewrite lookup_insert_eq. }
      rewrite LoggerFacts.get_logger_first by done.
      unfold Logger.the_logger, Logger.configured. cbn [snd].
      by rewrite lookup_insert_eq.
    + unfold Logger.the_logger. by rewrite lookup_insert_eq.
Qed.

Lemma get_logger_touches_one_logger_witness :
  snd (Logger.get_logger "api_helper" working_fs ∅) !! "conftest" = None.
Proof.
  destruct (get_logger_touches_one_logger working_fs ∅ "api_helper")
    as (Hother & _).
  by rewrite Hother.
Defined.

(** X25. A first call that cannot make the directory or open the log file
    raises that error and attaches nothing, so the logger is not taken for
    configured: the next call with the name tries again, and once the file
    opens the logger is as a first call would have left it. *)
Theorem get_logger_retries_after_failure (w w' : Logger.World)
    (reg : Logger.registry) (name : string) (e : exn) :
  let key := Logger.logger_key name in
  let path v := "logs/" +:+ name +:+ "_" +:+ Logger.today v +:+ ".log" in
  Logger.lg_handlers (Logger.the_logger reg key) = [] ->
  Logger.makedirs w "logs" = Some e \/
  (Logger.makedirs w "logs" = None /\ Logger.open_file w (path w) = Some e) ->
  Logger.makedirs w' "logs" = None ->
  Logger.open_file w' (path w') = None ->
  let r := Logger.get_logger name w reg in
  fst r = Raise e /\
  Logger.lg_handlers (Logger.the_logger (snd r) key) = [] /\
  Logger.get_logger name w' (snd r)
  = (Ok key, Logger.configured w' reg name).
Proof.
  cbv zeta. intros Hh Hwhy Hdir Hopen.
  rewrite (LoggerMore.get_logger_fails w reg name e Hh Hwhy). cbn [fst snd].
  assert (Hnone : Logger.lg_handlers
            (Logger.the_logger
               (<[Logger.logger_key name :=
                    {| Logger.lg_level := Some ApiHelper.INFO;
                       Logger.lg_handlers := [] |}]> reg)
               (Logger.logger_key name)) = []).
  { unfold Logger.the_logger. by rewrite lookup_insert_eq. }
  split; [done|]. split; [exact Hnone|].
  rewrite LoggerFacts.get_logger_first by done.
  unfold Logger.configured. by rewrite insert_insert_eq.
Qed.

Lemma get_logger_retries_after_failure_witness :
  fst (Logger.get_logger "conftest" broken_fs ∅) = Raise OSError /\
  Logger.get_logger "conftest" working_fs
    (snd (Logger.get_logger "conftest" broken_fs ∅))
  = (Ok "conftest", Logger.configured working_fs ∅ "conftest").
Proof.
  destruct (get_logger_retries_after_failure broken_fs working_fs ∅ "conftest"
              OSError) as (Hraise & _ & Hretry);
    [reflexivity|by left|reflexivity|reflexivity|].
  split; [exact Hraise|exact Hretry].
Defined.

(** X26. The logger is found by the name logging knows it by, the log file
    is named after the name of the call: once a call has returned, a call
    with another name of the same logger (the root logger answers to ""
    and to "root") returns that logger and opens no second file. *)
Theorem get_logger_aliases_share_handlers (w w' : Logger.World)
    (reg reg1 : Logger.registry) (name name' k : string) :
  Logger.logger_key name' = Logger.logger_key name ->
  Logger.get_logger name w reg = (Ok k, reg1) ->
  Logger.get_logger name' w' reg1 = (Ok k, reg1).
Proof.
  intros Hkey Hcall.
  destruct (LoggerFacts.get_logger_returns w reg name k reg1 Hcall) as [-> Hh].
  rewrite <- Hkey in *. by apply LoggerFacts.get_logger_configured.
Qed.

Lemma get_logger_aliases_share_handlers_witness :
  Logger.get_logger "root" working_fs
    (snd (Logger.get_logger "" working_fs ∅))
  = (Ok "root", snd (Logger.get_logger "" working_fs ∅)).
Proof.
  apply (get_logger_aliases_share_handlers working_fs working_fs ∅ _ "" "root");
    reflexivity.
Defined.

(** X27. What a capture leaves behind.  Once the directory is made and the
    screenshot taken, both are on record whatever the attachment does; the
    path is appended to the extras of the report, those it had being kept,
    exactly when pytest-html is there and builds the image, also when
    allure then fails; and the file is attached to allure exactly when,
    after that, it can be read and allure takes it. *)
Theorem capture_effects (w : Screenshot.World) (s : Screenshot.State)
    (it : Screenshot.item) (handle : nat) :
  let name := Screenshot.item_name it +:+ "_" +:+ Screenshot.now_stamp w
              +:+ ".png" in
  let path := Screenshot.screenshot_path name in
  let html :=
    bool_decide (Screenshot.import_pytest_html w = None) &&
    bool_decide (Screenshot.extras_image w path = None) in
  let allure :=
    html && bool_decide (Screenshot.read_file w path = None) &&
    bool_decide (Screenshot.allure_attach w path name = None) in
  Screenshot.funcargs it !! "py" = Some (Screenshot.Driver handle) ->
  Screenshot.makedirs w "reports/screenshots" = None ->
  Screenshot.screenshot w handle path = None ->
  let s' := snd (Screenshot.save_screenshot_on_failure it w s) in
  Screenshot.directories s'
  = Screenshot.directories s ++ ["reports/screenshots"] /\
  Screenshot.screenshots s' = Screenshot.screenshots s ++ [(handle, path)] /\
  Screenshot.report_extra s'
  = (if html then Some (default [] (Screenshot.report_extra s) ++ [path])
     else Screenshot.report_extra s) /\
  Screenshot.attachments s'
  = Screenshot.attachments s ++ (if allure then [(path, name)] else []).
Proof.
  cbv zeta. intros Hpy Hdir Hshot. ScreenshotFacts.shot_unfold.
  rewrite Hpy, Hdir. cbn [fst snd]. rewrite Hshot.
  destruct (Screenshot.import_pytest_html w);
    [cbn; by rewrite app_nil_r|]. cbn [fst snd].
  destruct (Screenshot.extras_image w _);
    [cbn; by rewrite app_nil_r|]. cbn [fst snd].
  destruct (Screenshot.read_file w _);
    [cbn; by rewrite app_nil_r|]. cbn [fst snd].
  destruct (Screenshot.allure_attach w _ _); cbn; by rewrite ?app_nil_r.
Qed.

Lemma capture_effects_witness :
  Screenshot.screenshots
    (snd (Screenshot.save_screenshot_on_failure failing_item no_html_world
            empty_report))
  = [(1%nat, "reports/screenshots/test_login_invalid_20240101_000000.png")] /\
  Screenshot.report_extra
    (snd (Screenshot.save_screenshot_on_failure failing_item no_html_world
            empty_report))
  = None.
Proof.
  destruct (capture_effects no_html_world empty_report failing_item 1%nat)
    as (_ & Hshots & Hextra & _); [reflexivity..|].
  split; [exact Hshots|exact Hextra].
Defined.
